(** * Timezones for ZeppOS: a shallow embedding of [tz-import.src.js]

    The development follows the source file top to bottom:
    - [JsNum], [JsString]: the fragment of JavaScript numbers and strings the
      library relies on (decimal printing, [parseInt], [split], [padStart],
      the two offset regular expressions);
    - [JsDouble]: the binary64 numbers of the two places that compute with
      fractions, the string similarity and the geo approximator;
    - [JsDate]: the ECMAScript time-value arithmetic behind [Date.UTC],
      [getUTCDay], [setUTCDate] and the host-local getters;
    - [Tz]: the [Timezones] class itself, its private caches threaded through
      a state-and-exception monad, and the statements proved about it. *)

From Stdlib Require Import ZArith QArith Qabs Lia Lqa String Ascii.
From Stdlib Require Import DecimalString DecimalPos DecimalZ SpecFloat.
From stdpp Require Import gmap strings list.

Local Open Scope Z_scope.

(** Arithmetic goals below mention floor division by literals. *)
Ltac zdiv := Z.to_euclidean_division_equations; lia.

(* ===================================================================== *)
(** ** JavaScript numbers *)
(* ===================================================================== *)

Module JsNum.

(** The numbers that reach the code are integers (minutes, milliseconds,
    calendar fields) or [NaN]. *)
Inductive jsnum : Type :=
  | NaN
  | Num (z : Z).

#[global] Instance jsnum_eq_dec : EqDecision jsnum.
Proof. solve_decision. Defined.

(** [Number.prototype.toString()] on an integer. *)
Definition Z_to_string (z : Z) : string := NilZero.string_of_int (Z.to_int z).

Definition num_to_string (n : jsnum) : string :=
  match n with
  | NaN => "NaN"
  | Num z => Z_to_string z
  end.

(** Relational operators: every comparison with [NaN] is false. *)
Definition lt (a b : jsnum) : bool :=
  match a, b with
  | Num x, Num y => x <? y
  | _, _ => false
  end.

Definition le (a b : jsnum) : bool :=
  match a, b with
  | Num x, Num y => x <=? y
  | _, _ => false
  end.

Definition ge (a b : jsnum) : bool := le b a.

(** [ToInt32], used by the bitwise operators. *)
Definition ToInt32 (n : jsnum) : Z :=
  match n with
  | NaN => 0
  | Num z => let r := z mod 2 ^ 32 in if r <? 2 ^ 31 then r else r - 2 ^ 32
  end.

End JsNum.
Export JsNum.

(* ===================================================================== *)
(** ** JavaScript numbers with fractions: IEEE 754 binary64 *)
(* ===================================================================== *)

Module JsDouble.

(** A [Number] as the engine holds it: the binary64 format of the Standard
    Library ([prec = 53], [emax = 1024]), with one quiet [NaN] and rounding
    to nearest, ties to even.  The doubles are the values that satisfy
    [valid_binary prec emax]; the operations below return such values on
    such arguments, and a statement made for every [spec_float] holds for
    every double. *)
Definition double : Type := spec_float.

Definition prec : Z := 53.
Definition emax : Z := 1024.

(** The [Number] value of an integer. *)
Definition of_Z (z : Z) : double := binary_normalize prec emax z 0 false.

Definition of_nat (n : nat) : double := of_Z (Z.of_nat n).

(** [+], [-], [*] and [/]. *)
Definition add (x y : double) : double := SFadd prec emax x y.
Definition sub (x y : double) : double := SFsub prec emax x y.
Definition mul (x y : double) : double := SFmul prec emax x y.
Definition div (x y : double) : double := SFdiv prec emax x y.

(** [x < y], [x > y] and [x <= y]; all are false when an operand is
    [NaN]. *)
Definition lt (x y : double) : bool := SFltb x y.
Definition gt (x y : double) : bool := SFltb y x.
Definition le (x y : double) : bool := SFleb x y.

Definition is_nan (x : double) : bool :=
  match x with
  | S754_nan => true
  | _ => false
  end.

(** An integer as an unrounded mantissa. *)
Definition raw (z : Z) : double :=
  match z with
  | Z0 => S754_zero false
  | Zpos p => S754_finite false p 0
  | Zneg p => S754_finite true p 0
  end.

(** The [Number] value of a rational: the double nearest to it, as for a
    decimal literal of the source text. *)
Definition of_Q (q : Q) : double := div (raw (Qnum q)) (raw (Zpos (Qden q))).

(** The literal [n/d] written as a decimal: [dec 8 10] is [0.8]. *)
Definition dec (n : Z) (d : positive) : double := of_Q (n # d).

(** The place of a double in the order of [<]: sign class, then exponent,
    then mantissa; [None] for [NaN]. *)
Definition ord (x : double) : option (Z * Z * Z) :=
  match x with
  | S754_nan => None
  | S754_zero _ => Some (0, 0, 0)
  | S754_infinity s => Some (if s then -2 else 2, 0, 0)
  | S754_finite s m e => Some (if s then (-1, - e, Z.neg m) else (1, e, Z.pos m))
  end.

Definition lex3 (a b : Z * Z * Z) : comparison :=
  let '(a1, a2, a3) := a in
  let '(b1, b2, b3) := b in
  match a1 ?= b1 with
  | Eq => match a2 ?= b2 with
          | Eq => a3 ?= b3
          | c => c
          end
  | c => c
  end.

End JsDouble.

(* ===================================================================== *)
(** ** JavaScript strings (ASCII fragment) *)
(* ===================================================================== *)

Module JsString.

Local Open Scope string_scope.
Local Open Scope Z_scope.

Definition is_digit (c : ascii) : bool :=
  let n := N_of_ascii c in ((48 <=? n) && (n <=? 57))%N.

Definition digit_val (c : ascii) : Z := Z.of_N (N_of_ascii c) - 48.

Definition hex_val (c : ascii) : option Z :=
  let n := Z.of_N (N_of_ascii c) in
  if (48 <=? n) && (n <=? 57) then Some (n - 48)
  else if (97 <=? n) && (n <=? 102) then Some (n - 87)
  else if (65 <=? n) && (n <=? 70) then Some (n - 55)
  else None.

Definition is_space (c : ascii) : bool :=
  let n := N_of_ascii c in
  ((n =? 32) || ((9 <=? n) && (n <=? 13)))%N.

(** [s.startsWith(p)] *)
Definition startsWith (s p : string) : bool := String.prefix p s.

(** [s.includes(sub)] *)
Fixpoint includes (s sub : string) : bool :=
  String.prefix sub s ||
  match s with
  | EmptyString => false
  | String _ s' => includes s' sub
  end.

(** [s.split(c)] for a one-character separator: never the empty array. *)
Fixpoint split (c : ascii) (s : string) : list string :=
  match s with
  | EmptyString => [EmptyString]
  | String a s' =>
      if Ascii.eqb a c then EmptyString :: split c s'
      else match split c s' with
           | h :: t => String a h :: t
           | [] => [String a EmptyString]
           end
  end.

Definition lower_char (c : ascii) : ascii :=
  let n := N_of_ascii c in
  if ((65 <=? n) && (n <=? 90))%N then ascii_of_N (n + 32) else c.

(** [s.toLowerCase()] *)
Fixpoint toLowerCase (s : string) : string :=
  match s with
  | EmptyString => EmptyString
  | String c s' => String (lower_char c) (toLowerCase s')
  end.

(** [s.indexOf(c)]: [None] stands for -1. *)
Fixpoint indexOf (c : ascii) (s : string) : option nat :=
  match s with
  | EmptyString => None
  | String a s' => if Ascii.eqb a c then Some O else S <$> indexOf c s'
  end.

(** [s.replace(/[+-]/, '')]: drops the first sign character, wherever it is. *)
Fixpoint replace_sign (s : string) : string :=
  match s with
  | EmptyString => EmptyString
  | String a s' =>
      if Ascii.eqb a "+" || Ascii.eqb a "-" then s' else String a (replace_sign s')
  end.

Fixpoint skip_space (s : string) : string :=
  match s with
  | String a s' => if is_space a then skip_space s' else s
  | EmptyString => s
  end.

(** Longest prefix of decimal digits, read as a number; [None] when empty. *)
Fixpoint digits_prefix (acc : option Z) (s : string) : option Z :=
  match s with
  | String a s' =>
      if is_digit a
      then digits_prefix (Some (10 * default 0 acc + digit_val a)) s'
      else acc
  | EmptyString => acc
  end.

Fixpoint hex_prefix (acc : option Z) (s : string) : option Z :=
  match s with
  | String a s' =>
      match hex_val a with
      | Some v => hex_prefix (Some (16 * default 0 acc + v)) s'
      | None => acc
      end
  | EmptyString => acc
  end.

Definition signed (neg : bool) (o : option Z) : jsnum :=
  match o with
  | Some v => Num (if neg then - v else v)
  | None => NaN
  end.

(** [parseInt(s, 10)] *)
Definition parseInt10 (s : string) : jsnum :=
  match skip_space s with
  | String "-" r => signed true (digits_prefix None r)
  | String "+" r => signed false (digits_prefix None r)
  | r => signed false (digits_prefix None r)
  end.

Definition strip_0x (s : string) : string :=
  match s with
  | String "0" (String "x" r) => r
  | String "0" (String "X" r) => r
  | _ => s
  end.

(** [parseInt(s, 16)]: an optional [0x] prefix is allowed for radix 16.  The
    value is the exact integer: a string of more than 13 hexadecimal digits,
    whose value [parseInt] rounds to a double, is outside the model (a DST
    rule has 2 to 4). *)
Definition parseInt16 (s : string) : jsnum :=
  match skip_space s with
  | String "-" r => signed true (hex_prefix None (strip_0x r))
  | String "+" r => signed false (hex_prefix None (strip_0x r))
  | r => signed false (hex_prefix None (strip_0x r))
  end.

Fixpoint zeros (n : nat) : string :=
  match n with
  | O => EmptyString
  | S n' => String "0" (zeros n')
  end.

(** [s.padStart(len, '0')] *)
Definition padStart0 (len : nat) (s : string) : string :=
  (zeros (len - String.length s) ++ s)%string.

(** The helper [pad(num, len)] at the end of the source file. *)
Definition pad (num : jsnum) (len : nat) : string :=
  padStart0 len (num_to_string num).

(** [/^[-+]?\d{1,2}(:\d{2})?$/.test(s)] *)
Definition HH_MM_OFFSET_REGEX (s : string) : bool :=
  let body :=
    match s with
    | String a r => if Ascii.eqb a "-" || Ascii.eqb a "+" then r else s
    | EmptyString => s
    end in
  let tail (r : string) : bool :=
    match r with
    | EmptyString => true
    | String ":" (String d1 (String d2 EmptyString)) => is_digit d1 && is_digit d2
    | _ => false
    end in
  match body with
  | String d1 r =>
      is_digit d1 &&
      (tail r ||
       match r with
       | String d2 r' => is_digit d2 && tail r'
       | EmptyString => false
       end)
  | EmptyString => false
  end.

(** [s.match(/^([+-])(\d{2}):?(\d{2})$/)] with its three capture groups. *)
Definition match_offset (s : string) : option (ascii * string * string) :=
  match s with
  | String sg (String h1 (String h2 r)) =>
      if (Ascii.eqb sg "+" || Ascii.eqb sg "-") && is_digit h1 && is_digit h2 then
        let r' := match r with String ":" r' => r' | _ => r end in
        let hh := String h1 (String h2 EmptyString) in
        let try (r0 : string) :=
          match r0 with
          | String m1 (String m2 EmptyString) =>
              if is_digit m1 && is_digit m2
              then Some (sg, hh, String m1 (String m2 EmptyString))
              else None
          | _ => None
          end in
        try r'
      else None
  | _ => None
  end.

End JsString.

(* ===================================================================== *)
(** ** ECMAScript time values *)
(* ===================================================================== *)

Module JsDate.

Definition msPerSecond : Z := 1000.
Definition msPerMinute : Z := 60000.
Definition msPerHour : Z := 3600000.
Definition msPerDay : Z := 86400000.

Definition Day (t : Z) : Z := t / msPerDay.
Definition TimeWithinDay (t : Z) : Z := t mod msPerDay.

Definition InLeapYear (y : Z) : bool :=
  if negb (y mod 4 =? 0) then false
  else if negb (y mod 100 =? 0) then true
  else if negb (y mod 400 =? 0) then false
  else true.

Definition DaysInYear (y : Z) : Z := if InLeapYear y then 366 else 365.

Definition DayFromYear (y : Z) : Z :=
  365 * (y - 1970) + (y - 1969) / 4 - (y - 1901) / 100 + (y - 1601) / 400.

(** The year whose first day is the latest one not after day [d]: an
    estimate from the mean year length, corrected by at most one. *)
Definition YearFromDay (d : Z) : Z :=
  let y0 := 1970 + (400 * d) / 146097 in
  if DayFromYear (y0 + 1) <=? d then y0 + 1
  else if DayFromYear y0 <=? d then y0
  else y0 - 1.

Definition YearFromTime (t : Z) : Z := YearFromDay (Day t).

Definition DayWithinYear (t : Z) : Z := Day t - DayFromYear (YearFromTime t).

(** Day number, within its year, of the first day of month [m] (0-based). *)
Definition month_start (leap : bool) (m : Z) : Z :=
  let l := if leap then 1 else 0 in
  match m with
  | 0 => 0
  | 1 => 31
  | 2 => 59 + l
  | 3 => 90 + l
  | 4 => 120 + l
  | 5 => 151 + l
  | 6 => 181 + l
  | 7 => 212 + l
  | 8 => 243 + l
  | 9 => 273 + l
  | 10 => 304 + l
  | 11 => 334 + l
  | _ => 365 + l
  end.

Definition month_of_yday (leap : bool) (d : Z) : Z :=
  if d <? month_start leap 1 then 0
  else if d <? month_start leap 2 then 1
  else if d <? month_start leap 3 then 2
  else if d <? month_start leap 4 then 3
  else if d <? month_start leap 5 then 4
  else if d <? month_start leap 6 then 5
  else if d <? month_start leap 7 then 6
  else if d <? month_start leap 8 then 7
  else if d <? month_start leap 9 then 8
  else if d <? month_start leap 10 then 9
  else if d <? month_start leap 11 then 10
  else 11.

Definition MonthFromTime (t : Z) : Z :=
  month_of_yday (InLeapYear (YearFromTime t)) (DayWithinYear t).

Definition DateFromTime (t : Z) : Z :=
  DayWithinYear t - month_start (InLeapYear (YearFromTime t)) (MonthFromTime t) + 1.

Definition WeekDay (t : Z) : Z := (Day t + 4) mod 7.

Definition HourFromTime (t : Z) : Z := (t / msPerHour) mod 24.
Definition MinFromTime (t : Z) : Z := (t / msPerMinute) mod 60.
Definition SecFromTime (t : Z) : Z := (t / msPerSecond) mod 60.

Definition MakeTime (h m s ms : Z) : Z :=
  h * msPerHour + m * msPerMinute + s * msPerSecond + ms.

Definition MakeDay (year month date : Z) : Z :=
  let ym := year + month / 12 in
  let mn := month mod 12 in
  DayFromYear ym + month_start (InLeapYear ym) mn + date - 1.

Definition MakeDate (day time : Z) : Z := day * msPerDay + time.

Definition maxTime : Z := 8640000000000000.

Definition TimeClip (t : Z) : jsnum :=
  if maxTime <? Z.abs t then NaN else Num t.

(** [Date.UTC(year, month, date, hours, minutes, seconds)]: years 0..99
    stand for 1900..1999. *)
Definition DateUTC (year month date hours minutes seconds : Z) : jsnum :=
  let yr := if (0 <=? year) && (year <=? 99) then 1900 + year else year in
  TimeClip (MakeDate (MakeDay yr month date) (MakeTime hours minutes seconds 0)).

(** A [Date] is its time value; [NaN] is the invalid date. *)
Definition getUTCDay (t : Z) : Z := WeekDay t.
Definition getUTCMonth (t : Z) : Z := MonthFromTime t.
Definition getUTCDate (t : Z) : Z := DateFromTime t.
Definition getUTCFullYear (t : Z) : Z := YearFromTime t.

(** [date.setUTCDate(dt)] on a valid date: the new time value. *)
Definition setUTCDate (t dt : Z) : jsnum :=
  TimeClip (MakeDate (MakeDay (YearFromTime t) (MonthFromTime t) dt) (TimeWithinDay t)).

Section Host.
(** The zone of the host: minutes east of UTC in force at time value [t],
    i.e. [-new Date(t).getTimezoneOffset()]. *)
Variable host_offset : Z -> Z.

Definition LocalTime (t : Z) : Z := t + host_offset t * msPerMinute.

Definition getTimezoneOffset (t : Z) : Z := - host_offset t.
Definition getFullYear (t : Z) : Z := YearFromTime (LocalTime t).
Definition getMonth (t : Z) : Z := MonthFromTime (LocalTime t).
Definition getDate (t : Z) : Z := DateFromTime (LocalTime t).
Definition getHours (t : Z) : Z := HourFromTime (LocalTime t).
Definition getMinutes (t : Z) : Z := MinFromTime (LocalTime t).
Definition getSeconds (t : Z) : Z := SecFromTime (LocalTime t).
End Host.

End JsDate.
Export JsDate.

(* ===================================================================== *)
(** ** The [Timezones] class *)
(* ===================================================================== *)

Module Tz.

Import JsString.
Local Open Scope string_scope.
Local Open Scope Z_scope.

(** One row of [core_tz_db]; the source reads the rows as tuples, by index. *)
Record ZoneRecord : Type := mkZone {
  tz0_code : string;       (* tz[0] *)
  tz1_tz_id : string;      (* tz[1] *)
  tz2_utc_sdt : string;    (* tz[2] *)
  tz3_utc_dst : string;    (* tz[3] *)
  tz4_tz_sdt : string;     (* tz[4] *)
  tz5_tz_dst : string;     (* tz[5] *)
  tz6_continent : string;  (* tz[6] *)
  tz7_lat : Q;             (* tz[7], as the table writes it *)
  tz8_lon : Q;             (* tz[8], as the table writes it *)
  tz9_dst_rule : string    (* tz[9] *)
}.

(** The rows are arrays: a named property such as [tz.utc_dst] is
    [undefined] on them. *)
Definition row_utc_dst (tz : ZoneRecord) : option string := None.

(** The constructor argument: [null], a number of hours, or a string. *)
Inductive hint : Type :=
  | HNull
  | HNum (hours : Z)
  | HStr (s : string).

Definition truthy (h : hint) : bool :=
  match h with
  | HNull => false
  | HNum z => negb (z =? 0)
  | HStr s => negb (String.eqb s "")
  end.

(** An entry of [#spatial_index]. *)
Record index_entry : Type := mkEntry {
  ie_index : nat;
  ie_lat : JsDouble.double;
  ie_lon : JsDouble.double
}.

(** The private fields of an instance. *)
Record Timezones : Type := mkTz {
  default_offset : hint;
  default_offset_mins : option jsnum;
  location_cache : option string;
  dst_status_cache : option bool;
  tz_info_cache : gmap string (list ZoneRecord);
  offset_cache : gmap string jsnum;
  dst_cache : gmap string bool;
  nth_week_cache : gmap string Z;
  tz_data : option ZoneRecord;
  spatial_index : option (list index_entry)
}.

Definition set_default_offset_mins (v : option jsnum) (s : Timezones) : Timezones :=
  mkTz (default_offset s) v (location_cache s) (dst_status_cache s)
       (tz_info_cache s) (offset_cache s) (dst_cache s) (nth_week_cache s)
       (tz_data s) (spatial_index s).
Definition set_location_cache (v : option string) (s : Timezones) : Timezones :=
  mkTz (default_offset s) (default_offset_mins s) v (dst_status_cache s)
       (tz_info_cache s) (offset_cache s) (dst_cache s) (nth_week_cache s)
       (tz_data s) (spatial_index s).
Definition set_dst_status_cache (v : option bool) (s : Timezones) : Timezones :=
  mkTz (default_offset s) (default_offset_mins s) (location_cache s) v
       (tz_info_cache s) (offset_cache s) (dst_cache s) (nth_week_cache s)
       (tz_data s) (spatial_index s).
Definition set_tz_info_cache (v : gmap string (list ZoneRecord)) (s : Timezones) : Timezones :=
  mkTz (default_offset s) (default_offset_mins s) (location_cache s) (dst_status_cache s)
       v (offset_cache s) (dst_cache s) (nth_week_cache s)
       (tz_data s) (spatial_index s).
Definition set_offset_cache (v : gmap string jsnum) (s : Timezones) : Timezones :=
  mkTz (default_offset s) (default_offset_mins s) (location_cache s) (dst_status_cache s)
       (tz_info_cache s) v (dst_cache s) (nth_week_cache s)
       (tz_data s) (spatial_index s).
Definition set_dst_cache (v : gmap string bool) (s : Timezones) : Timezones :=
  mkTz (default_offset s) (default_offset_mins s) (location_cache s) (dst_status_cache s)
       (tz_info_cache s) (offset_cache s) v (nth_week_cache s)
       (tz_data s) (spatial_index s).
Definition set_nth_week_cache (v : gmap string Z) (s : Timezones) : Timezones :=
  mkTz (default_offset s) (default_offset_mins s) (location_cache s) (dst_status_cache s)
       (tz_info_cache s) (offset_cache s) (dst_cache s) v
       (tz_data s) (spatial_index s).
Definition set_spatial_index (v : option (list index_entry)) (s : Timezones) : Timezones :=
  mkTz (default_offset s) (default_offset_mins s) (location_cache s) (dst_status_cache s)
       (tz_info_cache s) (offset_cache s) (dst_cache s) (nth_week_cache s)
       (tz_data s) v.

(** *** Methods run in a state monad with exceptions *)

Inductive js_error : Type :=
  | TypeError
  | RangeError
  | Error (msg : string).

Inductive outcome (A : Type) : Type :=
  | Ok (a : A) (s : Timezones)
  | Throw (e : js_error) (s : Timezones).
Arguments Ok {A} a s.
Arguments Throw {A} e s.

Definition M (A : Type) : Type := Timezones -> outcome A.

Definition ret {A} (a : A) : M A := fun s => Ok a s.
Definition throw {A} (e : js_error) : M A := fun s => Throw e s.
Definition bind {A B} (m : M A) (k : A -> M B) : M B :=
  fun s => match m s with
           | Ok a s' => k a s'
           | Throw e s' => Throw e s'
           end.
Definition get : M Timezones := fun s => Ok s s.
Definition modify (f : Timezones -> Timezones) : M unit := fun s => Ok tt (f s).

Notation "'do' x <- m ; k" := (bind m (fun x => k))
  (at level 10, x name, m at level 100, k at level 200).
Notation "m ;; k" := (bind m (fun _ => k))
  (at level 100, k at level 200, right associativity).

(** The value a finished call returned, if it did return. *)
Definition value {A} (o : outcome A) : option A :=
  match o with Ok a _ => Some a | Throw _ _ => None end.
Definition final {A} (o : outcome A) : Timezones :=
  match o with Ok _ s => s | Throw _ s => s end.

(** [date.toISOString()] inside a log message: a [RangeError] on an invalid
    date (the message itself goes to the logger and is not modelled). *)
Definition toISOString (d : jsnum) : M Z :=
  match d with
  | NaN => throw RangeError
  | Num t => ret t
  end.

(** Left-to-right [Array.prototype.filter] with a callback that may throw. *)
Fixpoint filterM {A} (p : A -> M bool) (l : list A) : M (list A) :=
  match l with
  | [] => ret []
  | x :: r =>
      do b <- p x;
      do r' <- filterM p r;
      ret (if b then x :: r' else r')
  end.

(* --------------------------------------------------------------------- *)
(** Left-to-right [map] with a callback that may throw. *)
Fixpoint mapM {A B} (f : A -> M B) (l : list A) : M (list B) :=
  match l with
  | [] => ret []
  | x :: r =>
      do y <- f x;
      do r' <- mapM f r;
      ret (y :: r')
  end.

(* --------------------------------------------------------------------- *)
(** *** Offset codec *)

(** [#offset2str(tz_offset)] *)
Definition offset2str (tz_offset : jsnum) : string :=
  match tz_offset with
  | NaN => "-" ++ pad NaN 2 ++ ":" ++ pad NaN 2
  | Num z =>
      let ttl_mins := Z.abs z in
      let h := ttl_mins / 60 in
      let m := Z.rem ttl_mins 60 in
      let sign := if 0 <=? z then "+" else "-" in
      sign ++ pad (Num h) 2 ++ ":" ++ pad (Num m) 2
  end.

(** The body of [#str2offset] below the cache lookup. *)
Definition str2offset_compute (offset_str : string) : jsnum :=
  let parts :=
    if includes offset_str ":" then split ":" offset_str
    else [offset_str; "00"] in
  let h := parseInt10 (replace_sign (nth 0 parts "")) in
  let m := match parseInt10 (nth 1 parts "") with
           | NaN => 0
           | Num v => v   (* [|| 0] maps NaN and 0 to 0 *)
           end in
  match h with
  | NaN => NaN
  | Num hv =>
      let ttl_offset := hv * 60 + m in
      Num (if startsWith offset_str "-" then - ttl_offset else ttl_offset)
  end.

(** [#str2offset(offset_str)], memoised in [#offset_cache]. *)
Definition str2offset (offset_str : string) : M jsnum :=
  do s <- get;
  match offset_cache s !! offset_str with
  | Some v => ret v
  | None =>
      let result := str2offset_compute offset_str in
      modify (fun s => set_offset_cache (<[offset_str := result]> (offset_cache s)) s) ;;
      ret result
  end.

(** [#normalizeOffset(tz_offset)] on a number. *)
Definition normalizeOffset_num (tz_offset : jsnum) : string :=
  match tz_offset with
  | NaN => "+" ++ pad NaN 2 ++ ":" ++ pad NaN 2
  | Num z =>
      let h := Z.abs z / 60 in
      let m := Z.rem (Z.abs z) 60 in
      (if z <? 0 then "-" else "+") ++ pad (Num h) 2 ++ ":" ++ pad (Num m) 2
  end.

(** [#normalizeOffset(tz_offset)] on a string. *)
Definition normalizeOffset_str (tz_offset : string) : M string :=
  match match_offset tz_offset with
  | Some (sg, hh, mm) => ret (String sg hh ++ ":" ++ mm)
  | None => throw (Error "Invalid offset format")
  end.

Section Methods.

(** The imported table [core_tz_db] ([#tz_db] is a lazily initialised alias
    of it). *)
Variable core_tz_db : list ZoneRecord.

(** The zone of the host, as in [JsDate]. *)
Variable host_offset : Z -> Z.

(** [Timezones.GetCurrentDate().getTime()]: the simulated date when one is
    set, else the real clock, read as one instant during a query. *)
Variable now : Z.

(* --------------------------------------------------------------------- *)
(** *** DST rule engine *)

Definition nth_week_key (year month weekday n : Z) : string :=
  Z_to_string year ++ "_" ++ Z_to_string month ++ "_" ++
  Z_to_string weekday ++ "_" ++ Z_to_string n.

(** The body of [#nthWeekdayOfMonth] below the cache lookup.  The dates are
    printed into log messages with [toISOString], which throws on an invalid
    date. *)
Definition nthWeekdayOfMonth_compute (year month weekday n : Z) : M Z :=
  do t0 <- toISOString (DateUTC year (month - 1) 1 0 0 0);
  let day := getUTCDay t0 in
  let dt :=
    if n =? 0 then
      let diff := Z.rem (weekday - day + 7) 7 in
      1 + diff
    else
      let diff := weekday - day in
      1 + diff + (if diff <? 0 then 7 else 0) + (n - 1) * 7 in
  do t1 <- toISOString (setUTCDate t0 dt);
  do t2 <-
    (if negb (getUTCMonth t1 =? month - 1)
     then toISOString (setUTCDate t1 (getUTCDate t1 - 7))
     else ret t1);
  ret (getUTCDate t2).

(** [#nthWeekdayOfMonth(year, month, weekday, n)] *)
Definition nthWeekdayOfMonth (year month weekday n : Z) : M Z :=
  let cache := nth_week_key year month weekday n in
  do s <- get;
  match nth_week_cache s !! cache with
  | Some v => ret v
  | None =>
      do result <- nthWeekdayOfMonth_compute year month weekday n;
      modify (fun s => set_nth_week_cache (<[cache := result]> (nth_week_cache s)) s) ;;
      ret result
  end.

(** The four fields packed into a rule. *)
Definition start_month_of (rule : jsnum) : Z := Z.land (ToInt32 rule) 15.
Definition start_week_of (rule : jsnum) : Z := Z.land (Z.shiftr (ToInt32 rule) 4) 7.
Definition end_month_of (rule : jsnum) : Z := Z.land (Z.shiftr (ToInt32 rule) 8) 15.
Definition end_week_of (rule : jsnum) : Z := Z.land (Z.shiftr (ToInt32 rule) 12) 7.

Definition dst_key (t : Z) (dst_rule : string) : string :=
  Z_to_string t ++ "_" ++ dst_rule.

(** [new Date(Date.UTC(date.getFullYear(), date.getMonth(), date.getDate(),
    date.getHours(), date.getMinutes(), date.getSeconds()))]: the host-local
    calendar fields of [date] read back as a UTC instant. *)
Definition utc_date_of (date : Z) : jsnum :=
  DateUTC (getFullYear host_offset date) (getMonth host_offset date)
          (getDate host_offset date) (getHours host_offset date)
          (getMinutes host_offset date) (getSeconds host_offset date).

(** [#isDstPeriod(date, dst_rule)] for a valid [Date] with time value
    [date]. *)
Definition isDstPeriod (date : Z) (dst_rule : string) : M bool :=
  let cache := dst_key date dst_rule in
  do s <- get;
  match dst_cache s !! cache with
  | Some v => ret v
  | None =>
      if String.eqb dst_rule "00" then ret false
      else
        let year := getFullYear host_offset date in
        let rule := parseInt16 dst_rule in
        let start_month := start_month_of rule in
        let start_week := start_week_of rule in
        let end_month := end_month_of rule in
        let end_week := end_week_of rule in
        do start_day <- nthWeekdayOfMonth year start_month 0 start_week;
        do end_day <- nthWeekdayOfMonth year end_month 0 end_week;
        do start <- toISOString (DateUTC year (start_month - 1) start_day 2 0 0);
        do end_ <- toISOString (DateUTC year (end_month - 1) end_day 2 0 0);
        do utc_date <- toISOString (utc_date_of date);
        let result :=
          if start <=? end_
          then (start <=? utc_date) && (utc_date <? end_)
          else (start <=? utc_date) || (utc_date <? end_) in
        modify (fun s => set_dst_cache (<[cache := result]> (dst_cache s)) s) ;;
        ret result
  end.

(* --------------------------------------------------------------------- *)
(** *** Zone resolver *)

Definition bool_to_string (b : bool) : string := if b then "true" else "false".

Definition tz_info_key (tz_offset : jsnum) (is_dst_now : bool) : string :=
  num_to_string tz_offset ++ "_" ++ bool_to_string is_dst_now.

(** The filter callback of [#findTimeZoneByOffset]: both offsets of the row
    are normalised before one of them is compared. *)
Definition offset_matches (offset_str : string) (is_dst_now : bool)
    (tz : ZoneRecord) : M bool :=
  do std_offset <- normalizeOffset_str (tz2_utc_sdt tz);
  do dst_offset <- normalizeOffset_str (tz3_utc_dst tz);
  ret (String.eqb (if is_dst_now then dst_offset else std_offset) offset_str).

(** [#findTimeZoneByOffset(tz_offset, is_dst_now)] *)
Definition findTimeZoneByOffset (tz_offset : jsnum) (is_dst_now : bool)
    : M (list ZoneRecord) :=
  let cache := tz_info_key tz_offset is_dst_now in
  do s <- get;
  match tz_info_cache s !! cache with
  | Some v => ret v
  | None =>
      let offset_str := normalizeOffset_num tz_offset in
      do matching_tzs <- filterM (offset_matches offset_str is_dst_now) core_tz_db;
      modify (fun s => set_tz_info_cache (<[cache := matching_tzs]> (tz_info_cache s)) s) ;;
      ret matching_tzs
  end.

(** [#isDstNow(tz_offset)]: both branches compare [tz.utc_dst], a property
    the rows do not have, with the formatted offset. *)
Definition isDstNow (tz_offset : jsnum) : M bool :=
  do s <- get;
  let offset_str :=
    match default_offset_mins s with
    | Some mins => offset2str mins
    | None => offset2str tz_offset
    end in
  ret (existsb (fun tz => match row_utc_dst tz with
                          | Some v => String.eqb v offset_str
                          | None => false
                          end) core_tz_db).

(** [#calculateTZ(date_with_offset)] *)
Definition calculateTZ (date_with_offset : Z) : M jsnum :=
  do s <- get;
  match default_offset_mins s with
  | Some mins => ret mins
  | None => ret (Num (- getTimezoneOffset host_offset date_with_offset))
  end.

(** [str1[i] === str2[i]]: both characters present and equal (one index may
    run past the shorter string, where the read is [undefined]). *)
Definition char_eq_at (str1 str2 : string) (i : nat) : bool :=
  match String.get i str1, String.get i str2 with
  | Some a, Some b => Ascii.eqb a b
  | None, None => true
  | _, _ => false
  end.

(** The [for] loop of [#calculateStringSimilarity]: the pair
    [(matching_chars, pos_score)] after the iterations [i = k, .., max_len-1].
    The count is an integer; [pos_score] is a sum of rounded quotients,
    rounded at each step. *)
Fixpoint similarity_loop (str1 str2 : string) (max_len : nat) (fuel i : nat)
    (acc : Z * JsDouble.double) : Z * JsDouble.double :=
  match fuel with
  | O => acc
  | S fuel' =>
      let acc' :=
        if char_eq_at str1 str2 i
        then (fst acc + 1,
              JsDouble.add (snd acc)
                (JsDouble.div (JsDouble.of_nat (max_len - i)) (JsDouble.of_nat max_len)))
        else acc in
      similarity_loop str1 str2 max_len fuel' (S i) acc'
  end.

(** The two weights of [#calculateStringSimilarity], as functions of
    [len_ratio]: [0.8 + (0.15 * (1 - len_ratio))] and
    [0.2 - (0.15 * (1 - len_ratio))]. *)
Definition char_weight (len_ratio : JsDouble.double) : JsDouble.double :=
  JsDouble.add (JsDouble.dec 8 10)
    (JsDouble.mul (JsDouble.dec 15 100) (JsDouble.sub (JsDouble.of_Z 1) len_ratio)).
Definition pos_weight (len_ratio : JsDouble.double) : JsDouble.double :=
  JsDouble.sub (JsDouble.dec 2 10)
    (JsDouble.mul (JsDouble.dec 15 100) (JsDouble.sub (JsDouble.of_Z 1) len_ratio)).

(** [#calculateStringSimilarity(str1, str2)] on two strings. *)
Definition similarity (str1 str2 : string) : JsDouble.double :=
  let str1 := toLowerCase str1 in
  let str2 := toLowerCase str2 in
  if String.eqb str1 str2 then JsDouble.of_Z 1
  else
    let len1 := String.length str1 in
    let len2 := String.length str2 in
    let max_len := Nat.max len1 len2 in
    let min_len := Nat.min len1 len2 in
    let '(matching_chars, pos_score) :=
      similarity_loop str1 str2 max_len max_len 0 (0, JsDouble.of_Z 0) in
    let char_ratio := JsDouble.div (JsDouble.of_Z matching_chars) (JsDouble.of_nat max_len) in
    let len_ratio := JsDouble.div (JsDouble.of_nat min_len) (JsDouble.of_nat max_len) in
    JsDouble.add (JsDouble.mul char_ratio (char_weight len_ratio))
                 (JsDouble.mul pos_score (pos_weight len_ratio)).

(** [#calculateStringSimilarity]: calling [toLowerCase] on [undefined] is a
    [TypeError]. *)
Definition calculateStringSimilarity (str1 str2 : option string) : M JsDouble.double :=
  match str1, str2 with
  | Some a, Some b => ret (similarity a b)
  | _, _ => throw TypeError
  end.

(** [#similarity_threshold = 0.5] *)
Definition similarity_threshold : JsDouble.double := JsDouble.dec 5 10.

(** The [forEach] of [#findBestMatch]: the running
    [(best_match, best_similarity)]. *)
Fixpoint findBestMatch_loop (city : option string) (tzs : list ZoneRecord)
    (best : option ZoneRecord * JsDouble.double)
    : M (option ZoneRecord * JsDouble.double) :=
  match tzs with
  | [] => ret best
  | tz :: rest =>
      let tz_city := split "/" (tz1_tz_id tz) !! 1%nat in
      do sim <- calculateStringSimilarity city tz_city;
      findBestMatch_loop city rest
        (if JsDouble.gt sim (snd best) then (Some tz, sim) else best)
  end.

(** [#findBestMatch(city, tzs)] *)
Definition findBestMatch (city : option string) (tzs : list ZoneRecord)
    : M (option (ZoneRecord * JsDouble.double)) :=
  do best <- findBestMatch_loop city tzs (None, JsDouble.of_Z 0);
  match fst best with
  | Some tz =>
      if JsDouble.gt (snd best) similarity_threshold then ret (Some (tz, snd best))
      else ret None
  | None => ret None
  end.

(** [#selectBestMatchingTimeZone(matching_tzs)]; [None] is [null]. *)
Definition selectBestMatchingTimeZone (matching_tzs : list ZoneRecord)
    : M (option string) :=
  match matching_tzs with
  | [] => ret None
  | [tz] => ret (Some (tz1_tz_id tz))
  | first :: _ =>
      let non_deprecated :=
        List.filter (fun tz => negb (includes (tz1_tz_id tz) "Etc/")) matching_tzs in
      let filtered_tzs :=
        match non_deprecated with [] => matching_tzs | _ => non_deprecated end in
      let first_filtered := ret (tz1_tz_id <$> head filtered_tzs) in
      do s <- get;
      match default_offset s with
      | HStr d =>
          if String.eqb d "" then first_filtered
          else
            let parts := split "/" d in
            let continent := nth 0 parts "" in
            let city := parts !! 1%nat in
            let continent_matches :=
              List.filter (fun tz => startsWith (tz1_tz_id tz) (continent ++ "/"))
                          filtered_tzs in
            match continent_matches with
            | [] => first_filtered
            | cm0 :: _ =>
                match List.find (fun tz => String.eqb (tz1_tz_id tz) d) continent_matches with
                | Some exact_match => ret (Some (tz1_tz_id exact_match))
                | None =>
                    do best_match <- findBestMatch city continent_matches;
                    match best_match with
                    | Some (tz, _) => ret (Some (tz1_tz_id tz))
                    | None => ret (Some (tz1_tz_id cm0))
                    end
                end
            end
      | _ => first_filtered
      end
  end.

Definition CONTINENTS : list string :=
  ["Africa"; "America"; "Antarctica"; "Asia"; "Atlantic"; "Australia";
   "Europe"; "Indian"; "Pacific"].

Definition str_in (x : string) (l : list string) : bool :=
  existsb (String.eqb x) l.

(** The second component of [tz[1].split('/')], lower-cased, contains the
    lower-cased [city]; an absent or empty component is falsy. *)
Definition city_includes (city : string) (tz : ZoneRecord) : bool :=
  match split "/" (tz1_tz_id tz) !! 1%nat with
  | Some tz_city =>
      negb (String.eqb tz_city "") &&
      includes (toLowerCase tz_city) (toLowerCase city)
  | None => false
  end.

(** [#guessTimeZoneFromPartialId(continent, city)] *)
Definition guessTimeZoneFromPartialId (continent city : string) : M jsnum :=
  let fail :=
    throw (Error ("Unable to determine offset for timezone: " ++ continent ++ "/" ++ city)) in
  if negb (str_in continent CONTINENTS) then
    match List.filter (city_includes city) core_tz_db with
    | tz :: _ => str2offset (tz2_utc_sdt tz)
    | [] => fail
    end
  else
    match List.filter
            (fun tz => String.eqb (nth 0 (split "/" (tz1_tz_id tz)) "") continent
                       && city_includes city tz) core_tz_db with
    | tz :: _ => str2offset (tz2_utc_sdt tz)
    | [] =>
        match List.find (fun tz => startsWith (tz1_tz_id tz) (continent ++ "/")) core_tz_db with
        | Some fallback => str2offset (tz2_utc_sdt fallback)
        | None => fail
        end
    end.

(** [#determineOffset(timezone)] on a string. *)
Definition determineOffset (timezone : string) : M jsnum :=
  match indexOf "/" timezone with
  | None => throw (Error "Invalid timezone format")
  | Some first_slash_index =>
      let continent := String.substring 0 first_slash_index timezone in
      let city := String.substring (S first_slash_index)
                    (String.length timezone - S first_slash_index) timezone in
      if String.eqb continent "" || String.eqb city "" then
        throw (Error "Invalid timezone format")
      else
        match List.filter (fun tz => String.eqb (tz1_tz_id tz) timezone) core_tz_db with
        | tz :: _ => str2offset (tz2_utc_sdt tz)
        | [] => guessTimeZoneFromPartialId continent city
        end
  end.

(** [!location] for [null] or a string. *)
Definition falsy (location : option string) : bool :=
  match location with
  | None => true
  | Some l => String.eqb l ""
  end.

(** The recomputation inside [getLocation], taken when [#location_cache] is
    [null]: the value assigned to [location] before it is cached. *)
Definition getLocation_compute : M string :=
  let cur_time_with_offset := now in
  do current_tz_offset <- calculateTZ cur_time_with_offset;
  let offset_str := offset2str current_tz_offset in
  do is_dst_now <- isDstNow current_tz_offset;
  do s <- get;
  do location <-
    (if truthy (default_offset s) then
       do location <-
         match default_offset s with
         | HNum hours =>
             modify (set_default_offset_mins (Some (Num (hours * 60)))) ;;
             ret None
         | HStr d =>
             if HH_MM_OFFSET_REGEX d then
               do mins <- str2offset d;
               modify (set_default_offset_mins (Some mins)) ;;
               ret None
             else
               let continent := nth 0 (split "/" d) "" in
               let continent_matches :=
                 List.filter (fun tz => startsWith (tz1_tz_id tz) (continent ++ "/"))
                             core_tz_db in
               match continent_matches with
               | _ :: _ => selectBestMatchingTimeZone continent_matches
               | [] => ret (Some "Unknown")
               end
         | HNull => ret None
         end;
       do s <- get;
       match default_offset_mins s with
       | Some mins =>
           if falsy location then
             do matching_tzs <- findTimeZoneByOffset mins is_dst_now;
             selectBestMatchingTimeZone matching_tzs
           else ret location
       | None => ret location
       end
     else ret None);
  (* if can't find loca based on the default offset use current offset *)
  do location <-
    (if falsy location then
       do matching_tzs <- findTimeZoneByOffset current_tz_offset is_dst_now;
       selectBestMatchingTimeZone matching_tzs
     else ret location);
  (* fallback if location is still null; [this.country_code] is never
     defined, so the country branch is not taken *)
  do location <-
    match location with
    | None =>
        let fallback_timezones :=
          List.filter (fun tz => String.eqb (tz2_utc_sdt tz) offset_str
                                 || String.eqb (tz3_utc_dst tz) offset_str)
                      core_tz_db in
        match fallback_timezones with
        | _ :: _ => selectBestMatchingTimeZone fallback_timezones
        | [] => ret None
        end
    | Some _ => ret location
    end;
  let location := default "Unknown" location in
  (if negb (String.eqb location "Unknown") then
     do mins <- determineOffset location;
     modify (set_default_offset_mins (Some mins))
   else ret tt) ;;
  ret location.

(** [getLocation()] *)
Definition getLocation : M string :=
  do s <- get;
  match tz_data s with
  | Some d => ret (tz1_tz_id d)
  | None =>
      match location_cache s with
      | Some l => ret l
      | None =>
          do location <- getLocation_compute;
          modify (set_location_cache (Some location)) ;;
          ret location
      end
  end.

(** [clearCache()] *)
Definition clearCache : M unit :=
  modify (fun s =>
    mkTz (default_offset s) (default_offset_mins s) None None
         ∅ ∅ ∅ ∅ (tz_data s) (spatial_index s)).

(** [getDaylightStatus(location)]; [None] is a call without argument. *)
Definition getDaylightStatus (location : option string) : M bool :=
  do s <- get;
  match tz_data s with
  | Some d =>
      let cur_date := now in
      isDstPeriod cur_date (tz9_dst_rule d)
  | None =>
      match dst_status_cache s with
      | Some b => ret b
      | None =>
          match List.find (fun tz => match location with
                                     | Some l => String.eqb (tz1_tz_id tz) l
                                     | None => false
                                     end) core_tz_db with
          | None => ret false
          | Some tz_info =>
              let dst_rule := tz9_dst_rule tz_info in
              if String.eqb dst_rule "00" then ret false
              else
                let cur_date := now in
                do is_dst <- isDstPeriod cur_date dst_rule;
                modify (set_dst_status_cache (Some is_dst)) ;;
                ret is_dst
          end
      end
  end.

(** [getLocationAndDaylightStatus()] *)
Definition getLocationAndDaylightStatus : M (string * bool) :=
  do s <- get;
  match tz_data s with
  | Some d =>
      let location := tz1_tz_id d in
      do is_dst <- getDaylightStatus None;
      ret (location, is_dst)
  | None =>
      do location <- getLocation;
      do is_dst <- getDaylightStatus None;
      ret (location, is_dst)
  end.

(** [#findTZbyAbbreviation(identifier)]; [None] is [undefined]. *)
Definition findTZbyAbbreviation (identifier : option string) : option ZoneRecord :=
  match identifier with
  | Some i =>
      List.find (fun tz => String.eqb (tz0_code tz) i || String.eqb (tz4_tz_sdt tz) i
                           || String.eqb (tz5_tz_dst tz) i) core_tz_db
  | None => None
  end.

(** [#initializeTimezoneData(identifier)]: the object built from the row has
    the row's ten fields, so the row stands for it. *)
Definition initializeTimezoneData (identifier : string) : option ZoneRecord :=
  match List.find (fun tz => String.eqb (tz1_tz_id tz) identifier) core_tz_db with
  | Some tz_entry => Some tz_entry
  | None => findTZbyAbbreviation (Some identifier)
  end.

(** [s.slice(3)] *)
Definition slice3 (s : string) : string :=
  String.substring 3 (String.length s - 3) s.

(** [new Timezones(default_offset)] *)
Definition constructor (default_offset : hint) : Timezones :=
  let tz_data :=
    match default_offset with
    | HStr d => initializeTimezoneData d
    | _ => None
    end in
  let default_offset :=
    match default_offset with
    | HStr d => if startsWith (toLowerCase d) "utc" then HStr (slice3 d) else HStr d
    | h => h
    end in
  mkTz default_offset None None None ∅ ∅ ∅ ∅ tz_data None.

(** [getTimezoneInfo(identifier)] *)
Definition getTimezoneInfo (identifier : option string) : M (option ZoneRecord) :=
  do s <- get;
  let same (field : string) :=
    match identifier with Some i => String.eqb field i | None => false end in
  match tz_data s with
  | Some d =>
      if same (tz1_tz_id d) || same (tz0_code d) then ret (Some d)
      else
        match List.find (fun tz => same (tz1_tz_id tz) || same (tz0_code tz)) core_tz_db with
        | Some tz_entry => ret (Some tz_entry)
        | None => ret (findTZbyAbbreviation identifier)
        end
  | None =>
      match List.find (fun tz => same (tz1_tz_id tz) || same (tz0_code tz)) core_tz_db with
      | Some tz_entry => ret (Some tz_entry)
      | None => ret (findTZbyAbbreviation identifier)
      end
  end.

(** What [getDate()] closes over: the shifted [local_time] whose UTC fields
    the returned object reports, and the offset used. *)
Record zoned_date : Type := mkZoned {
  local_time : jsnum;
  zd_offset_mins : option jsnum
}.

(** [new Date(utc_now + offset_mins * 60000)]; [null] counts as 0. *)
Definition shift_by (utc_now : Z) (offset_mins : option jsnum) : jsnum :=
  match offset_mins with
  | None => TimeClip utc_now
  | Some NaN => NaN
  | Some (Num m) => TimeClip (utc_now + m * 60000)
  end.

(** [getDate()] *)
Definition getDate : M zoned_date :=
  do status <- getLocationAndDaylightStatus;
  let '(location, is_dst) := status in
  let tz_info := List.find (fun tz => String.eqb (tz1_tz_id tz) location) core_tz_db in
  do offset_mins <-
    match tz_info with
    | Some tz =>
        let offset_str := if is_dst then tz3_utc_dst tz else tz2_utc_sdt tz in
        do m <- str2offset offset_str; ret (Some m)
    | None =>
        do s <- get; ret (default_offset_mins s)
    end;
  let utc_now := now in
  ret (mkZoned (shift_by utc_now offset_mins) offset_mins).

(** The object returned by [getTimeUntilNextDstChange()]. *)
Record dst_change : Type := mkChange {
  next_change : jsnum;
  time_until_change : jsnum;
  change_to_dst : bool
}.

Definition num_sub (a b : jsnum) : jsnum :=
  match a, b with
  | Num x, Num y => Num (x - y)
  | _, _ => NaN
  end.

(** [getTimeUntilNextDstChange()]; [None] is [null]. *)
Definition getTimeUntilNextDstChange : M (option dst_change) :=
  do now_ <- getDate;
  do s <- get;
  do tz_info <- getTimezoneInfo (tz1_tz_id <$> tz_data s);
  match tz9_dst_rule <$> tz_info with
  | None => ret None
  | Some dst_rule =>
      if String.eqb dst_rule "00" then ret None
      else
        (* an invalid [now] has [NaN] fields, and [#nthWeekdayOfMonth] throws
           on the invalid date it builds from them *)
        do lt_ <- toISOString (local_time now_);
        let cur_year := YearFromTime lt_ in
        let next_year := cur_year + 1 in
        let rule := parseInt16 dst_rule in
        let start_month := start_month_of rule in
        let start_week := start_week_of rule in
        let end_month := end_month_of rule in
        let end_week := end_week_of rule in
        let calculateDstDate (year month week : Z) : M jsnum :=
          do day <- nthWeekdayOfMonth year month 0 week;
          ret (DateUTC year (month - 1) day 2 0 0) in
        do dst_start_cur <- calculateDstDate cur_year start_month start_week;
        do dst_end_cur <- calculateDstDate cur_year end_month end_week;
        do dst_start_next <- calculateDstDate next_year start_month start_week;
        let now_utc :=
          DateUTC (YearFromTime lt_) (MonthFromTime lt_) (DateFromTime lt_)
                  (HourFromTime lt_) (MinFromTime lt_) (SecFromTime lt_) in
        let '(next_change, change_to_dst) :=
          if JsNum.lt now_utc dst_start_cur then (dst_start_cur, true)
          else if JsNum.lt now_utc dst_end_cur then (dst_end_cur, false)
          else (dst_start_next, true) in
        ret (Some (mkChange next_change (num_sub next_change now_utc) change_to_dst))
  end.

(* --------------------------------------------------------------------- *)
(** *** Geo approximator *)

Definition MAX_SAFE_INTEGER : JsDouble.double := JsDouble.of_Z (2 ^ 53 - 1).

(** [this.#tz_db.map((tz, index) => ({index, lat: tz[7]*10000 + 0.5,
    lon: tz[8]*10000 + 0.5}))]; a coordinate of the table is the double of
    its literal. *)
Definition build_spatial_index : list index_entry :=
  imap (fun index tz =>
          mkEntry index
            (JsDouble.add (JsDouble.mul (JsDouble.of_Q (tz7_lat tz)) (JsDouble.of_Z 10000))
                          (JsDouble.dec 5 10))
            (JsDouble.add (JsDouble.mul (JsDouble.of_Q (tz8_lon tz)) (JsDouble.of_Z 10000))
                          (JsDouble.dec 5 10))) core_tz_db.

(** The scan of [getApproxLocation]: [(nearest_index, min_dist)] after the
    remaining entries. *)
Fixpoint nearest_loop (lat lon : JsDouble.double) (entries : list index_entry)
    (acc : nat * JsDouble.double) : nat * JsDouble.double :=
  match entries with
  | [] => acc
  | tz :: rest =>
      let lat_diff := if JsDouble.gt lat (ie_lat tz)
                      then JsDouble.sub lat (ie_lat tz) else JsDouble.sub (ie_lat tz) lat in
      let lon_diff := if JsDouble.gt lon (ie_lon tz)
                      then JsDouble.sub lon (ie_lon tz) else JsDouble.sub (ie_lon tz) lon in
      let dist := JsDouble.add lat_diff lon_diff in
      nearest_loop lat lon rest
        (if JsDouble.lt dist (snd acc) then (ie_index tz, dist) else acc)
  end.

(** [getApproxLocation(latitude, longitude)] on two [Number]s. *)
Definition getApproxLocation_at (latitude longitude : JsDouble.double) : M string :=
  do s <- get;
  do index <-
    match spatial_index s with
    | Some ix => ret ix
    | None =>
        modify (set_spatial_index (Some build_spatial_index)) ;;
        ret build_spatial_index
    end;
  let lat := JsDouble.mul latitude (JsDouble.of_Z 10000) in
  let lon := JsDouble.mul longitude (JsDouble.of_Z 10000) in
  let '(nearest_index, _) := nearest_loop lat lon index (O, MAX_SAFE_INTEGER) in
  match core_tz_db !! nearest_index with
  | Some tz => ret (tz1_tz_id tz)
  | None => throw TypeError
  end.

(** [getApproxLocation(latitude, longitude)] on two numbers given by their
    exact values: each one reaches the method as the nearest double. *)
Definition getApproxLocation (latitude longitude : Q) : M string :=
  getApproxLocation_at (JsDouble.of_Q latitude) (JsDouble.of_Q longitude).

End Methods.

(* --------------------------------------------------------------------- *)
(** *** Further public methods *)

Section MoreMethods.

Variable core_tz_db : list ZoneRecord.
Variable host_offset : Z -> Z.
Variable now : Z.

(** A field getter such as [getUTCHours()] on a [Date]: [NaN] on the
    invalid date. *)
Definition date_field (f : Z -> Z) (d : jsnum) : jsnum :=
  match d with
  | NaN => NaN
  | Num t => Num (f t)
  end.

(** The offset a [#tz_data] instance applies: its DST or standard offset
    string, parsed. *)
Definition own_offset (d : ZoneRecord) : M jsnum :=
  do is_dst <- getDaylightStatus core_tz_db host_offset now None;
  let offset_str := if is_dst then tz3_utc_dst d else tz2_utc_sdt d in
  str2offset offset_str.

(** [#getCurrentTimeWithOffset()] *)
Definition getCurrentTimeWithOffset : M jsnum :=
  do s <- get;
  match tz_data s with
  | Some d =>
      let cur_date := now in
      do offset_mins <- own_offset d;
      ret (shift_by cur_date (Some offset_mins))
  | None =>
      do status <- getLocationAndDaylightStatus core_tz_db host_offset now;
      let '(location, is_dst) := status in
      let tz_info := List.find (fun tz => String.eqb (tz1_tz_id tz) location) core_tz_db in
      do offset_mins <-
        match tz_info with
        | Some tz =>
            let offset_str := if is_dst then tz3_utc_dst tz else tz2_utc_sdt tz in
            do m <- str2offset offset_str; ret (Some m)
        | None =>
            do s <- get; ret (default_offset_mins s)
        end;
      let cur_date := now in
      ret (shift_by cur_date offset_mins)
  end.

(** The common shape of [getHours()], [getMinutes()] and [getSeconds()],
    which differ in the UTC getter [f] they end with. *)
Definition getField (f : Z -> Z) : M jsnum :=
  do s <- get;
  match tz_data s with
  | Some d =>
      let cur_time := now in
      do offset_mins <- own_offset d;
      let date_with_offset := shift_by cur_time (Some offset_mins) in
      ret (date_field f date_with_offset)
  | None =>
      do d <- getCurrentTimeWithOffset;
      ret (date_field f d)
  end.

(** [getHours()], [getMinutes()], [getSeconds()] *)
Definition getHours : M jsnum := getField HourFromTime.
Definition getMinutes : M jsnum := getField MinFromTime.
Definition getSeconds : M jsnum := getField SecFromTime.

(** [date.toISOString()] on a valid date: four digits for the years 0 to
    9999, and a sign with six digits for the others. *)
Definition toISOString_text (t : Z) : string :=
  let y := YearFromTime t in
  let year :=
    if (0 <=? y) && (y <=? 9999) then pad (Num y) 4
    else (if y <? 0 then "-" else "+") ++ pad (Num (Z.abs y)) 6 in
  year ++ "-" ++ pad (Num (MonthFromTime t + 1)) 2 ++ "-" ++ pad (Num (DateFromTime t)) 2
  ++ "T" ++ pad (Num (HourFromTime t)) 2 ++ ":" ++ pad (Num (MinFromTime t)) 2
  ++ ":" ++ pad (Num (SecFromTime t)) 2 ++ "." ++ pad (Num (t mod 1000)) 3 ++ "Z".

(** [#formatDateWithOffset(date, offset_mins)]; [offset_mins] may be
    [null], which counts as 0.  The three pieces of the offset are built
    first; [toISOString] then throws on an invalid date. *)
Definition formatDateWithOffset (date : jsnum) (offset_mins : option jsnum) : M string :=
  let offset := match offset_mins with Some n => n | None => Num 0 end in
  let sign := if JsNum.ge offset (Num 0) then "+" else "-" in
  let h := match offset with
           | Num z => padStart0 2 (Z_to_string (Z.abs z / 60))
           | NaN => padStart0 2 "NaN"
           end in
  let m := match offset with
           | Num z => padStart0 2 (Z_to_string (Z.rem (Z.abs z) 60))
           | NaN => padStart0 2 "NaN"
           end in
  do t <- toISOString date;
  ret (String.substring 0 19 (toISOString_text t) ++ sign ++ h ++ ":" ++ m).

(** [getTime()] *)
Definition getTime : M string :=
  do s <- get;
  do offset_mins <-
    match tz_data s with
    | Some d =>
        do m <- own_offset d; ret (Some m)
    | None =>
        do status <- getLocationAndDaylightStatus core_tz_db host_offset now;
        let '(location, is_dst) := status in
        let tz_info := List.find (fun tz => String.eqb (tz1_tz_id tz) location) core_tz_db in
        match tz_info with
        | Some tz =>
            let offset_str := if is_dst then tz3_utc_dst tz else tz2_utc_sdt tz in
            do m <- str2offset offset_str; ret (Some m)
        | None =>
            do s <- get; ret (default_offset_mins s)
        end
    end;
  let cur_date := now in
  let date_with_offset := shift_by cur_date offset_mins in
  formatDateWithOffset date_with_offset offset_mins.

(** [/^[-+]\d+$/.test(s)] *)
Definition signed_digits (s : string) : bool :=
  match s with
  | String sg (String d r) =>
      (Ascii.eqb sg "-" || Ascii.eqb sg "+") && is_digit d
      && forallb is_digit (list_ascii_of_string r)
  | _ => false
  end.

(** [#applyOffsetToDate(date, offset_mins)] on a valid date. *)
Definition applyOffsetToDate (date : Z) (offset_mins : jsnum) : jsnum :=
  let utc_time := date + getTimezoneOffset host_offset date * 60000 in
  shift_by utc_time (Some offset_mins).

(** [convertToTimeZone(date, target_tz)] for a valid [Date] and a string. *)
Definition convertToTimeZone (date : Z) (target_tz : string) : M jsnum :=
  do offset_mins <-
    (if signed_digits target_tz then
       ret (match parseInt10 target_tz with
            | NaN => NaN
            | Num v => Num (v * 60)
            end)
     else
       do tz_info <- getTimezoneInfo core_tz_db (Some target_tz);
       match tz_info with
       | Some info =>
           do is_dst <- isDstPeriod host_offset date (tz9_dst_rule info);
           let offset := if is_dst then tz3_utc_dst info else tz2_utc_sdt info in
           str2offset offset
       | None =>
           throw (Error "Invalid timezone format. Expected format: '±HH' or a valid IANA timezone identifier.")
       end);
  ret (applyOffsetToDate date offset_mins).

(** The four numbers [formatTimeUntilNextDstChange()] prints: days, hours,
    minutes and seconds of [time_until_change]. *)
Definition dhms (time_until_change : Z) : Z * Z * Z * Z :=
  let d := time_until_change / (1000 * 60 * 60 * 24) in
  let h := Z.rem time_until_change (1000 * 60 * 60 * 24) / (1000 * 60 * 60) in
  let m := Z.rem time_until_change (1000 * 60 * 60) / (1000 * 60) in
  let s := Z.rem time_until_change (1000 * 60) / 1000 in
  (d, h, m, s).

(** [formatTimeUntilNextDstChange()] *)
Definition formatTimeUntilNextDstChange : M string :=
  do dst_change_info <- getTimeUntilNextDstChange core_tz_db host_offset now;
  match dst_change_info with
  | None => ret "No DST changes for this timezone."
  | Some info =>
      let shown :=
        match time_until_change info with
        | Num t =>
            let '(d, h, m, s) := dhms t in
            (Num d, Num h, Num m, Num s)
        | NaN => (NaN, NaN, NaN, NaN)
        end in
      let '(d, h, m, s) := shown in
      let change_type := if change_to_dst info then "starts" else "ends" in
      ret ("Time until DST " ++ change_type ++ ": " ++ num_to_string d ++ " days, "
           ++ num_to_string h ++ " hours, " ++ num_to_string m ++ " minutes, and "
           ++ num_to_string s ++ " seconds")
  end.

End MoreMethods.

(* --------------------------------------------------------------------- *)
(** *** Reference values and cache invariants *)

Section Reference.

Variable core_tz_db : list ZoneRecord.
Variable host_offset : Z -> Z.

(** An instance with no hint and nothing cached. *)
Definition blank : Timezones := mkTz HNull None None None ∅ ∅ ∅ ∅ None None.

(** What [#nthWeekdayOfMonth] returns when nothing is cached; [None] when it
    throws. *)
Definition nth_pure (year month weekday n : Z) : option Z :=
  value (nthWeekdayOfMonth_compute year month weekday n blank).

(** The instant [Date.UTC(year, month - 1, day, 2)] on the computed Sunday;
    [None] when no valid date comes out. *)
Definition dst_boundary (year month week : Z) : option Z :=
  match nth_pure year month 0 week with
  | Some day =>
      match DateUTC year (month - 1) day 2 0 0 with
      | Num t => Some t
      | NaN => None
      end
  | None => None
  end.

Definition dst_start (year : Z) (dst_rule : string) : option Z :=
  dst_boundary year (start_month_of (parseInt16 dst_rule)) (start_week_of (parseInt16 dst_rule)).

Definition dst_end (year : Z) (dst_rule : string) : option Z :=
  dst_boundary year (end_month_of (parseInt16 dst_rule)) (end_week_of (parseInt16 dst_rule)).

(** Membership in the DST period, in its two shapes. *)
Definition in_dst (start end_ instant : Z) : bool :=
  if start <=? end_
  then (start <=? instant) && (instant <? end_)
  else (start <=? instant) || (instant <? end_).

(** What [#isDstPeriod] returns when nothing is cached. *)
Definition isDst_pure (date : Z) (dst_rule : string) : option bool :=
  if String.eqb dst_rule "00" then Some false
  else
    let year := getFullYear host_offset date in
    match dst_start year dst_rule, dst_end year dst_rule, utc_date_of host_offset date with
    | Some start, Some end_, Num utc_date => Some (in_dst start end_ utc_date)
    | _, _, _ => None
    end.

(** What [#findTimeZoneByOffset] returns when nothing is cached. *)
Definition matching_pure (tz_offset : jsnum) (is_dst_now : bool) : option (list ZoneRecord) :=
  value (filterM (offset_matches (normalizeOffset_num tz_offset) is_dst_now) core_tz_db blank).

(** Every entry of [#offset_cache] is the parse of its key. *)
Definition offset_cache_ok (s : Timezones) : Prop :=
  forall k v, offset_cache s !! k = Some v -> v = str2offset_compute k.

(** Every entry of the four keyed caches is the value its key stands for. *)
Record caches_ok (s : Timezones) : Prop := mkCachesOk {
  offset_ok : offset_cache_ok s;
  nth_week_ok : forall y m w n v,
    nth_week_cache s !! nth_week_key y m w n = Some v -> nth_pure y m w n = Some v;
  dst_ok : forall t r v,
    dst_cache s !! dst_key t r = Some v -> isDst_pure t r = Some v;
  tz_info_ok : forall o b v,
    tz_info_cache s !! tz_info_key o b = Some v -> matching_pure o b = Some v
}.

(** The fields a cache update leaves alone. *)
Definition core_eq (s s' : Timezones) : Prop :=
  default_offset s = default_offset s' /\
  default_offset_mins s = default_offset_mins s' /\
  location_cache s = location_cache s' /\
  dst_status_cache s = dst_status_cache s' /\
  tz_data s = tz_data s' /\
  spatial_index s = spatial_index s'.

(** [m] leaves every field but the keyed caches as it found it. *)
Definition frames {A} (m : M A) : Prop := forall s, core_eq s (final (m s)).

(** [m] keeps the property [P] of the state, whether it returns or throws. *)
Definition preserves (P : Timezones -> Prop) {A} (m : M A) : Prop :=
  forall s, P s -> P (final (m s)).

(** A call from [s] ended as the cache-free reference [ref] says, in a state
    that differs from [s] in its keyed caches only. *)
Definition agrees {A} (o : outcome A) (ref : option A) (s : Timezones) : Prop :=
  value o = ref /\ caches_ok (final o) /\ core_eq s (final o).

End Reference.

(** The shape [±HH:MM]. *)
Definition sign_HH_MM (s : string) : bool :=
  match s with
  | String sg (String h1 (String h2 (String ":" (String m1 (String m2 EmptyString))))) =>
      (Ascii.eqb sg "+" || Ascii.eqb sg "-")
      && is_digit h1 && is_digit h2 && is_digit m1 && is_digit m2
  | _ => false
  end.

(** The Manhattan distance, in units of 1/10000 degree, between a point and
    the coordinates of a row. *)
Definition manhattan (tz : ZoneRecord) (latitude longitude : Q) : Q :=
  (Qabs (latitude * 10000 - tz7_lat tz * 10000)
   + Qabs (longitude * 10000 - tz8_lon tz * 10000))%Q.

(** The fields that only the constructor and the first
    [getApproxLocation] write: the hint is [h], the stored row is [d], and
    the spatial index is absent or the one built from the table. *)
Definition fixed_fields (core_tz_db : list ZoneRecord) (h : hint)
    (d : option ZoneRecord) (s : Timezones) : Prop :=
  default_offset s = h /\ tz_data s = d /\
  (spatial_index s = None \/ spatial_index s = Some (build_spatial_index core_tz_db)).

(** The distance the scan of [getApproxLocation] computes for one entry of
    the index, with its two inline absolute values. *)
Definition entry_distance (lat lon : JsDouble.double) (e : index_entry) : JsDouble.double :=
  JsDouble.add
    (if JsDouble.gt lat (ie_lat e)
     then JsDouble.sub lat (ie_lat e) else JsDouble.sub (ie_lat e) lat)
    (if JsDouble.gt lon (ie_lon e)
     then JsDouble.sub lon (ie_lon e) else JsDouble.sub (ie_lon e) lon).

(** The distance the scan of [getApproxLocation] computes for a row, from
    the point and the coordinates of the row, in the operations and the
    order of the source. *)
Definition scan_distance (tz : ZoneRecord) (latitude longitude : JsDouble.double)
    : JsDouble.double :=
  entry_distance (JsDouble.mul latitude (JsDouble.of_Z 10000))
                 (JsDouble.mul longitude (JsDouble.of_Z 10000))
    (mkEntry O
       (JsDouble.add (JsDouble.mul (JsDouble.of_Q (tz7_lat tz)) (JsDouble.of_Z 10000))
                     (JsDouble.dec 5 10))
       (JsDouble.add (JsDouble.mul (JsDouble.of_Q (tz8_lon tz)) (JsDouble.of_Z 10000))
                     (JsDouble.dec 5 10))).

(** [identifier] is the zone id, the country code or one of the two
    abbreviations of the row: the fields that [getTimezoneInfo] and
    [#findTZbyAbbreviation] compare. *)
Definition row_carries (identifier : string) (tz : ZoneRecord) : Prop :=
  tz1_tz_id tz = identifier \/ tz0_code tz = identifier \/
  tz4_tz_sdt tz = identifier \/ tz5_tz_dst tz = identifier.

(** A row as the resolver needs it: both offsets in a form
    [#normalizeOffset] accepts, and an identifier [#determineOffset] can
    cut into a non-empty continent and a non-empty city. *)
Definition wf_row (tz : ZoneRecord) : bool :=
  match match_offset (tz2_utc_sdt tz), match_offset (tz3_utc_dst tz),
        indexOf "/" (tz1_tz_id tz) with
  | Some _, Some _, Some i =>
      negb (String.eqb (String.substring 0 i (tz1_tz_id tz)) "")
      && negb (String.eqb (String.substring (S i) (String.length (tz1_tz_id tz) - S i)
                             (tz1_tz_id tz)) "")
  | _, _, _ => false
  end.

(** The offset, in minutes, that [getLocation] reads off a hint that is a
    non-zero number of hours or a string of the offset shape. *)
Definition hint_mins (h : hint) : option jsnum :=
  match h with
  | HNum hours => if hours =? 0 then None else Some (Num (hours * 60))
  | HStr d => if HH_MM_OFFSET_REGEX d then Some (str2offset_compute d) else None
  | HNull => None
  end.

(** The rows whose standard offset, normalised, is the offset [mins]. *)
Definition std_matches (core_tz_db : list ZoneRecord) (mins : jsnum) : list ZoneRecord :=
  List.filter
    (fun tz => match match_offset (tz2_utc_sdt tz) with
               | Some (sg, hh, mm) =>
                   String.eqb (String sg hh ++ ":" ++ mm) (normalizeOffset_num mins)
               | None => false
               end) core_tz_db.

(** The first row that is not an ["Etc/"] alias, or else the first row. *)
Definition prefer_non_deprecated (l : list ZoneRecord) : option ZoneRecord :=
  match List.filter (fun tz => negb (includes (tz1_tz_id tz) "Etc/")) l with
  | tz :: _ => Some tz
  | [] => head l
  end.

(** The positions below [n] at which two strings carry the same character. *)
Definition equal_positions (str1 str2 : string) (n : nat) : list nat :=
  List.filter (char_eq_at str1 str2) (seq 0 n).

(** The weight of position [i] in a comparison over [n] positions:
    [(max_len - i) / max_len]. *)
Definition position_weight (n i : nat) : JsDouble.double :=
  JsDouble.div (JsDouble.of_nat (n - i)) (JsDouble.of_nat n).

(** [pos_score]: the weights of the equal positions added up from the first
    one on, each sum rounded. *)
Definition pos_score_of (n : nat) (eqs : list nat) : JsDouble.double :=
  fold_left (fun acc i => JsDouble.add acc (position_weight n i)) eqs (JsDouble.of_Z 0).

(** The score as the specification words it, in exact arithmetic: 1 for
    strings equal up to case, and else
    [char_ratio * w_c + pos_score * w_p] with
    [w_c = 0.8 + 0.15 (1 - len_ratio)] and [w_p = 0.2 - 0.15 (1 - len_ratio)]. *)
Definition exact_similarity (str1 str2 : string) : Q :=
  let str1 := toLowerCase str1 in
  let str2 := toLowerCase str2 in
  if String.eqb str1 str2 then 1%Q
  else
    let n := Nat.max (String.length str1) (String.length str2) in
    let m := Nat.min (String.length str1) (String.length str2) in
    let eqs := equal_positions str1 str2 n in
    let q (k : nat) : Q := inject_Z (Z.of_nat k) in
    let char_ratio := (q (length eqs) / q n)%Q in
    let len_ratio := (q m / q n)%Q in
    let pos_score :=
      fold_right (fun (i : nat) (acc : Q) => (q (n - i)%nat / q n + acc)%Q) 0%Q eqs in
    (char_ratio * ((8 # 10) + (15 # 100) * (1 - len_ratio))
     + pos_score * ((2 # 10) - (15 # 100) * (1 - len_ratio)))%Q.

(** The lengths up to which the two weights are checked by evaluation. *)
Definition checked_length : nat := 64.

(** For a longer length [max_len] and a shorter length [min_len]: the two
    weights are in their ranges ([0.8 + 0.15] is the double
    0.9500000000000001, one unit in the last place above 0.95, and is
    reached by an empty string only), and a shorter length one character
    longer gives a smaller [w_c] and a larger [w_p]. *)
Definition weights_ok (max_len min_len : nat) : bool :=
  let r := JsDouble.div (JsDouble.of_nat min_len) (JsDouble.of_nat max_len) in
  let r' := JsDouble.div (JsDouble.of_nat (S min_len)) (JsDouble.of_nat max_len) in
  JsDouble.le (JsDouble.dec 8 10) (char_weight r)
  && JsDouble.le (char_weight r) (JsDouble.add (JsDouble.dec 8 10) (JsDouble.dec 15 100))
  && ((min_len =? 0)%nat || JsDouble.le (char_weight r) (JsDouble.dec 95 100))
  && JsDouble.le (JsDouble.dec 5 100) (pos_weight r)
  && JsDouble.le (pos_weight r) (JsDouble.dec 2 10)
  && ((max_len <=? min_len)%nat
      || (JsDouble.lt (char_weight r') (char_weight r)
          && JsDouble.lt (pos_weight r) (pos_weight r'))).

(** Position [i + 1] weighs less than position [i]. *)
Definition positions_ok (max_len i : nat) : bool :=
  JsDouble.lt (position_weight max_len (S i)) (position_weight max_len i).

(** The second component of an identifier, the city the fuzzy step compares;
    the empty string when there is none. *)
Definition city_of (tz : ZoneRecord) : string :=
  default "" (split "/" (tz1_tz_id tz) !! 1%nat).

(** The number of days of month [month] (1-based) of [year]. *)
Definition DaysInMonth (year month : Z) : Z :=
  month_start (InLeapYear year) month - month_start (InLeapYear year) (month - 1).

(** Formatting then parsing gives the offset back, in the shape [±HH:MM]. *)
Definition roundtrip_ok (m : Z) : bool :=
  match str2offset_compute (offset2str (Num m)) with
  | Num v => v =? m
  | NaN => false
  end && sign_HH_MM (offset2str (Num m)).

(** The strings [±HH:MM] with minutes below 60, other than ["-00:00"]: what
    [#offset2str] prints for a whole number of minutes below a hundred
    hours. *)
Definition canonical_offset (s : string) : bool :=
  sign_HH_MM s
  && match s with
     | String _ (String _ (String _ (String _ (String m1 _)))) =>
         (N_of_ascii m1 <=? 53)%N
     | _ => false
     end
  && negb (String.eqb s "-00:00").

(** Parsing then formatting gives the string back. *)
Definition reparse_ok (s : string) : bool :=
  String.eqb (offset2str (str2offset_compute s)) s.

Definition digits : list ascii :=
  ["0"; "1"; "2"; "3"; "4"; "5"; "6"; "7"; "8"; "9"]%char.

(** Every string of the shape [±HH:MM]. *)
Definition offset_strings : list string :=
  flat_map (fun sg =>
  flat_map (fun h1 =>
  flat_map (fun h2 =>
  flat_map (fun m1 =>
  List.map (fun m2 =>
    String sg (String h1 (String h2 (String ":" (String m1 (String m2 EmptyString))))))
    digits) digits) digits) digits) ["+"; "-"]%char.

End Tz.

(* ===================================================================== *)
(** ** Sample rows *)
(* ===================================================================== *)

(** [core_tz_db] itself is not part of the sources at hand.  The README
    prints the row of America/New_York; the other rows below have the same
    shape and are used in concrete runs only. *)
Module Sample.
Import Tz.
Local Open Scope string_scope.

Definition New_York : ZoneRecord :=
  mkZone "US" "America/New_York" "-05:00" "-04:00" "EST" "EDT" "northamerica"
         (407127 # 10000) (-740060 # 10000) "B13".

Definition Halifax : ZoneRecord :=
  mkZone "CA" "America/Halifax" "-04:00" "-03:00" "AST" "ADT" "northamerica"
         (446488 # 10000) (-635752 # 10000) "B13".

Definition London : ZoneRecord :=
  mkZone "GB" "Europe/London" "+00:00" "+01:00" "GMT" "BST" "europe"
         (515072 # 10000) (-1276 # 10000) "5A53".

Definition Warsaw : ZoneRecord :=
  mkZone "PL" "Europe/Warsaw" "+01:00" "+02:00" "CET" "CEST" "europe"
         (522297 # 10000) (210122 # 10000) "5A53".

Definition Tokyo : ZoneRecord :=
  mkZone "JP" "Asia/Tokyo" "+09:00" "+09:00" "JST" "JST" "asia"
         (356762 # 10000) (1396503 # 10000) "00".

Definition Etc_GMT_plus_5 : ZoneRecord :=
  mkZone "" "Etc/GMT+5" "-05:00" "-05:00" "-05" "-05" "etc" 0 0 "00".

Definition Casablanca : ZoneRecord :=
  mkZone "MA" "Africa/Casablanca" "+01:00" "+01:00" "+01" "+01" "africa"
         (335731 # 10000) (-75898 # 10000) "00".

(** First Sunday of October to first Sunday of April. *)
Definition Sydney : ZoneRecord :=
  mkZone "AU" "Australia/Sydney" "+10:00" "+11:00" "AEST" "AEDT" "australia"
         (-338688 # 10000) (1512093 # 10000) "141A".

(** The rows above as one table. *)
Definition table : list ZoneRecord :=
  [New_York; Halifax; London; Warsaw; Tokyo; Etc_GMT_plus_5; Sydney].

(** A host whose zone is UTC, and one an hour east of it. *)
Definition host_utc : Z -> Z := fun _ => 0%Z.
Definition host_plus_one : Z -> Z := fun _ => 60%Z.

(** 2024-07-01T12:00:00Z and 2024-02-01T00:00:00Z. *)
Definition july_2024 : Z := 1719835200000.
Definition february_2024 : Z := 1706745600000.

(** 2024-03-03T01:30:00Z, half an hour before 02:00 UTC on the first Sunday
    of March 2024. *)
Definition march_3_0130 : Z := 1709429400000.

End Sample.

(* ===================================================================== *)
(** ** Facts about time values *)
(* ===================================================================== *)

Module DateFacts.
Local Open Scope Z_scope.

(** Evaluates [month_start] at closed arguments, in the goal and the context. *)
Ltac calc_months :=
  repeat match goal with
         | |- context [month_start ?l ?m] =>
             progress (let v := eval vm_compute in (month_start l m) in
                       change (month_start l m) with v)
         | H : context [month_start ?l ?m] |- _ =>
             progress (let v := eval vm_compute in (month_start l m) in
                       change (month_start l m) with v in H)
         end.

Lemma YearFromDay_spec d :
  DayFromYear (YearFromDay d) <= d < DayFromYear (YearFromDay d + 1).
Proof.
  unfold YearFromDay.
  set (y0 := 1970 + 400 * d / 146097).
  assert (Hy0 : 146097 * (y0 - 1970) <= 400 * d < 146097 * (y0 - 1970) + 146097)
    by (unfold y0; zdiv).
  clearbody y0.
  destruct (Z.leb_spec (DayFromYear (y0 + 1)) d) as [H1|H1].
  - split; [exact H1|]. unfold DayFromYear in *. zdiv.
  - destruct (Z.leb_spec (DayFromYear y0) d) as [H2|H2].
    + split; [exact H2|exact H1].
    + split; [|replace (y0 - 1 + 1) with y0 by lia; exact H2].
      unfold DayFromYear in *. zdiv.
Qed.

Lemma DayFromYear_mono y y' : y <= y' -> DayFromYear y <= DayFromYear y'.
Proof. unfold DayFromYear. intros. zdiv. Qed.

Lemma DayFromYear_succ y : DayFromYear (y + 1) = DayFromYear y + DaysInYear y.
Proof.
  unfold DayFromYear, DaysInYear, InLeapYear.
  destruct (Z.eqb_spec (y mod 4) 0), (Z.eqb_spec (y mod 100) 0), (Z.eqb_spec (y mod 400) 0);
    simpl; zdiv.
Qed.

(** The year of a day is the only one whose span contains it. *)
Lemma YearFromDay_unique y d :
  DayFromYear y <= d < DayFromYear (y + 1) -> YearFromDay d = y.
Proof.
  intros Hy. pose proof (YearFromDay_spec d) as Hs.
  set (Y := YearFromDay d) in *. clearbody Y.
  destruct (Z.lt_trichotomy Y y) as [Hlt|[Heq|Hgt]]; [|exact Heq|].
  - pose proof (DayFromYear_mono (Y + 1) y ltac:(lia)). lia.
  - pose proof (DayFromYear_mono (y + 1) Y ltac:(lia)). lia.
Qed.

Lemma DayWithinYear_bounds t :
  0 <= DayWithinYear t < DaysInYear (YearFromTime t).
Proof.
  unfold DayWithinYear, YearFromTime.
  pose proof (YearFromDay_spec (Day t)) as Hs.
  rewrite DayFromYear_succ in Hs. lia.
Qed.

Lemma month_of_yday_spec (leap : bool) d :
  0 <= d < (if leap then 366 else 365) ->
  let m := month_of_yday leap d in
  0 <= m <= 11 /\ month_start leap m <= d < month_start leap (m + 1).
Proof.
  intros Hd. unfold month_of_yday.
  repeat match goal with
         | |- context [?a <? ?b] => destruct (Z.ltb_spec a b)
         end;
    destruct leap; cbn zeta; calc_months; lia.
Qed.

Lemma month_start_mono (leap : bool) m m' :
  0 <= m -> m <= m' -> m' <= 12 -> month_start leap m <= month_start leap m'.
Proof.
  intros H0 H1 H2.
  assert (Hm : m = 0 \/ m = 1 \/ m = 2 \/ m = 3 \/ m = 4 \/ m = 5 \/ m = 6 \/ m = 7
               \/ m = 8 \/ m = 9 \/ m = 10 \/ m = 11 \/ m = 12) by lia.
  assert (Hm' : m' = 0 \/ m' = 1 \/ m' = 2 \/ m' = 3 \/ m' = 4 \/ m' = 5 \/ m' = 6 \/ m' = 7
               \/ m' = 8 \/ m' = 9 \/ m' = 10 \/ m' = 11 \/ m' = 12) by lia.
  destruct leap;
    repeat (destruct Hm as [->|Hm]); try subst m;
    repeat (destruct Hm' as [->|Hm']); try subst m'; calc_months; lia.
Qed.

(** A month is determined by the span of year days it covers. *)
Lemma month_of_yday_unique (leap : bool) m d :
  0 <= m <= 11 -> month_start leap m <= d < month_start leap (m + 1) ->
  month_of_yday leap d = m.
Proof.
  intros Hm Hd.
  assert (H0 : 0 <= d < (if leap then 366 else 365)).
  { pose proof (month_start_mono leap 0 m ltac:(lia) ltac:(lia) ltac:(lia)).
    pose proof (month_start_mono leap (m + 1) 12 ltac:(lia) ltac:(lia) ltac:(lia)).
    destruct leap; calc_months; lia. }
  pose proof (month_of_yday_spec leap d H0) as [Hr Hs]. cbn zeta in *.
  set (M := month_of_yday leap d) in *. clearbody M.
  destruct (Z.lt_trichotomy M m) as [Hlt|[Heq|Hgt]]; [|exact Heq|].
  - pose proof (month_start_mono leap (M + 1) m ltac:(lia) ltac:(lia) ltac:(lia)). lia.
  - pose proof (month_start_mono leap (m + 1) M ltac:(lia) ltac:(lia) ltac:(lia)). lia.
Qed.

Lemma MonthFromTime_range t : 0 <= MonthFromTime t <= 11.
Proof.
  unfold MonthFromTime.
  pose proof (DayWithinYear_bounds t) as Hb. unfold DaysInYear in Hb.
  apply (month_of_yday_spec (InLeapYear (YearFromTime t)) (DayWithinYear t)).
  destruct (InLeapYear (YearFromTime t)); lia.
Qed.

(** Rebuilding the day number from the calendar fields of a time value. *)
Lemma MakeDay_fields t :
  MakeDay (YearFromTime t) (MonthFromTime t) (DateFromTime t) = Day t.
Proof.
  pose proof (MonthFromTime_range t) as Hm.
  unfold MakeDay.
  replace (MonthFromTime t / 12) with 0 by zdiv.
  replace (MonthFromTime t mod 12) with (MonthFromTime t) by zdiv.
  rewrite Z.add_0_r. unfold DateFromTime, DayWithinYear. lia.
Qed.

Lemma MakeTime_fields t :
  MakeTime (HourFromTime t) (MinFromTime t) (SecFromTime t) 0
  = TimeWithinDay t - t mod 1000.
Proof.
  unfold MakeTime, HourFromTime, MinFromTime, SecFromTime, TimeWithinDay.
  unfold msPerHour, msPerMinute, msPerSecond, msPerDay. zdiv.
Qed.

(** [Date.UTC] on the fields of a time value drops the milliseconds, except
    that a year in 0..99 is moved into the twentieth century. *)
Lemma DateUTC_fields t :
  ~ (0 <= YearFromTime t <= 99) ->
  DateUTC (YearFromTime t) (MonthFromTime t) (DateFromTime t)
          (HourFromTime t) (MinFromTime t) (SecFromTime t)
  = TimeClip (t - t mod 1000).
Proof.
  intros Hy. unfold DateUTC.
  replace ((0 <=? YearFromTime t) && (YearFromTime t <=? 99)) with false
    by (symmetry; apply andb_false_iff; lia).
  rewrite MakeDay_fields, MakeTime_fields. f_equal.
  unfold MakeDate, Day, TimeWithinDay, msPerDay. zdiv.
Qed.

(** The calendar fields of a day built by [MakeDay] within a month. *)
Lemma fields_of_MakeDay y m d tod :
  0 <= m <= 11 -> 0 <= tod < msPerDay ->
  1 <= d <= month_start (InLeapYear y) (m + 1) - month_start (InLeapYear y) m ->
  let t := MakeDate (MakeDay y m d) tod in
  YearFromTime t = y /\ MonthFromTime t = m /\ DateFromTime t = d
  /\ TimeWithinDay t = tod /\ Day t = MakeDay y m d.
Proof.
  intros Hm Htod Hd t.
  assert (HD : Day t = MakeDay y m d).
  { unfold t, MakeDate, Day, msPerDay in *. zdiv. }
  assert (HT : TimeWithinDay t = tod).
  { unfold t, MakeDate, TimeWithinDay, msPerDay in *. zdiv. }
  assert (Hmk : MakeDay y m d = DayFromYear y + month_start (InLeapYear y) m + d - 1).
  { unfold MakeDay. replace (m / 12) with 0 by zdiv.
    replace (m mod 12) with m by zdiv. rewrite Z.add_0_r. reflexivity. }
  pose proof (month_start_mono (InLeapYear y) 0 m ltac:(lia) ltac:(lia) ltac:(lia)) as H1.
  pose proof (month_start_mono (InLeapYear y) (m + 1) 12 ltac:(lia) ltac:(lia) ltac:(lia)) as H2.
  assert (HY : YearFromTime t = y).
  { unfold YearFromTime. rewrite HD, Hmk. apply YearFromDay_unique.
    rewrite DayFromYear_succ. unfold DaysInYear.
    destruct (InLeapYear y); calc_months; lia. }
  assert (HW : DayWithinYear t = month_start (InLeapYear y) m + d - 1).
  { unfold DayWithinYear. rewrite HY, HD, Hmk. lia. }
  assert (HM : MonthFromTime t = m).
  { unfold MonthFromTime. rewrite HY, HW. apply month_of_yday_unique; lia. }
  repeat split; try assumption.
  unfold DateFromTime. rewrite HM, HY, HW. lia.
Qed.

Lemma WeekDay_range t : 0 <= WeekDay t <= 6.
Proof. unfold WeekDay. zdiv. Qed.

End DateFacts.

(* ===================================================================== *)
(** ** Facts about printed numbers and cache keys *)
(* ===================================================================== *)

Module KeyFacts.
Import JsString.
Local Open Scope string_scope.

Lemma indexOf_uint d : indexOf "_" (NilEmpty.string_of_uint d) = None.
Proof. induction d; cbn; try rewrite IHd; reflexivity. Qed.

Lemma indexOf_Z_to_string z : indexOf "_" (Z_to_string z) = None.
Proof.
  unfold Z_to_string, NilZero.string_of_int, NilZero.string_of_uint.
  destruct (Z.to_int z) as [d|d]; destruct d; cbn;
    try rewrite indexOf_uint; reflexivity.
Qed.

Lemma indexOf_num_to_string n : indexOf "_" (num_to_string n) = None.
Proof. destruct n; [reflexivity|apply indexOf_Z_to_string]. Qed.

Lemma Z_to_string_inj a b : Z_to_string a = Z_to_string b -> a = b.
Proof.
  unfold Z_to_string. intros H. apply to_int_inj.
  assert (Hn : forall z, Z.to_int z <> Decimal.Pos Decimal.Nil
                         /\ Z.to_int z <> Decimal.Neg Decimal.Nil).
  { intros [|p|p]; cbn; split; try discriminate;
      intros E; injection E; apply Unsigned.to_uint_nonnil. }
  pose proof (NilZero.isi (Z.to_int a) (proj1 (Hn a)) (proj2 (Hn a))) as Ha.
  pose proof (NilZero.isi (Z.to_int b) (proj1 (Hn b)) (proj2 (Hn b))) as Hb.
  rewrite H in Ha. congruence.
Qed.

Lemma Z_to_string_not_NaN z : Z_to_string z <> "NaN".
Proof.
  unfold Z_to_string, NilZero.string_of_int, NilZero.string_of_uint.
  destruct (Z.to_int z) as [d|d]; destruct d; cbn; discriminate.
Qed.

Lemma num_to_string_inj a b : num_to_string a = num_to_string b -> a = b.
Proof.
  destruct a, b; cbn; intros H; try reflexivity.
  - symmetry in H. destruct (Z_to_string_not_NaN _ H).
  - destruct (Z_to_string_not_NaN _ H).
  - f_equal. apply Z_to_string_inj, H.
Qed.

Lemma append_nil_l s : "" ++ s = s.
Proof. reflexivity. Qed.

Lemma append_cons c s t : String c s ++ t = String c (s ++ t).
Proof. reflexivity. Qed.

(** A key splits at its first underscore in one way only. *)
Lemma key_split a a' b b' :
  indexOf "_" a = None -> indexOf "_" a' = None ->
  a ++ "_" ++ b = a' ++ "_" ++ b' -> a = a' /\ b = b'.
Proof.
  revert a'. induction a as [|c a IH]; intros [|c' a'] Ha Ha' H;
    repeat (rewrite append_nil_l in H || rewrite append_cons in H);
    simpl in Ha, Ha'.
  - split; [reflexivity|congruence].
  - injection H as <- _. rewrite Ascii.eqb_refl in Ha'. discriminate.
  - injection H as -> _. rewrite Ascii.eqb_refl in Ha. discriminate.
  - injection H as -> H.
    destruct (Ascii.eqb c' "_"); [discriminate|].
    destruct (indexOf "_" a) eqn:E; [discriminate|].
    destruct (indexOf "_" a') eqn:E'; [discriminate|].
    destruct (IH a' eq_refl E' H) as [-> ->]. split; reflexivity.
Qed.

Lemma nth_week_key_inj y m w n y' m' w' n' :
  Tz.nth_week_key y m w n = Tz.nth_week_key y' m' w' n' ->
  y = y' /\ m = m' /\ w = w' /\ n = n'.
Proof.
  unfold Tz.nth_week_key. intros H.
  apply key_split in H as [H1 H]; try apply indexOf_Z_to_string.
  apply key_split in H as [H2 H]; try apply indexOf_Z_to_string.
  apply key_split in H as [H3 H4]; try apply indexOf_Z_to_string.
  repeat split; apply Z_to_string_inj; assumption.
Qed.

Lemma dst_key_inj t r t' r' :
  Tz.dst_key t r = Tz.dst_key t' r' -> t = t' /\ r = r'.
Proof.
  unfold Tz.dst_key. intros H.
  apply key_split in H as [H1 H2]; try apply indexOf_Z_to_string.
  split; [apply Z_to_string_inj|]; assumption.
Qed.

Lemma tz_info_key_inj o b o' b' :
  Tz.tz_info_key o b = Tz.tz_info_key o' b' -> o = o' /\ b = b'.
Proof.
  unfold Tz.tz_info_key. intros H.
  apply key_split in H as [H1 H2]; try apply indexOf_num_to_string.
  split; [apply num_to_string_inj; assumption|].
  destruct b, b'; cbn in H2; congruence.
Qed.

End KeyFacts.

(* ===================================================================== *)
(** ** The keyed caches are transparent *)
(* ===================================================================== *)

Module CacheFacts.
Import JsString Tz KeyFacts.
Local Open Scope Z_scope.

Lemma core_eq_refl s : core_eq s s.
Proof. repeat split. Qed.

Lemma core_eq_trans s1 s2 s3 : core_eq s1 s2 -> core_eq s2 s3 -> core_eq s1 s3.
Proof. unfold core_eq. intuition congruence. Qed.

Create HintDb tz.
#[global] Hint Resolve core_eq_refl : tz.
#[global] Hint Extern 2 (core_eq _ _) =>
  solve [unfold core_eq in *; cbn; intuition congruence] : tz.

(** Unfolds the monad operations of a call that has been reduced to them. *)
Ltac run :=
  cbv beta iota delta [bind get ret throw modify value final agrees toISOString].

Section WithEnv.
Variable db : list ZoneRecord.
Variable host : Z -> Z.

Local Abbreviation ok := (caches_ok db host).

Lemma caches_ok_blank : ok blank.
Proof. split; cbv [offset_cache_ok]; cbn; intros *; rewrite lookup_empty; discriminate. Qed.

Lemma caches_ok_constructor h : ok (constructor db h).
Proof. split; cbv [offset_cache_ok]; cbn; intros *; rewrite lookup_empty; discriminate. Qed.

(** Updates of the other fields keep the invariant. *)
Lemma caches_ok_same s s' :
  offset_cache s' = offset_cache s -> nth_week_cache s' = nth_week_cache s ->
  dst_cache s' = dst_cache s -> tz_info_cache s' = tz_info_cache s ->
  ok s -> ok s'.
Proof.
  intros E1 E2 E3 E4 [H1 H2 H3 H4].
  split; cbv [offset_cache_ok]; intros *; rewrite ?E1, ?E2, ?E3, ?E4; auto.
Qed.

Lemma caches_ok_offset s k :
  ok s -> ok (set_offset_cache (<[k := str2offset_compute k]> (offset_cache s)) s).
Proof.
  intros [H1 H2 H3 H4]. split; cbn; auto.
  intros k' v. cbn. rewrite lookup_insert. case_decide; [|apply H1]. subst. congruence.
Qed.

Lemma caches_ok_nth s y m w n v :
  nth_pure y m w n = Some v -> ok s ->
  ok (set_nth_week_cache (<[nth_week_key y m w n := v]> (nth_week_cache s)) s).
Proof.
  intros Hv [H1 H2 H3 H4]. split; cbn; auto.
  intros y' m' w' n' v'. rewrite lookup_insert. case_decide as E; [|auto].
  apply nth_week_key_inj in E as (-> & -> & -> & ->). congruence.
Qed.

Lemma caches_ok_dst s t r v :
  isDst_pure host t r = Some v -> ok s ->
  ok (set_dst_cache (<[dst_key t r := v]> (dst_cache s)) s).
Proof.
  intros Hv [H1 H2 H3 H4]. split; cbn; auto.
  intros t' r' v'. rewrite lookup_insert. case_decide as E; [|auto].
  apply dst_key_inj in E as (-> & ->). congruence.
Qed.

Lemma caches_ok_tz_info s o b v :
  matching_pure db o b = Some v -> ok s ->
  ok (set_tz_info_cache (<[tz_info_key o b := v]> (tz_info_cache s)) s).
Proof.
  intros Hv [H1 H2 H3 H4]. split; cbn; auto.
  intros o' b' v'. rewrite lookup_insert. case_decide as E; [|auto].
  apply tz_info_key_inj in E as (-> & ->). congruence.
Qed.

Lemma caches_ok_clear s : ok (final (clearCache s)).
Proof. split; cbv [offset_cache_ok]; cbn; intros *; rewrite lookup_empty; discriminate. Qed.

(** [#str2offset] returns what its body computes, whatever is cached. *)
(** [#str2offset] returns what its body computes, whatever is cached. *)
Lemma str2offset_agrees k s :
  ok s -> agrees db host (str2offset k s) (Some (str2offset_compute k)) s.
Proof.
  intros Hs. unfold str2offset. run.
  destruct (offset_cache s !! k) as [v|] eqn:E; run; (split; [|split]);
    auto using caches_ok_offset with tz.
  f_equal. apply (offset_ok _ _ _ Hs _ _ E).
Qed.

(** The body of [#nthWeekdayOfMonth] does not read or write the state. *)
Lemma nth_compute_stateless y m w n s :
  nthWeekdayOfMonth_compute y m w n s =
  match nth_pure y m w n with
  | Some v => Ok v s
  | None => Throw RangeError s
  end.
Proof.
  unfold nth_pure, nthWeekdayOfMonth_compute. run.
  destruct (DateUTC y (m - 1) 1 0 0 0) as [|t0]; [reflexivity|].
  destruct (setUTCDate t0 _) as [|t1]; [reflexivity|].
  destruct (negb _); [|reflexivity].
  destruct (setUTCDate t1 _); reflexivity.
Qed.

Lemma nthWeekdayOfMonth_agrees y m w n s :
  ok s -> agrees db host (nthWeekdayOfMonth y m w n s) (nth_pure y m w n) s.
Proof.
  intros Hs. unfold nthWeekdayOfMonth. run.
  destruct (nth_week_cache s !! nth_week_key y m w n) as [v|] eqn:E; run.
  - split; [|split]; auto with tz. symmetry. apply (nth_week_ok _ _ _ Hs _ _ _ _ _ E).
  - rewrite nth_compute_stateless.
    destruct (nth_pure y m w n) as [v|] eqn:Ev; run;
      (split; [|split]); auto using caches_ok_nth with tz.
Qed.

(** Sequencing: a call that agrees with its reference, followed by a
    continuation that agrees with its own from any good state. *)
Lemma agrees_bind {A B} (m : M A) (k : A -> M B) (ra : option A) (rb : A -> option B) s :
  agrees db host (m s) ra s ->
  (forall a s', ra = Some a -> ok s' -> core_eq s s' ->
                agrees db host (k a s') (rb a) s') ->
  agrees db host (bind m k s) (match ra with Some a => rb a | None => None end) s.
Proof.
  intros (Hv & Hok & Hc) Hk. unfold bind.
  destruct (m s) as [a s'|e s']; cbn [final value] in *; subst ra.
  - destruct (Hk a s' eq_refl Hok Hc) as (Hv' & Hok' & Hc').
    split; [|split]; eauto using core_eq_trans.
  - split; [|split]; auto.
Qed.

Lemma agrees_toISOString d s :
  ok s ->
  agrees db host (toISOString d s) (match d with Num t => Some t | NaN => None end) s.
Proof. intros Hs. destruct d; run; (split; [|split]); auto with tz. Qed.

(** [#isDstPeriod] returns the cache-free reference value, and throws
    exactly when the reference has none. *)
Lemma isDstPeriod_agrees t r s :
  ok s -> agrees db host (isDstPeriod host t r s) (isDst_pure host t r) s.
Proof.
  intros Hs. unfold isDstPeriod.
  change (bind get ?k s) with (k s s). cbv beta.
  destruct (dst_cache s !! dst_key t r) as [v|] eqn:E.
  { run. split; [|split]; auto with tz. symmetry. apply (dst_ok _ _ _ Hs _ _ _ E). }
  destruct (String.eqb r "00") eqn:E00.
  { run. unfold isDst_pure. rewrite E00. split; [|split]; auto with tz. }
  set (year := getFullYear host t).
  set (rule := parseInt16 r).
  pose proof (nthWeekdayOfMonth_agrees year (start_month_of rule) 0 (start_week_of rule) s Hs)
    as (V1 & O1 & C1).
  pose proof (nthWeekdayOfMonth_agrees year (end_month_of rule) 0 (end_week_of rule)
                (final (nthWeekdayOfMonth year (start_month_of rule) 0 (start_week_of rule) s)) O1)
    as (V2 & O2 & C2).
  assert (R : isDst_pure host t r =
              match nth_pure year (start_month_of rule) 0 (start_week_of rule),
                    nth_pure year (end_month_of rule) 0 (end_week_of rule) with
              | Some sd, Some ed =>
                  match DateUTC year (start_month_of rule - 1) sd 2 0 0,
                        DateUTC year (end_month_of rule - 1) ed 2 0 0,
                        utc_date_of host t with
                  | Num st, Num en, Num u => Some (in_dst st en u)
                  | _, _, _ => None
                  end
              | _, _ => None
              end).
  { unfold isDst_pure, dst_start, dst_end, dst_boundary. rewrite E00.
    fold year. fold rule.
    destruct (nth_pure year (start_month_of rule) 0 (start_week_of rule)) as [sd|];
      destruct (nth_pure year (end_month_of rule) 0 (end_week_of rule)) as [ed|];
      try reflexivity;
      destruct (DateUTC year (start_month_of rule - 1) _ 2 0 0);
      try destruct (DateUTC year (end_month_of rule - 1) _ 2 0 0);
      try destruct (utc_date_of host t); reflexivity. }
  unfold bind at 1.
  destruct (nthWeekdayOfMonth year (start_month_of rule) 0 (start_week_of rule) s)
    as [sd s1|e s1]; cbn [final value] in V1, O1, C1, V2, O2, C2; rewrite <- V1 in R;
    [|rewrite R; split; [|split]; auto].
  unfold bind at 1.
  destruct (nthWeekdayOfMonth year (end_month_of rule) 0 (end_week_of rule) s1)
    as [ed s2|e s2]; cbn [final value] in V2, O2, C2; rewrite <- V2 in R;
    [|rewrite R; split; [|split]; eauto using core_eq_trans].
  assert (C : core_eq s s2) by eauto using core_eq_trans.
  run. unfold in_dst in R.
  destruct (DateUTC year (start_month_of rule - 1) sd 2 0 0) as [|st];
    [rewrite R; split; [|split]; auto|].
  destruct (DateUTC year (end_month_of rule - 1) ed 2 0 0) as [|en];
    [rewrite R; split; [|split]; auto|].
  destruct (utc_date_of host t) as [|u]; [rewrite R; split; [|split]; auto|].
  split; [|split]; cbn.
  - symmetry. exact R.
  - apply caches_ok_dst; assumption.
  - auto with tz.
Qed.

(** The filter callback of [#findTimeZoneByOffset] does not touch the state. *)
Lemma offset_matches_stateless off b tz s :
  offset_matches off b tz s =
  match value (offset_matches off b tz blank) with
  | Some v => Ok v s
  | None => Throw (Error "Invalid offset format") s
  end.
Proof.
  unfold offset_matches, normalizeOffset_str. run.
  destruct (match_offset (tz2_utc_sdt tz)) as [[[? ?] ?]|]; [|reflexivity].
  destruct (match_offset (tz3_utc_dst tz)) as [[[? ?] ?]|]; reflexivity.
Qed.

Lemma filterM_stateless off b l s :
  filterM (offset_matches off b) l s =
  match value (filterM (offset_matches off b) l blank) with
  | Some v => Ok v s
  | None => Throw (Error "Invalid offset format") s
  end.
Proof.
  revert s. induction l as [|tz l IH]; intros s; [reflexivity|].
  cbn [filterM]. unfold bind.
  rewrite (offset_matches_stateless off b tz s).
  destruct (offset_matches off b tz blank) as [v s0|e s0] eqn:E0.
  - assert (Es : s0 = blank).
    { rewrite offset_matches_stateless in E0.
      destruct (value (offset_matches off b tz blank)); congruence. }
    subst s0. cbn [value].
    rewrite (IH s).
    destruct (filterM (offset_matches off b) l blank) as [r s1|e s1]; reflexivity.
  - reflexivity.
Qed.

(** [#findTimeZoneByOffset] returns the rows the filter selects, whatever is
    cached. *)
Lemma findTimeZoneByOffset_agrees o b s :
  ok s -> agrees db host (findTimeZoneByOffset db o b s) (matching_pure db o b) s.
Proof.
  intros Hs. unfold findTimeZoneByOffset.
  change (bind get ?k s) with (k s s). cbv beta.
  destruct (tz_info_cache s !! tz_info_key o b) as [v|] eqn:E.
  { run. split; [|split]; auto with tz. symmetry. apply (tz_info_ok _ _ _ Hs _ _ _ E). }
  unfold bind at 1. rewrite filterM_stateless. fold (matching_pure db o b).
  destruct (matching_pure db o b) as [v|] eqn:Ev; run;
    (split; [|split]); auto using caches_ok_tz_info with tz.
Qed.

End WithEnv.
End CacheFacts.

(* ===================================================================== *)
(** ** DST membership *)
(* ===================================================================== *)

Module DstFacts.
Import JsString Tz DateFacts CacheFacts.
Local Open Scope Z_scope.

(** The instants built at 02:00 are whole seconds. *)
Lemma dst_boundary_whole_second year month week t :
  dst_boundary year month week = Some t -> t mod 1000 = 0.
Proof.
  unfold dst_boundary. destruct (nth_pure year month 0 week) as [day|]; [|discriminate].
  unfold DateUTC, TimeClip. destruct (_ <? _); [discriminate|].
  intros [= <-]. unfold MakeDate, MakeTime, msPerDay, msPerHour, msPerMinute, msPerSecond.
  zdiv.
Qed.

Lemma dst_start_whole_second year rule t :
  dst_start year rule = Some t -> t mod 1000 = 0.
Proof. unfold dst_start. apply dst_boundary_whole_second. Qed.

Lemma dst_end_whole_second year rule t :
  dst_end year rule = Some t -> t mod 1000 = 0.
Proof. unfold dst_end. apply dst_boundary_whole_second. Qed.

(** Membership does not see the milliseconds below a boundary that is a
    whole second. *)
Lemma in_dst_truncate start end_ w :
  start mod 1000 = 0 -> end_ mod 1000 = 0 ->
  in_dst start end_ (w - w mod 1000) = in_dst start end_ w.
Proof.
  intros Hs He. unfold in_dst.
  assert (H1 : (start <=? w - w mod 1000) = (start <=? w)).
  { destruct (Z.leb_spec start (w - w mod 1000)), (Z.leb_spec start w);
      try reflexivity; exfalso; zdiv. }
  assert (H2 : (w - w mod 1000 <? end_) = (w <? end_)).
  { destruct (Z.ltb_spec (w - w mod 1000) end_), (Z.ltb_spec w end_);
      try reflexivity; exfalso; zdiv. }
  rewrite H1, H2. reflexivity.
Qed.

(** The wall-clock fields of a date, read back as a UTC instant, are the
    local time value without its milliseconds. *)
Lemma utc_date_of_local host t :
  let w := LocalTime host t in
  ~ (0 <= YearFromTime w <= 99) -> Z.abs w <= maxTime ->
  utc_date_of host t = Num (w - w mod 1000).
Proof.
  intros w Hy Hw. unfold utc_date_of, getFullYear, getMonth, JsDate.getDate,
    JsDate.getHours, JsDate.getMinutes, JsDate.getSeconds. fold w.
  rewrite (DateUTC_fields w Hy). unfold TimeClip.
  destruct (Z.ltb_spec maxTime (Z.abs (w - w mod 1000))) as [H|H]; [|reflexivity].
  exfalso. unfold maxTime in *. zdiv.
Qed.




End DstFacts.

(* ===================================================================== *)
(** ** Offset codec *)
(* ===================================================================== *)

Module CodecFacts.
Import JsString Tz CacheFacts.
Local Open Scope Z_scope.

(** A check that holds on a whole interval holds at each of its points. *)
Lemma forallb_interval (P : Z -> bool) (lo : Z) (n : nat) :
  forallb P (map (fun k => Z.of_nat k + lo) (seq 0 n)) = true ->
  forall m, lo <= m < lo + Z.of_nat n -> P m = true.
Proof.
  intros H m Hm. rewrite forallb_forall in H. apply H.
  apply in_map_iff. exists (Z.to_nat (m - lo)). split; [lia|].
  apply in_seq. lia.
Qed.

Lemma roundtrip_ok_range m : -720 <= m <= 840 -> roundtrip_ok m = true.
Proof.
  intros Hm. apply (forallb_interval roundtrip_ok (-720) 1561); [|lia].
  vm_compute. reflexivity.
Qed.

(** [#str2offset] returns the parse of its argument as soon as the entries
    of [#offset_cache] are parses of their keys, and keeps them so. *)
Lemma str2offset_value k s :
  offset_cache_ok s ->
  exists s', str2offset k s = Ok (str2offset_compute k) s' /\ offset_cache_ok s'.
Proof.
  intros Hs. unfold str2offset. run.
  destruct (offset_cache s !! k) as [v|] eqn:E.
  - exists s. rewrite (Hs k v E). split; [reflexivity|exact Hs].
  - eexists. split; [reflexivity|].
    intros k' v'. cbn. rewrite lookup_insert. case_decide; [|apply Hs].
    subst. congruence.
Qed.

(** C4.  For every integer minute offset [m] in [-720, 840] and every
    state whose offset cache is sound, parsing the formatted offset returns
    [m], and the formatted offset has the sign-explicit, zero-padded shape
    [±HH:MM]. *)
Theorem offset_roundtrip m s :
  -720 <= m <= 840 ->
  offset_cache_ok s ->
  value (str2offset (offset2str (Num m)) s) = Some (Num m) /\
  sign_HH_MM (offset2str (Num m)) = true.
Proof.
  intros Hm Hs. pose proof (roundtrip_ok_range m Hm) as Hr.
  unfold roundtrip_ok in Hr. apply andb_true_iff in Hr as [Hp Hshape].
  split; [|exact Hshape].
  destruct (str2offset_value (offset2str (Num m)) s Hs) as (s' & -> & _).
  cbn [value]. destruct (str2offset_compute (offset2str (Num m))) as [|v]; [discriminate|].
  apply Z.eqb_eq in Hp. congruence.
Qed.

(** The theorem at work on the offset of Newfoundland. *)
Lemma offset_roundtrip_witness :
  value (str2offset (offset2str (Num (-210))) blank) = Some (Num (-210)) /\
  sign_HH_MM (offset2str (Num (-210))) = true.
Proof.
  apply (offset_roundtrip (-210) blank).
  - lia.
  - intros k v. cbn. rewrite lookup_empty. discriminate.
Defined.

End CodecFacts.

(* ===================================================================== *)
(** ** The memoised methods write to their caches only *)
(* ===================================================================== *)

Module FrameFacts.
Import JsString Tz CacheFacts.
Local Open Scope Z_scope.

Lemma frames_ret {A} (a : A) : frames (ret a).
Proof. intros s. apply core_eq_refl. Qed.

Lemma frames_throw {A} e : frames (@throw A e).
Proof. intros s. apply core_eq_refl. Qed.

Lemma frames_get : frames get.
Proof. intros s. apply core_eq_refl. Qed.

Lemma frames_modify f : (forall s, core_eq s (f s)) -> frames (modify f).
Proof. intros H s. apply H. Qed.

Lemma frames_bind {A B} (m : M A) (k : A -> M B) :
  frames m -> (forall a, frames (k a)) -> frames (bind m k).
Proof.
  intros Hm Hk s. specialize (Hm s). unfold bind.
  destruct (m s) as [a s'|e s']; cbn [final] in *; [|exact Hm].
  eapply core_eq_trans; [exact Hm|apply Hk].
Qed.

Lemma frames_toISOString d : frames (toISOString d).
Proof. destruct d; [apply frames_throw|apply frames_ret]. Qed.

(** Decomposes a goal [frames m] along the syntax of [m]. *)
Ltac frames :=
  repeat first
    [ apply frames_ret | apply frames_throw | apply frames_get
    | apply frames_toISOString
    | apply frames_modify; intros ?; solve [repeat split]
    | apply frames_bind; [|intros ?]
    | match goal with
      | |- frames (match ?x with _ => _ end) => destruct x
      | |- frames (let '(_, _) := ?x in _) => destruct x
      end ].

Lemma frames_str2offset k : frames (str2offset k).
Proof. unfold str2offset. frames. Qed.

Lemma frames_nthWeekdayOfMonth y m w n : frames (nthWeekdayOfMonth y m w n).
Proof. unfold nthWeekdayOfMonth, nthWeekdayOfMonth_compute. frames. Qed.

Lemma frames_isDstPeriod host t r : frames (isDstPeriod host t r).
Proof.
  unfold isDstPeriod. frames; try apply frames_nthWeekdayOfMonth; frames.
Qed.

End FrameFacts.

(* ===================================================================== *)
(** ** DST status of an instance *)
(* ===================================================================== *)

Module StatusFacts.
Import JsString Tz CacheFacts FrameFacts.
Local Open Scope Z_scope.

Section WithEnv.
Variable db : list ZoneRecord.
Variable host : Z -> Z.
Variable now : Z.

(** With a cached status, a call returns it and changes nothing. *)
Lemma getDaylightStatus_cached s b loc :
  tz_data s = None -> dst_status_cache s = Some b ->
  getDaylightStatus db host now loc s = Ok b s.
Proof. intros Hd Hc. unfold getDaylightStatus. run. rewrite Hd, Hc. reflexivity. Qed.

Lemma getDaylightStatus_cached_all s b locs :
  tz_data s = None -> dst_status_cache s = Some b ->
  mapM (getDaylightStatus db host now) locs s = Ok (map (fun _ => b) locs) s.
Proof.
  intros Hd Hc. induction locs as [|loc locs IH]; [reflexivity|].
  cbn [mapM map]. unfold bind at 1.
  rewrite (getDaylightStatus_cached s b loc Hd Hc).
  unfold bind at 1. rewrite IH. reflexivity.
Qed.

(** A call that finds nothing cached either reports false and changes
    nothing, or computes a status and caches it. *)
Lemma getDaylightStatus_first s loc b s' :
  tz_data s = None -> dst_status_cache s = None ->
  getDaylightStatus db host now loc s = Ok b s' ->
  (b = false /\ s' = s) \/ (tz_data s' = None /\ dst_status_cache s' = Some b).
Proof.
  intros Hd Hc. unfold getDaylightStatus.
  change (bind get ?k s) with (k s s). cbv beta. rewrite Hd, Hc.
  destruct (List.find _ db) as [tz_info|]; [|run; intros [= <- <-]; left; split; reflexivity].
  destruct (String.eqb (tz9_dst_rule tz_info) "00");
    [run; intros [= <- <-]; left; split; reflexivity|].
  unfold bind at 1.
  pose proof (frames_isDstPeriod host now (tz9_dst_rule tz_info) s) as Hf.
  destruct (isDstPeriod host now (tz9_dst_rule tz_info) s) as [v s1|e s1];
    [|discriminate].
  run. intros [= <- <-]. right. cbn in *.
  destruct Hf as (_ & _ & _ & _ & Ht & _). split; [congruence|reflexivity].
Qed.

(** C10.  The result of [getDaylightStatus] does not depend on its
    [location] argument once a status has been determined.  An instance
    whose identifier resolved to a zone record ([#tz_data] set) runs
    [#isDstPeriod] on its own zone's rule, whatever the argument.  Any other
    instance, when nothing is cached, either reports false without caching
    anything (zone not found, or rule ["00"]) or computes a status and
    caches it; and once a status [b] is cached, every later call returns
    [b] and leaves the state as it is, whichever locations are passed. *)
Theorem getDaylightStatus_location_independent s :
  (forall d loc, tz_data s = Some d ->
     getDaylightStatus db host now loc s = isDstPeriod host now (tz9_dst_rule d) s) /\
  (forall loc b s', tz_data s = None -> dst_status_cache s = None ->
     getDaylightStatus db host now loc s = Ok b s' ->
     (b = false /\ s' = s) \/
     (forall locs, mapM (getDaylightStatus db host now) locs s'
                   = Ok (map (fun _ => b) locs) s')) /\
  (forall b locs, tz_data s = None -> dst_status_cache s = Some b ->
     mapM (getDaylightStatus db host now) locs s = Ok (map (fun _ => b) locs) s).
Proof.
  split; [|split].
  - intros d loc Hd. unfold getDaylightStatus. run. rewrite Hd. reflexivity.
  - intros loc b s' Hd Hc Hrun.
    destruct (getDaylightStatus_first s loc b s' Hd Hc Hrun) as [H|[Hd' Hc']];
      [left; exact H|right].
    intros locs. apply getDaylightStatus_cached_all; assumption.
  - intros b locs Hd Hc. apply getDaylightStatus_cached_all; assumption.
Qed.

End WithEnv.

(** The theorem at work: in July 2024 a blank instance is asked about New
    York, and then about Tokyo and about a zone that is not in the table. *)
Lemma getDaylightStatus_location_independent_witness :
  let db := [Sample.New_York; Sample.Tokyo] in
  let run := getDaylightStatus db Sample.host_utc Sample.july_2024 in
  exists s', run (Some "America/New_York"%string) blank = Ok true s' /\
    mapM run [Some "Asia/Tokyo"%string; Some "Mars/Phobos"%string; None] s'
    = Ok [true; true; true] s'.
Proof.
  intros db run.
  destruct (run (Some "America/New_York"%string) blank) as [b s'|e s'] eqn:E;
    [|vm_compute in E; discriminate].
  assert (Hb : b = true) by (vm_compute in E; congruence). subst b.
  exists s'. split; [reflexivity|].
  destruct (getDaylightStatus_location_independent db Sample.host_utc Sample.july_2024 blank)
    as (_ & H & _).
  destruct (H (Some "America/New_York"%string) true s' eq_refl eq_refl E) as [[Hf _]|Hall];
    [discriminate|].
  apply (Hall [Some "Asia/Tokyo"%string; Some "Mars/Phobos"%string; None]).
Defined.

End StatusFacts.

(* ===================================================================== *)
(** ** The n-th weekday of a month *)
(* ===================================================================== *)

Module NthFacts.
Import JsString Tz DateFacts CacheFacts.
Local Open Scope Z_scope.

Lemma month_length (leap : bool) m :
  0 <= m <= 11 -> 28 <= month_start leap (m + 1) - month_start leap m <= 31.
Proof.
  intros Hm.
  assert (H : m = 0 \/ m = 1 \/ m = 2 \/ m = 3 \/ m = 4 \/ m = 5 \/ m = 6 \/ m = 7
              \/ m = 8 \/ m = 9 \/ m = 10 \/ m = 11) by lia.
  destruct leap; repeat (destruct H as [->|H]); try subst m; calc_months; lia.
Qed.

(** Dates of the years the theorems below cover are valid time values. *)
Lemma MakeDay_valid y m d :
  -271000 <= y <= 275000 -> 0 <= m <= 11 -> 1 <= d <= 31 ->
  TimeClip (MakeDate (MakeDay y m d) 0) = Num (MakeDate (MakeDay y m d) 0).
Proof.
  intros Hy Hm Hd. unfold TimeClip.
  destruct (Z.ltb_spec maxTime (Z.abs (MakeDate (MakeDay y m d) 0))) as [H|H];
    [|reflexivity].
  exfalso. revert H. unfold MakeDate, MakeDay, maxTime, msPerDay.
  replace (m / 12) with 0 by zdiv. replace (m mod 12) with m by zdiv.
  pose proof (month_start_mono (InLeapYear (y + 0)) 0 m ltac:(lia) ltac:(lia) ltac:(lia)) as H1.
  pose proof (month_start_mono (InLeapYear (y + 0)) m 12 ltac:(lia) ltac:(lia) ltac:(lia)) as H2.
  assert (H3 : month_start (InLeapYear (y + 0)) 12 <= 366)
    by (destruct (InLeapYear (y + 0)); calc_months; lia).
  assert (H0 : month_start (InLeapYear (y + 0)) 0 = 0) by reflexivity.
  unfold DayFromYear. zdiv.
Qed.

(** For [n] from 0 to 4 the method returns day [1 + d + 7k] of the month,
    where [d] in 0..6 is the distance from the weekday of the first of the
    month to [weekday], and [k] is [n - 1], or 0 when [n = 0]. *)
Lemma nth_pure_small year month weekday n :
  -271000 <= year <= 275000 -> ~ (0 <= year <= 99) ->
  1 <= month <= 12 -> 0 <= weekday <= 6 -> 0 <= n <= 4 ->
  let first := MakeDate (MakeDay year (month - 1) 1) 0 in
  nth_pure year month weekday n
  = Some (1 + (weekday - WeekDay first) mod 7 + 7 * (if n =? 0 then 0 else n - 1)).
Proof.
  intros Hy H99 Hm Hw Hn first.
  unfold nth_pure, nthWeekdayOfMonth_compute, DateUTC.
  replace ((0 <=? year) && (year <=? 99)) with false
    by (symmetry; apply andb_false_iff; lia).
  change (MakeTime 0 0 0 0) with 0.
  rewrite (MakeDay_valid year (month - 1) 1 Hy ltac:(lia) ltac:(lia)).
  fold first. run.
  destruct (fields_of_MakeDay year (month - 1) 1 0 ltac:(lia) ltac:(unfold msPerDay; lia)
              ltac:(pose proof (month_length (InLeapYear year) (month - 1) ltac:(lia));
                    replace (month - 1 + 1) with month in * by lia; lia))
    as (HY & HM & _ & HT & _).
  fold first in HY, HM, HT.
  pose proof (WeekDay_range first) as Hd.
  unfold getUTCDay.
  set (k := if n =? 0 then 0 else n - 1).
  set (dt := 1 + (weekday - WeekDay first) mod 7 + 7 * k).
  assert (Hdt : (if n =? 0
                 then 1 + Z.rem (weekday - WeekDay first + 7) 7
                 else 1 + (weekday - WeekDay first)
                      + (if weekday - WeekDay first <? 0 then 7 else 0) + (n - 1) * 7)
                = dt).
  { unfold dt, k. destruct (Z.eqb_spec n 0) as [->|Hn0].
    - rewrite Z.rem_mod_nonneg by lia. zdiv.
    - destruct (Z.ltb_spec (weekday - WeekDay first) 0); zdiv. }
  rewrite Hdt.
  assert (Hr : 1 <= dt <= 28).
  { unfold dt, k. destruct (Z.eqb_spec n 0); zdiv. }
  unfold setUTCDate at 1. rewrite HY, HM, HT.
  rewrite (MakeDay_valid year (month - 1) dt Hy ltac:(lia) ltac:(lia)).
  destruct (fields_of_MakeDay year (month - 1) dt 0 ltac:(lia) ltac:(unfold msPerDay; lia)
              ltac:(pose proof (month_length (InLeapYear year) (month - 1) ltac:(lia));
                    replace (month - 1 + 1) with month in * by lia; lia))
    as (_ & HM' & HD' & _ & _).
  unfold getUTCMonth, getUTCDate. rewrite HM', Z.eqb_refl. cbn [negb]. run.
  rewrite HD'. reflexivity.
Qed.

(** The day found has the weekday asked for. *)
Lemma WeekDay_shift year month d d' :
  WeekDay (MakeDate (MakeDay year month d) 0)
  = (WeekDay (MakeDate (MakeDay year month d') 0) + (d - d')) mod 7.
Proof.
  unfold WeekDay, Day, MakeDate, MakeDay, msPerDay. zdiv.
Qed.

(** C2 at [n = 0].  For every year the method covers without remapping,
    every month 1..12, every weekday 0..6 and every state whose keyed caches
    are sound, [#nthWeekdayOfMonth(year, month, weekday, 0)] returns a day
    in 1..7 that falls on [weekday]: the FIRST occurrence of the weekday in
    the month, where the claim (and the comment at the end of the source
    file) promise the last one, which lies on day 22 or later. *)
Theorem nthWeekdayOfMonth_zero_is_first db host year month weekday s :
  caches_ok db host s ->
  -271000 <= year <= 275000 -> ~ (0 <= year <= 99) ->
  1 <= month <= 12 -> 0 <= weekday <= 6 ->
  exists day s',
    nthWeekdayOfMonth year month weekday 0 s = Ok day s' /\
    1 <= day <= 7 /\
    WeekDay (MakeDate (MakeDay year (month - 1) day) 0) = weekday.
Proof.
  intros Hs Hy H99 Hm Hw.
  destruct (nthWeekdayOfMonth_agrees db host year month weekday 0 s Hs) as (Hv & _ & _).
  rewrite (nth_pure_small year month weekday 0 Hy H99 Hm Hw ltac:(lia)) in Hv.
  cbn [Z.eqb] in Hv.
  destruct (nthWeekdayOfMonth year month weekday 0 s) as [day s'|e s']; [|discriminate].
  injection Hv as ->. eexists _, s'. split; [reflexivity|].
  pose proof (WeekDay_range (MakeDate (MakeDay year (month - 1) 1) 0)) as Hd.
  split; [zdiv|].
  rewrite (WeekDay_shift year (month - 1) _ 1). zdiv.
Qed.

(** The failing input of C2: the Sundays of November 2024 are the 3rd,
    10th, 17th and 24th; asked for the last one, the method answers 3. *)
Lemma nthWeekdayOfMonth_zero_is_first_witness :
  exists day s',
    nthWeekdayOfMonth 2024 11 0 0 blank = Ok day s' /\
    1 <= day <= 7 /\
    WeekDay (MakeDate (MakeDay 2024 (11 - 1) day) 0) = 0.
Proof.
  apply (nthWeekdayOfMonth_zero_is_first [] Sample.host_utc 2024 11 0 blank).
  - apply caches_ok_blank.
  - lia.
  - lia.
  - lia.
  - lia.
Defined.

End NthFacts.

(* ===================================================================== *)
(** ** Runs on sample rows *)
(* ===================================================================== *)

Module Runs.
Import JsString Tz Sample.
Local Open Scope Z_scope.
Local Open Scope string_scope.

(** C3 at its failing input.  For Sydney (DST from the first Sunday of
    October to the first Sunday of April) on 1 February 2024, the wall clock
    of the zone is before this year's end of DST (7 April, 02:00), which is
    before this year's start (6 October, 02:00); the method returns the
    start, tagged as a change into DST. *)
Lemma getTimeUntilNextDstChange_southern :
  let db := [Sydney] in
  let now_utc := 1706785200000%Z in
  dst_end 2024 "141A" = Some 1712455200000%Z /\
  dst_start 2024 "141A" = Some 1728180000000%Z /\
  (now_utc < 1712455200000 < 1728180000000)%Z /\
  value (getTimeUntilNextDstChange db host_utc february_2024
           (constructor db (HStr "Australia/Sydney")))
  = Some (Some (mkChange (Num 1728180000000) (Num (1728180000000 - now_utc)) true)).
Proof. vm_compute. repeat split; reflexivity. Qed.

(** C8 at its failing input.  With the rows of New York and Halifax, the
    point (42.6807, -68.7905) is nearer to Halifax in Manhattan distance on
    the scaled coordinates, and the method returns New York: every index
    entry carries the [+ 0.5] of the source's "inline round". *)
Lemma getApproxLocation_biased :
  let db := [New_York; Halifax] in
  let lat := (426807 # 10000)%Q in
  let lon := (-687905 # 10000)%Q in
  (manhattan Halifax lat lon < manhattan New_York lat lon)%Q /\
  value (getApproxLocation db lat lon blank) = Some "America/New_York".
Proof. vm_compute. split; reflexivity. Qed.

(** C9 at its failing input.  In July 2024 a blank instance has been asked
    about New York, which cached [true].  Asked twice about Tokyo, it
    answers [true] the second time; with [clearCache] between the two
    calls, it answers [false]. *)
Lemma clearCache_changes_status :
  let db := [New_York] in
  let ask := getDaylightStatus db host_utc july_2024 in
  let s1 := final (ask (Some "America/New_York") blank) in
  value ((ask (Some "Asia/Tokyo") ;; ask (Some "Asia/Tokyo")) s1) = Some true /\
  value ((ask (Some "Asia/Tokyo") ;; clearCache ;; ask (Some "Asia/Tokyo")) s1) = Some false.
Proof. vm_compute. split; reflexivity. Qed.

(** C5 fails as stated.  In July 2024 New York is in its DST period and its
    DST offset is the offset of the hint [-4]; resolution does not select
    it, and ends on "Unknown" on a host whose zone is UTC. *)
Lemma getLocation_ignores_dst_state :
  let db := [New_York] in
  value (isDstPeriod host_utc july_2024 (tz9_dst_rule New_York) blank) = Some true /\
  tz3_utc_dst New_York = normalizeOffset_num (Num (-4 * 60)) /\
  value (getLocation db host_utc july_2024 (constructor db (HNum (-4)))) = Some "Unknown".
Proof. vm_compute. repeat split; reflexivity. Qed.

End Runs.

(* ===================================================================== *)
(** ** Zone resolution *)
(* ===================================================================== *)

Module ResolverFacts.
Import JsString Tz CacheFacts FrameFacts KeyFacts.
Local Open Scope Z_scope.
Local Open Scope string_scope.

Lemma split_no_sep c s : indexOf c s = None -> split c s = [s].
Proof.
  induction s as [|a s IH]; [reflexivity|]. cbn.
  destruct (Ascii.eqb a c); [discriminate|].
  destruct (indexOf c s); [discriminate|]. intros _. rewrite IH; reflexivity.
Qed.

Lemma prefix_length p s : String.prefix p s = true -> (String.length p <= String.length s)%nat.
Proof.
  revert s. induction p as [|a p IH]; intros [|b s]; cbn; try lia; try discriminate.
  destruct (ascii_dec a b); [|discriminate]. intros H. specialize (IH s H). lia.
Qed.

Lemma length_append a b : String.length (a ++ b) = (String.length a + String.length b)%nat.
Proof. induction a as [|c a IH]; [reflexivity|]. rewrite append_cons. cbn. lia. Qed.

(** An identifier that starts with [c/] is not [c] itself. *)
Lemma startsWith_slash_neq id c :
  startsWith id (c ++ "/") = true -> String.eqb id c = false.
Proof.
  intros H. apply prefix_length in H. rewrite length_append in H. cbn in H.
  apply String.eqb_neq. intros ->. lia.
Qed.

Lemma is_digit_not_slash a : is_digit a = true -> Ascii.eqb a "/" = false.
Proof.
  destruct a as [[] [] [] [] [] [] [] []]; vm_compute; congruence.
Qed.

Lemma sign_not_slash a : Ascii.eqb a "-" || Ascii.eqb a "+" = true -> Ascii.eqb a "/" = false.
Proof.
  destruct a as [[] [] [] [] [] [] [] []]; vm_compute; congruence.
Qed.

Lemma regex_tail_no_slash r :
  match r with
  | EmptyString => true
  | String ":" (String d1 (String d2 EmptyString)) => is_digit d1 && is_digit d2
  | _ => false
  end = true -> indexOf "/" r = None.
Proof.
  destruct r as [|c r]; [reflexivity|].
  destruct (Ascii.eqb_spec c ":") as [->|Hc].
  - destruct r as [|d1 [|d2 [|? ?]]]; try discriminate.
    intros H. apply andb_true_iff in H as [H1 H2].
    cbn. rewrite (is_digit_not_slash _ H1), (is_digit_not_slash _ H2). reflexivity.
  - destruct c as [[] [] [] [] [] [] [] []]; try discriminate; congruence.
Qed.

Lemma regex_body_no_slash body :
  match body with
  | String d1 r =>
      is_digit d1 &&
      ((match r with
        | EmptyString => true
        | String ":" (String d1 (String d2 EmptyString)) => is_digit d1 && is_digit d2
        | _ => false
        end) ||
       match r with
       | String d2 r' => is_digit d2 &&
           match r' with
           | EmptyString => true
           | String ":" (String d1 (String d2 EmptyString)) => is_digit d1 && is_digit d2
           | _ => false
           end
       | EmptyString => false
       end)
  | EmptyString => false
  end = true -> indexOf "/" body = None.
Proof.
  destruct body as [|d1 r]; [discriminate|].
  intros H. apply andb_true_iff in H as [H1 H].
  cbn [indexOf]. rewrite (is_digit_not_slash _ H1).
  apply orb_true_iff in H as [H|H].
  - rewrite (regex_tail_no_slash _ H). reflexivity.
  - destruct r as [|d2 r']; [discriminate|].
    apply andb_true_iff in H as [H2 H].
    cbn [indexOf]. rewrite (is_digit_not_slash _ H2), (regex_tail_no_slash _ H). reflexivity.
Qed.

Lemma regex_no_slash d : HH_MM_OFFSET_REGEX d = true -> indexOf "/" d = None.
Proof.
  unfold HH_MM_OFFSET_REGEX. destruct d as [|a r]; [discriminate|].
  destruct (Ascii.eqb a "-" || Ascii.eqb a "+") eqn:E.
  - intros H. cbn [indexOf]. rewrite (sign_not_slash _ E).
    rewrite (regex_body_no_slash r H). reflexivity.
  - intros H. exact (regex_body_no_slash (String a r) H).
Qed.
Lemma regex_nonempty d : HH_MM_OFFSET_REGEX d = true -> String.eqb d "" = false.
Proof. destruct d; [discriminate|reflexivity]. Qed.

Lemma prefer_non_deprecated_in l :
  l <> [] -> exists tz, prefer_non_deprecated l = Some tz /\ In tz l.
Proof.
  intros Hne. unfold prefer_non_deprecated.
  destruct (List.filter _ l) as [|tz r] eqn:E.
  - destruct l as [|x l]; [congruence|]. exists x. split; [reflexivity|left; reflexivity].
  - exists tz. split; [reflexivity|].
    assert (Hin : In tz (tz :: r)) by (left; reflexivity).
    rewrite <- E in Hin. apply filter_In in Hin. apply Hin.
Qed.

Section WithEnv.
Variable db : list ZoneRecord.
Variable host : Z -> Z.
Variable now : Z.

(** [#isDstNow] is false for every offset and every table: no row has the
    property it reads. *)
Lemma isDstNow_false o s : isDstNow db o s = Ok false s.
Proof.
  unfold isDstNow. run. f_equal.
  induction db as [|tz l IH]; [reflexivity|]. cbn. exact IH.
Qed.

Lemma calculateTZ_value s :
  calculateTZ host now s
  = Ok (match default_offset_mins s with Some m => m | None => Num (host now) end) s.
Proof.
  unfold calculateTZ, getTimezoneOffset. run.
  destruct (default_offset_mins s); [reflexivity|]. rewrite Z.opp_involutive. reflexivity.
Qed.

Lemma filter_all_true {A} (p : A -> bool) l :
  Forall (fun x => p x = true) l -> List.filter p l = l.
Proof. induction 1 as [|x l Hx _ IH]; [reflexivity|]. cbn. rewrite Hx, IH. reflexivity. Qed.

Lemma Forall_filter_sub {A} (P : A -> Prop) (q : A -> bool) l :
  Forall P l -> Forall P (List.filter q l).
Proof.
  induction 1 as [|x l Hx _ IH]; [constructor|]. cbn.
  destruct (q x); [constructor|]; assumption.
Qed.

(** With a hint that is a bare continent name, choosing among two or more
    rows of that continent reaches the similarity of an absent city. *)
Lemma selectBest_continent_only_throws s c l :
  default_offset s = HStr c -> c <> "" -> indexOf "/" c = None ->
  (2 <= length l)%nat ->
  Forall (fun tz => startsWith (tz1_tz_id tz) (c ++ "/") = true) l ->
  selectBestMatchingTimeZone l s = Throw TypeError s.
Proof.
  intros Hd Hc Hs Hl Hall.
  destruct l as [|x [|y l]]; cbn in Hl; try lia.
  unfold selectBestMatchingTimeZone.
  set (m := x :: y :: l) in *.
  set (nd := List.filter (fun tz => negb (includes (tz1_tz_id tz) "Etc/")) m).
  set (f := match nd with [] => m | _ => nd end).
  assert (Hf : Forall (fun tz => startsWith (tz1_tz_id tz) (c ++ "/") = true) f).
  { unfold f. destruct nd eqn:E; [exact Hall|]. rewrite <- E. apply Forall_filter_sub, Hall. }
  assert (Hne : f <> []).
  { unfold f. destruct nd; [discriminate|discriminate]. }
  change (bind get ?k s) with (k s s). cbv beta. rewrite Hd.
  apply String.eqb_neq in Hc. rewrite Hc.
  rewrite (split_no_sep "/" c Hs). cbn [nth lookup list_lookup].
  rewrite (filter_all_true _ f Hf).
  destruct f as [|z f']; [congruence|].
  replace (List.find (fun tz => String.eqb (tz1_tz_id tz) c) (z :: f')) with (@None ZoneRecord).
  2:{ symmetry. clear - Hf. induction Hf as [|w r Hw _ IH]; [reflexivity|].
      cbn. rewrite (startsWith_slash_neq _ _ Hw). exact IH. }
  reflexivity.
Qed.

(** C6 at its failing inputs.  For every table, host and clock: when the
    hint is a non-empty string without a slash that is not of the offset
    shape and resolved to no row (so [#tz_data] is null), and two or more
    identifiers of the table start with the hint followed by a slash, then
    [getLocation] throws a [TypeError]. *)
Theorem getLocation_continent_only_throws s c :
  tz_data s = None -> location_cache s = None -> default_offset s = HStr c ->
  c <> "" -> indexOf "/" c = None -> HH_MM_OFFSET_REGEX c = false ->
  (2 <= length (List.filter (fun tz => startsWith (tz1_tz_id tz) (c ++ "/")) db))%nat ->
  getLocation db host now s = Throw TypeError s.
Proof.
  intros Ht Hl Hd Hc Hs Hre Hlen.
  unfold getLocation. change (bind get ?k s) with (k s s). cbv beta.
  rewrite Ht, Hl. unfold bind at 1. unfold getLocation_compute.
  unfold bind at 1. rewrite calculateTZ_value.
  unfold bind at 1. rewrite isDstNow_false.
  change (bind get ?k s) with (k s s). cbv beta.
  rewrite Hd. cbn [truthy]. pose proof Hc as Hc'. apply String.eqb_neq in Hc'. rewrite Hc'.
  cbn [negb]. rewrite Hre. rewrite (split_no_sep "/" c Hs). cbn [nth].
  set (cm := List.filter (fun tz => startsWith (tz1_tz_id tz) (c ++ "/")) db) in *.
  assert (Hall : Forall (fun tz => startsWith (tz1_tz_id tz) (c ++ "/") = true) cm).
  { unfold cm. apply Forall_forall. intros tz Hin.
    apply list_elem_of_In, filter_In in Hin. apply Hin. }
  pose proof (selectBest_continent_only_throws s c cm Hd Hc Hs Hlen Hall) as Hthrow.
  destruct cm as [|x cm']; [cbn in Hlen; lia|].
  unfold bind. rewrite Hthrow. reflexivity.
Qed.

(** *** Resolution of an offset hint *)

Lemma matching_pure_wf mins :
  Forall (fun tz => wf_row tz = true) db ->
  matching_pure db mins false = Some (std_matches db mins).
Proof.
  unfold matching_pure, std_matches. set (off := normalizeOffset_num mins).
  induction 1 as [|tz l Htz _ IH]; [reflexivity|].
  cbn [filterM List.filter]. unfold bind at 1.
  unfold offset_matches at 1, normalizeOffset_str. unfold wf_row in Htz.
  destruct (match_offset (tz2_utc_sdt tz)) as [[[sg hh] mm]|]; [|discriminate].
  destruct (match_offset (tz3_utc_dst tz)) as [[[sg' hh'] mm']|]; [|discriminate].
  run. fold (@bind (list ZoneRecord)).
  destruct (filterM (offset_matches off false) l blank) as [r s0|e s0];
    cbn [value] in *; [|discriminate].
  injection IH as ->. reflexivity.
Qed.

(** Without a continent to prefer, the choice is the first row that is not
    an ["Etc/"] alias, or else the first row. *)
Lemma selectBest_first s l :
  l <> [] ->
  match default_offset s with
  | HStr d =>
      d = "" \/
      Forall (fun tz => startsWith (tz1_tz_id tz) (nth 0 (split "/" d) "" ++ "/") = false) l
  | _ => True
  end ->
  selectBestMatchingTimeZone l s = Ok (tz1_tz_id <$> prefer_non_deprecated l) s.
Proof.
  intros Hne Hd. unfold selectBestMatchingTimeZone, prefer_non_deprecated.
  destruct l as [|x [|y l]]; [congruence| |].
  - cbn. destruct (negb (includes (tz1_tz_id x) "Etc/")); reflexivity.
  - set (m := x :: y :: l) in *.
    set (nd := List.filter (fun tz => negb (includes (tz1_tz_id tz) "Etc/")) m).
    set (f := match nd with [] => m | _ => nd end).
    assert (Hhead : tz1_tz_id <$> head f
                    = tz1_tz_id <$> match nd with tz :: _ => Some tz | [] => head m end).
    { unfold f. destruct nd; reflexivity. }
    change (bind get ?k s) with (k s s). cbv beta.
    destruct (default_offset s) as [|z|d]; try (run; rewrite Hhead; reflexivity).
    destruct (String.eqb d "") eqn:Ed; [run; rewrite Hhead; reflexivity|].
    destruct Hd as [->|Hall]; [discriminate|].
    replace (List.filter _ f) with (@nil ZoneRecord); [run; rewrite Hhead; reflexivity|].
    symmetry.
    assert (Hf : Forall (fun tz => startsWith (tz1_tz_id tz) (nth 0 (split "/" d) "" ++ "/") = false) f).
    { unfold f. destruct nd eqn:E; [exact Hall|]. rewrite <- E. apply Forall_filter_sub, Hall. }
    clear - Hf. induction Hf as [|w r Hw _ IH]; [reflexivity|]. cbn. rewrite Hw. exact IH.
Qed.

Lemma str2offset_total k s : exists v s', str2offset k s = Ok v s' /\ core_eq s s'.
Proof.
  pose proof (frames_str2offset k s) as Hf. unfold str2offset in *. revert Hf. run.
  destruct (offset_cache s !! k); eauto.
Qed.

(** [#determineOffset] succeeds on the identifier of a well-formed row of
    the table. *)
Lemma determineOffset_row tz s :
  In tz db -> wf_row tz = true ->
  exists v s', determineOffset db (tz1_tz_id tz) s = Ok v s' /\ core_eq s s'.
Proof.
  intros Hin Hwf. unfold determineOffset. unfold wf_row in Hwf.
  destruct (match_offset (tz2_utc_sdt tz)); [|discriminate].
  destruct (match_offset (tz3_utc_dst tz)); [|discriminate].
  destruct (indexOf "/" (tz1_tz_id tz)) as [i|]; [|discriminate].
  apply andb_true_iff in Hwf as [H1 H2].
  apply negb_true_iff in H1, H2. rewrite H1, H2. cbn [orb].
  destruct (List.filter (fun tz0 => String.eqb (tz1_tz_id tz0) (tz1_tz_id tz)) db)
    as [|r l] eqn:E.
  - exfalso. assert (Hi : In tz []) by (rewrite <- E; apply filter_In; split;
      [exact Hin|apply String.eqb_refl]). destruct Hi.
  - apply str2offset_total.
Qed.

Lemma wf_row_id tz :
  wf_row tz = true -> tz1_tz_id tz <> "" /\ tz1_tz_id tz <> "Unknown".
Proof.
  unfold wf_row.
  destruct (match_offset (tz2_utc_sdt tz)); [|discriminate].
  destruct (match_offset (tz3_utc_dst tz)); [|discriminate].
  destruct (indexOf "/" (tz1_tz_id tz)) eqn:E; [|discriminate].
  intros _. split; intros H; rewrite H in E; discriminate.
Qed.

(** C5, as amended.  For every table of well-formed rows, host and clock,
    and every instance with sound keyed caches whose hint resolved to no
    row and is a non-zero number of hours or a string of the offset shape
    that is not the continent part of an identifier of the table: when some
    row has a standard offset equal to the hint's offset, [getLocation]
    returns, among exactly the rows whose standard offset equals it, the
    first one that is not an ["Etc/"] alias, or else the first one in table
    order.  (The DST offsets play no part: [#isDstNow] is always false.) *)
Theorem getLocation_by_offset s h mins :
  caches_ok db host s ->
  tz_data s = None -> location_cache s = None -> default_offset s = h ->
  hint_mins h = Some mins ->
  Forall (fun tz => wf_row tz = true) db ->
  (forall d, h = HStr d ->
     Forall (fun tz => startsWith (tz1_tz_id tz) (d ++ "/") = false) db) ->
  std_matches db mins <> [] ->
  value (getLocation db host now s)
  = tz1_tz_id <$> prefer_non_deprecated (std_matches db mins).
Proof.
  intros Hok Ht Hl Hd Hm Hwf Hcont Hne.
  destruct (prefer_non_deprecated_in _ Hne) as (tz & Hp & Hin).
  assert (Hindb : In tz db) by (apply filter_In in Hin; apply Hin).
  assert (Hwtz : wf_row tz = true).
  { rewrite Forall_forall in Hwf. apply Hwf, list_elem_of_In, Hindb. }
  rewrite Hp. cbn [fmap option_fmap option_map].
  destruct (wf_row_id tz Hwtz) as [Hid Hu]. apply String.eqb_neq in Hid, Hu.
  (* the state after the hint's offset has been stored *)
  assert (Hsel : forall s1, caches_ok db host s1 -> default_offset s1 = h ->
            exists s2, (do matching_tzs <- findTimeZoneByOffset db mins false;
                        selectBestMatchingTimeZone matching_tzs) s1
                       = Ok (Some (tz1_tz_id tz)) s2).
  { intros s1 Hok1 Hd1.
    destruct (findTimeZoneByOffset_agrees db host mins false s1 Hok1) as (Hv & _ & Hc).
    rewrite (matching_pure_wf mins Hwf) in Hv. unfold bind.
    destruct (findTimeZoneByOffset db mins false s1) as [l s2|e s2]; [|discriminate].
    cbn [value final] in *. injection Hv as ->. exists s2.
    rewrite (selectBest_first s2 _ Hne), Hp; [reflexivity|].
    destruct Hc as (Hc & _). rewrite <- Hc, Hd1.
    destruct h as [|z|d]; try exact I. right.
    unfold hint_mins in Hm. destruct (HH_MM_OFFSET_REGEX d) eqn:Ere; [|discriminate].
    rewrite (split_no_sep "/" d (regex_no_slash d Ere)). cbn [nth].
    apply Forall_filter_sub. apply (Hcont d eq_refl). }
  unfold getLocation. change (bind get ?k s) with (k s s). cbv beta.
  rewrite Ht, Hl. unfold bind at 1. unfold getLocation_compute.
  unfold bind at 1. rewrite calculateTZ_value.
  unfold bind at 1. rewrite isDstNow_false.
  change (bind get ?k s) with (k s s). cbv beta. rewrite Hd.
  destruct h as [|z|d]; [discriminate| |].
  - (* a number of hours *)
    unfold hint_mins in Hm. destruct (Z.eqb_spec z 0) as [|Hz]; [discriminate|].
    injection Hm as <-. cbn [truthy]. apply Z.eqb_neq in Hz. rewrite Hz. cbn [negb].
    set (s1 := set_default_offset_mins (Some (Num (z * 60))) s).
    destruct (Hsel s1) as (s2 & Hrun).
    { apply (caches_ok_same db host s s1); auto. }
    { exact Hd. }
    unfold bind at 1. unfold bind at 1. unfold bind at 1. unfold modify at 1.
    fold s1. unfold ret at 1.
    change (bind get ?k s1) with (k s1 s1). cbv beta.
    change (default_offset_mins s1) with (Some (Num (z * 60))). cbn [falsy].
    rewrite Hrun.
    cbn [falsy]. rewrite Hid.
    unfold bind at 1. unfold ret at 1.
    unfold bind at 1. unfold ret at 1. change (default "Unknown" (Some (tz1_tz_id tz))) with (tz1_tz_id tz).
    rewrite Hu. cbn [negb].
    destruct (determineOffset_row tz s2 Hindb Hwtz) as (v & s3 & Hrun3 & _).
    unfold bind at 1. unfold bind at 1. rewrite Hrun3. reflexivity.
  - (* a string of the offset shape *)
    unfold hint_mins in Hm. destruct (HH_MM_OFFSET_REGEX d) eqn:Ere; [|discriminate].
    injection Hm as <-. cbn [truthy]. rewrite (regex_nonempty d Ere). cbn [negb].
    destruct (str2offset_agrees db host d s Hok) as (Hv & Hok' & Hc').
    destruct (str2offset d s) as [v s0|e s0] eqn:E0; [|discriminate].
    cbn [value final] in *. injection Hv as ->.
    set (s1 := set_default_offset_mins (Some (str2offset_compute d)) s0).
    destruct (Hsel s1) as (s2 & Hrun).
    { apply (caches_ok_same db host s0 s1); auto. }
    { destruct Hc' as (Hc' & _). cbn. congruence. }
    unfold bind at 1. unfold bind at 1. unfold bind at 1. rewrite E0.
    unfold bind at 1. unfold modify at 1. fold s1. unfold ret at 1.
    change (bind get ?k s1) with (k s1 s1). cbv beta.
    change (default_offset_mins s1) with (Some (str2offset_compute d)). cbn [falsy].
    rewrite Hrun.
    cbn [falsy]. rewrite Hid.
    unfold bind at 1. unfold ret at 1.
    unfold bind at 1. unfold ret at 1. change (default "Unknown" (Some (tz1_tz_id tz))) with (tz1_tz_id tz).
    rewrite Hu. cbn [negb].
    destruct (determineOffset_row tz s2 Hindb Hwtz) as (v & s3 & Hrun3 & _).
    unfold bind at 1. unfold bind at 1. rewrite Hrun3. reflexivity.
Qed.

End WithEnv.

(** The failing input of C6: the hint ["Europe"] with the rows of London
    and Warsaw. *)
Lemma getLocation_continent_only_throws_witness :
  let db := [Sample.London; Sample.Warsaw] in
  getLocation db Sample.host_utc Sample.july_2024 (constructor db (HStr "Europe"))
  = Throw TypeError (constructor db (HStr "Europe")).
Proof.
  intros db.
  apply (getLocation_continent_only_throws db Sample.host_utc Sample.july_2024
           (constructor db (HStr "Europe")) "Europe").
  - reflexivity.
  - reflexivity.
  - reflexivity.
  - discriminate.
  - reflexivity.
  - reflexivity.
  - vm_compute. lia.
Defined.

(** The theorem at work: with an alias first in the table, the hint ["-5"]
    resolves to New York. *)
Lemma getLocation_by_offset_witness :
  let db := [Sample.Etc_GMT_plus_5; Sample.New_York; Sample.Halifax] in
  value (getLocation db Sample.host_utc Sample.july_2024 (constructor db (HStr "-5")))
  = Some "America/New_York".
Proof.
  intros db.
  apply (getLocation_by_offset db Sample.host_utc Sample.july_2024
           (constructor db (HStr "-5")) (HStr "-5") (Num (-300))).
  - apply caches_ok_constructor.
  - reflexivity.
  - reflexivity.
  - reflexivity.
  - reflexivity.
  - repeat constructor.
  - intros d [= <-]. repeat constructor.
  - vm_compute. discriminate.
Defined.

End ResolverFacts.

(* ===================================================================== *)
(** ** The order of doubles *)
(* ===================================================================== *)

Module DoubleFacts.
Import JsDouble.
Local Open Scope Z_scope.

Ltac compare_cases :=
  repeat match goal with
         | H : context [?x ?= ?y] |- _ => destruct (Z.compare_spec x y)
         | |- context [?x ?= ?y] => destruct (Z.compare_spec x y)
         end.

Lemma lex3_trans a b c : lex3 a b = Lt -> lex3 b c = Lt -> lex3 a c = Lt.
Proof.
  destruct a as [[a1 a2] a3], b as [[b1 b2] b3], c as [[c1 c2] c3].
  unfold lex3. compare_cases; try congruence; lia.
Qed.

Lemma lex3_neg_trans a b c : lex3 a b <> Lt -> lex3 b c <> Lt -> lex3 a c <> Lt.
Proof.
  destruct a as [[a1 a2] a3], b as [[b1 b2] b3], c as [[c1 c2] c3].
  unfold lex3. compare_cases; try congruence; lia.
Qed.

Lemma lex3_antisym a b : lex3 b a = CompOpp (lex3 a b).
Proof.
  destruct a as [[a1 a2] a3], b as [[b1 b2] b3].
  unfold lex3. compare_cases; try reflexivity; lia.
Qed.

(** [SFcompare] is the lexicographic comparison of the places. *)
Lemma SFcompare_ord x y :
  SFcompare x y
  = match ord x, ord y with
    | Some a, Some b => Some (lex3 a b)
    | _, _ => None
    end.
Proof.
  destruct x as [[]|[]| |[] mx ex], y as [[]|[]| |[] my ey]; try reflexivity.
  (* two negative numbers: the larger exponent, then the larger mantissa,
     is the smaller number *)
  cbn [SFcompare ord lex3]. f_equal.
  rewrite Z.compare_refl, Z.compare_opp.
  rewrite (Z.compare_antisym ex ey).
  change (Z.neg mx ?= Z.neg my) with (CompOpp (mx ?= my)%positive).
  change (Pos.compare_cont Eq mx my) with (mx ?= my)%positive.
  destruct (ex ?= ey); reflexivity.
Qed.

Lemma lt_spec x y :
  lt x y = true <-> exists a b, ord x = Some a /\ ord y = Some b /\ lex3 a b = Lt.
Proof.
  unfold lt, SFltb. rewrite SFcompare_ord.
  destruct (ord x) as [a|], (ord y) as [b|]; split;
    try discriminate; try (intros (? & ? & ? & ? & ?); discriminate).
  - intros H. exists a, b. repeat split. destruct (lex3 a b); congruence.
  - intros (a' & b' & [= <-] & [= <-] & ->). reflexivity.
Qed.

Lemma ord_nan x : ord x = None <-> is_nan x = true.
Proof. destruct x as [?|?| |[] ? ?]; cbn; split; congruence. Qed.

(** A number below or above another is not [NaN]. *)
Lemma lt_not_nan x y : lt x y = true -> is_nan x = false /\ is_nan y = false.
Proof.
  intros H. apply lt_spec in H. destruct H as (a & b & Hx & Hy & _).
  destruct x, y; cbn in *; try discriminate; auto.
Qed.

Lemma lt_trans x y z : lt x y = true -> lt y z = true -> lt x z = true.
Proof.
  rewrite !lt_spec. intros (a & b & Hx & Hy & H1) (b' & c & Hy' & Hz & H2).
  rewrite Hy in Hy'. injection Hy' as <-.
  exists a, c. repeat split; try assumption. eapply lex3_trans; eassumption.
Qed.

Lemma lt_irrefl x : lt x x = false.
Proof.
  destruct (lt x x) eqn:E; [|reflexivity]. apply lt_spec in E.
  destruct E as (a & b & Hx & Hy & H). rewrite Hx in Hy. injection Hy as <-.
  destruct a as [[a1 a2] a3]. unfold lex3 in H. rewrite !Z.compare_refl in H. discriminate.
Qed.

Lemma lt_asym x y : lt x y = true -> lt y x = false.
Proof.
  intros H. destruct (lt y x) eqn:E; [|reflexivity].
  pose proof (lt_trans _ _ _ H E) as Hxx. rewrite lt_irrefl in Hxx. discriminate.
Qed.

(** Between numbers, "not below" is transitive; the middle one must not be
    [NaN], which is below nothing and above nothing. *)
Lemma nlt_trans x y z :
  is_nan y = false -> lt x y = false -> lt y z = false -> lt x z = false.
Proof.
  intros Hy H1 H2. destruct (lt x z) eqn:E; [|reflexivity]. exfalso.
  apply lt_spec in E. destruct E as (a & c & Hx & Hz & H).
  destruct (ord y) as [b|] eqn:Hb.
  - assert (N1 : lex3 a b <> Lt).
    { intros N. assert (lt x y = true) by (apply lt_spec; eauto). congruence. }
    assert (N2 : lex3 b c <> Lt).
    { intros N. assert (lt y z = true) by (apply lt_spec; eauto). congruence. }
    exact (lex3_neg_trans a b c N1 N2 H).
  - apply ord_nan in Hb. congruence.
Qed.

Lemma lt_nlt_trans x y z :
  lt x y = true -> lt z y = false -> is_nan z = false -> lt x z = true.
Proof.
  intros H1 H2 Hz. destruct (lt x z) eqn:E; [reflexivity|]. exfalso.
  pose proof (lt_not_nan _ _ H1) as [_ Hy].
  pose proof (nlt_trans x z y Hz E) as H.
  destruct (lt z y) eqn:E2; [discriminate|]. specialize (H eq_refl). congruence.
Qed.

Lemma le_spec x y :
  le x y = true <-> exists a b, ord x = Some a /\ ord y = Some b /\ lex3 a b <> Gt.
Proof.
  unfold le, SFleb. rewrite SFcompare_ord.
  destruct (ord x) as [a|], (ord y) as [b|]; split;
    try discriminate; try (intros (? & ? & ? & ? & ?); discriminate).
  - intros H. exists a, b. repeat split. destruct (lex3 a b); congruence.
  - intros (a' & b' & [= <-] & [= <-] & H). destruct (lex3 a b); congruence.
Qed.

(** [x <= y] excludes [y < x]. *)
Lemma le_not_gt x y : le x y = true -> lt y x = false.
Proof.
  intros H. apply le_spec in H. destruct H as (a & b & Hx & Hy & H).
  destruct (lt y x) eqn:E; [|reflexivity]. apply lt_spec in E.
  destruct E as (b' & a' & Hy' & Hx' & E).
  rewrite Hx in Hx'. rewrite Hy in Hy'. injection Hx' as <-. injection Hy' as <-.
  rewrite (lex3_antisym b a) in H. rewrite E in H. cbn in H. congruence.
Qed.

End DoubleFacts.

(* ===================================================================== *)
(** ** Fuzzy matching of city names *)
(* ===================================================================== *)

Module SimilarityFacts.
Import JsString Tz CacheFacts DoubleFacts.

(** What the loop of [#calculateStringSimilarity] accumulates: the number
    of equal positions, and the running sum of their weights. *)
Lemma similarity_loop_spec str1 str2 n fuel i c p :
  let eqs := List.filter (char_eq_at str1 str2) (seq i fuel) in
  similarity_loop str1 str2 n fuel i (c, p)
  = ((c + Z.of_nat (length eqs))%Z,
     fold_left (fun acc k => JsDouble.add acc (position_weight n k)) eqs p).
Proof.
  revert i c p. induction fuel as [|fuel IH]; intros i c p;
    cbn [similarity_loop seq List.filter].
  - cbn. f_equal. lia.
  - destruct (char_eq_at str1 str2 i); cbn [fst snd].
    + rewrite IH. cbn [length fold_left]. f_equal. lia.
    + apply IH.
Qed.

(** The score of two strings that differ after lower-casing. *)
Lemma similarity_formula a b :
  toLowerCase a <> toLowerCase b ->
  let s1 := toLowerCase a in
  let s2 := toLowerCase b in
  let n := Nat.max (String.length s1) (String.length s2) in
  let eqs := equal_positions s1 s2 n in
  let len_ratio :=
    JsDouble.div (JsDouble.of_nat (Nat.min (String.length s1) (String.length s2)))
                 (JsDouble.of_nat n) in
  similarity a b =
    JsDouble.add
      (JsDouble.mul (JsDouble.div (JsDouble.of_nat (length eqs)) (JsDouble.of_nat n))
                    (char_weight len_ratio))
      (JsDouble.mul (pos_score_of n eqs) (pos_weight len_ratio)).
Proof.
  intros Hne s1 s2 n eqs len_ratio. unfold similarity. fold s1 s2.
  apply String.eqb_neq in Hne. fold s1 s2 in Hne. rewrite Hne. fold n. fold len_ratio.
  rewrite (similarity_loop_spec s1 s2 n n 0 0%Z (JsDouble.of_Z 0)).
  fold (equal_positions s1 s2 n). fold eqs. rewrite Z.add_0_l. reflexivity.
Qed.

Lemma weights_checked :
  forallb (fun n => forallb (weights_ok n) (seq 0 (S n))) (seq 1 checked_length) = true.
Proof. vm_compute. reflexivity. Qed.

Lemma positions_checked :
  forallb (fun n => forallb (positions_ok n) (seq 0 n)) (seq 1 checked_length) = true.
Proof. vm_compute. reflexivity. Qed.

Lemma weights_ok_upto max_len min_len :
  (0 < max_len <= checked_length)%nat -> (min_len <= max_len)%nat ->
  weights_ok max_len min_len = true.
Proof.
  intros Hmax Hmin. pose proof weights_checked as H.
  rewrite forallb_forall in H. specialize (H max_len).
  rewrite forallb_forall in H. apply H; apply in_seq; lia.
Qed.

Lemma positions_ok_upto max_len i :
  (i < max_len <= checked_length)%nat -> positions_ok max_len i = true.
Proof.
  intros Hi. pose proof positions_checked as H.
  rewrite forallb_forall in H. specialize (H max_len).
  rewrite forallb_forall in H. apply H; apply in_seq; lia.
Qed.

(** The running best of [#findBestMatch], started on a number: it stays a
    number, no candidate seen scores above it, and it changes only to the
    score of a candidate that beats it strictly. *)
Lemma findBestMatch_loop_spec c tzs b q s :
  Forall (fun tz => is_Some (split "/" (tz1_tz_id tz) !! 1%nat)) tzs ->
  JsDouble.is_nan q = false ->
  exists b' q',
    findBestMatch_loop (Some c) tzs (b, q) s = Ok (b', q') s /\
    JsDouble.is_nan q' = false /\
    JsDouble.lt q' q = false /\
    (forall tz, In tz tzs -> JsDouble.gt (similarity c (city_of tz)) q' = false) /\
    ((b', q') = (b, q) \/
     exists tz, In tz tzs /\ b' = Some tz /\ q' = similarity c (city_of tz)
                /\ JsDouble.gt q' q = true).
Proof.
  intros Hall. revert b q. induction Hall as [|tz l [city Hc] _ IH]; intros b q Hq.
  - exists b, q. unfold JsDouble.gt. change SFltb with JsDouble.lt.
    repeat split; auto using lt_irrefl. intros ? [].
  - cbn [findBestMatch_loop]. rewrite Hc. unfold calculateStringSimilarity.
    unfold bind at 1. unfold ret at 1. cbn [snd].
    assert (Hcity : city_of tz = city) by (unfold city_of; rewrite Hc; reflexivity).
    unfold JsDouble.gt in *. change SFltb with JsDouble.lt in *.
    destruct (JsDouble.lt q (similarity c city)) eqn:E.
    + destruct (lt_not_nan _ _ E) as [_ Hsim].
      destruct (IH (Some tz) (similarity c city) Hsim)
        as (b' & q' & Hrun & Hnan & Hge & Hbound & Hsrc).
      exists b', q'. split; [exact Hrun|]. split; [exact Hnan|]. split; [|split].
      * destruct (JsDouble.lt q' q) eqn:E'; [|reflexivity].
        rewrite (lt_trans _ _ _ E' E) in Hge. discriminate.
      * intros tz' [<-|Hin]; [rewrite Hcity; exact Hge|apply Hbound, Hin].
      * right. destruct Hsrc as [[= -> ->]|(tz' & Hin & -> & -> & Hlt)].
        -- exists tz. rewrite Hcity. repeat split; [left; reflexivity|exact E].
        -- exists tz'. repeat split; [right; exact Hin|].
           eapply lt_trans; eassumption.
    + destruct (IH b q Hq) as (b' & q' & Hrun & Hnan & Hge & Hbound & Hsrc).
      exists b', q'. split; [exact Hrun|]. split; [exact Hnan|]. split; [exact Hge|split].
      * intros tz' [<-|Hin]; [|apply Hbound, Hin]. rewrite Hcity.
        exact (nlt_trans _ _ _ Hq Hge E).
      * destruct Hsrc as [Heq|(tz' & Hin & Hb & Hq' & Hlt)]; [left; exact Heq|].
        right. exists tz'. repeat split; try assumption. right; exact Hin.
Qed.




End SimilarityFacts.

(* ===================================================================== *)
(** ** The keyed caches stay sound *)
(* ===================================================================== *)

Module InvariantFacts.
Import JsString Tz CacheFacts.
Local Open Scope Z_scope.

Section Combinators.
Variable P : Timezones -> Prop.

Lemma preserves_ret {A} (a : A) : preserves P (ret a).
Proof. intros s H. exact H. Qed.

Lemma preserves_throw {A} e : preserves P (@throw A e).
Proof. intros s H. exact H. Qed.

Lemma preserves_get : preserves P get.
Proof. intros s H. exact H. Qed.

Lemma preserves_modify f : (forall s, P s -> P (f s)) -> preserves P (modify f).
Proof. intros H s Hs. apply H, Hs. Qed.

Lemma preserves_bind {A B} (m : M A) (k : A -> M B) :
  preserves P m -> (forall a, preserves P (k a)) -> preserves P (bind m k).
Proof.
  intros Hm Hk s Hs. specialize (Hm s Hs). unfold bind.
  destruct (m s) as [a s'|e s']; cbn [final] in *; [apply Hk, Hm|exact Hm].
Qed.

Lemma preserves_toISOString d : preserves P (toISOString d).
Proof. destruct d; [apply preserves_throw|apply preserves_ret]. Qed.

End Combinators.

Create HintDb pres.

(** Decomposes a goal [preserves P m] along the syntax of [m]; the calls it
    meets are closed with the hints of [pres]. *)
Ltac pres :=
  repeat first
    [ apply preserves_ret | apply preserves_throw | apply preserves_get
    | apply preserves_toISOString
    | solve [auto with pres]
    | apply preserves_bind; [|intros ?]
    | match goal with
      | |- preserves _ (match ?x with _ => _ end) => destruct x
      | |- preserves _ (let '(_, _) := ?x in _) => destruct x
      end ].

Section WithEnv.
Variable db : list ZoneRecord.
Variable host : Z -> Z.
Variable now : Z.

Local Abbreviation ok := (caches_ok db host).

Lemma ok_set_default_offset_mins v : preserves ok (modify (set_default_offset_mins v)).
Proof. apply preserves_modify. intros s Hs. apply (caches_ok_same db host s); auto. Qed.

Lemma ok_set_location_cache v : preserves ok (modify (set_location_cache v)).
Proof. apply preserves_modify. intros s Hs. apply (caches_ok_same db host s); auto. Qed.

Lemma ok_set_dst_status_cache v : preserves ok (modify (set_dst_status_cache v)).
Proof. apply preserves_modify. intros s Hs. apply (caches_ok_same db host s); auto. Qed.

Lemma ok_set_spatial_index v : preserves ok (modify (set_spatial_index v)).
Proof. apply preserves_modify. intros s Hs. apply (caches_ok_same db host s); auto. Qed.

Lemma ok_str2offset k : preserves ok (str2offset k).
Proof. intros s Hs. apply (str2offset_agrees db host k s Hs). Qed.

Lemma ok_nthWeekdayOfMonth y m w n : preserves ok (nthWeekdayOfMonth y m w n).
Proof. intros s Hs. apply (nthWeekdayOfMonth_agrees db host y m w n s Hs). Qed.

Lemma ok_isDstPeriod t r : preserves ok (isDstPeriod host t r).
Proof. intros s Hs. apply (isDstPeriod_agrees db host t r s Hs). Qed.

Lemma ok_findTimeZoneByOffset o b : preserves ok (findTimeZoneByOffset db o b).
Proof. intros s Hs. apply (findTimeZoneByOffset_agrees db host o b s Hs). Qed.

Lemma ok_clearCache : preserves ok clearCache.
Proof. intros s _. apply caches_ok_clear. Qed.

Hint Resolve ok_set_default_offset_mins ok_set_location_cache ok_set_dst_status_cache
  ok_set_spatial_index ok_str2offset ok_nthWeekdayOfMonth ok_isDstPeriod
  ok_findTimeZoneByOffset ok_clearCache : pres.

Lemma ok_findBestMatch_loop city tzs best :
  preserves ok (findBestMatch_loop city tzs best).
Proof.
  revert best. induction tzs as [|tz l IH]; intros best; cbn [findBestMatch_loop].
  - apply preserves_ret.
  - unfold calculateStringSimilarity. pres; apply IH.
Qed.
Hint Resolve ok_findBestMatch_loop : pres.

Lemma ok_findBestMatch city tzs : preserves ok (findBestMatch city tzs).
Proof. unfold findBestMatch. pres. Qed.
Hint Resolve ok_findBestMatch : pres.

Lemma ok_selectBestMatchingTimeZone l : preserves ok (selectBestMatchingTimeZone l).
Proof. unfold selectBestMatchingTimeZone. pres. Qed.
Hint Resolve ok_selectBestMatchingTimeZone : pres.

Lemma ok_isDstNow o : preserves ok (isDstNow db o).
Proof. unfold isDstNow. pres. Qed.

Lemma ok_calculateTZ t : preserves ok (calculateTZ host t).
Proof. unfold calculateTZ. pres. Qed.

Lemma ok_guessTimeZoneFromPartialId c1 c2 :
  preserves ok (guessTimeZoneFromPartialId db c1 c2).
Proof. unfold guessTimeZoneFromPartialId. pres. Qed.
Hint Resolve ok_isDstNow ok_calculateTZ ok_guessTimeZoneFromPartialId : pres.

Lemma ok_determineOffset tz : preserves ok (determineOffset db tz).
Proof. unfold determineOffset. pres. Qed.
Hint Resolve ok_determineOffset : pres.

Lemma ok_getLocation_compute : preserves ok (getLocation_compute db host now).
Proof. unfold getLocation_compute. pres. Qed.
Hint Resolve ok_getLocation_compute : pres.

Lemma ok_getLocation : preserves ok (getLocation db host now).
Proof. unfold getLocation. pres. Qed.

Lemma ok_getDaylightStatus loc : preserves ok (getDaylightStatus db host now loc).
Proof. unfold getDaylightStatus. pres. Qed.
Hint Resolve ok_getLocation ok_getDaylightStatus : pres.

Lemma ok_getLocationAndDaylightStatus :
  preserves ok (getLocationAndDaylightStatus db host now).
Proof. unfold getLocationAndDaylightStatus. pres. Qed.
Hint Resolve ok_getLocationAndDaylightStatus : pres.

Lemma ok_getTimezoneInfo i : preserves ok (getTimezoneInfo db i).
Proof. unfold getTimezoneInfo. pres. Qed.

Lemma ok_getDate : preserves ok (getDate db host now).
Proof. unfold getDate. pres. Qed.
Hint Resolve ok_getTimezoneInfo ok_getDate : pres.

Lemma ok_getTimeUntilNextDstChange :
  preserves ok (getTimeUntilNextDstChange db host now).
Proof. unfold getTimeUntilNextDstChange. pres. Qed.
Hint Resolve ok_getTimeUntilNextDstChange : pres.

Lemma ok_formatTimeUntilNextDstChange :
  preserves ok (formatTimeUntilNextDstChange db host now).
Proof. unfold formatTimeUntilNextDstChange. pres. Qed.

Lemma ok_getApproxLocation_at lat lon : preserves ok (getApproxLocation_at db lat lon).
Proof. unfold getApproxLocation_at. pres. Qed.

Lemma ok_getApproxLocation lat lon : preserves ok (getApproxLocation db lat lon).
Proof. apply ok_getApproxLocation_at. Qed.

Lemma ok_own_offset d : preserves ok (own_offset db host now d).
Proof. unfold own_offset. pres. Qed.
Hint Resolve ok_own_offset : pres.

Lemma ok_getCurrentTimeWithOffset : preserves ok (getCurrentTimeWithOffset db host now).
Proof. unfold getCurrentTimeWithOffset. pres. Qed.
Hint Resolve ok_getCurrentTimeWithOffset : pres.

Lemma ok_getField f : preserves ok (getField db host now f).
Proof. unfold getField. pres. Qed.

Lemma ok_getTime : preserves ok (getTime db host now).
Proof. unfold getTime, formatDateWithOffset. pres. Qed.

Lemma ok_convertToTimeZone date target : preserves ok (convertToTimeZone db host date target).
Proof. unfold convertToTimeZone. pres. Qed.

End WithEnv.
End InvariantFacts.

(* ===================================================================== *)
(** ** What the caches guarantee *)
(* ===================================================================== *)

Module CacheTheorems.
Import JsString Tz CacheFacts KeyFacts InvariantFacts.
Local Open Scope Z_scope.



(** X2.  From a state whose keyed caches are sound, each memoised method
    returns what it returns from a state with nothing cached, and throws
    exactly when it throws there: the four keyed caches change the cost of
    a call, not its result. *)
Theorem keyed_caches_transparent db host s :
  caches_ok db host s ->
  (forall k, value (str2offset k s) = value (str2offset k blank)) /\
  (forall y m w n,
     value (nthWeekdayOfMonth y m w n s) = value (nthWeekdayOfMonth y m w n blank)) /\
  (forall t r, value (isDstPeriod host t r s) = value (isDstPeriod host t r blank)) /\
  (forall o b,
     value (findTimeZoneByOffset db o b s) = value (findTimeZoneByOffset db o b blank)).
Proof.
  intros Hs. pose proof (caches_ok_blank db host) as Hb.
  repeat lazymatch goal with |- _ /\ _ => split end.
  - intros k.
    destruct (str2offset_agrees db host k s Hs) as (-> & _).
    destruct (str2offset_agrees db host k blank Hb) as (-> & _). reflexivity.
  - intros y m w n.
    destruct (nthWeekdayOfMonth_agrees db host y m w n s Hs) as (-> & _).
    destruct (nthWeekdayOfMonth_agrees db host y m w n blank Hb) as (-> & _). reflexivity.
  - intros t r.
    destruct (isDstPeriod_agrees db host t r s Hs) as (-> & _).
    destruct (isDstPeriod_agrees db host t r blank Hb) as (-> & _). reflexivity.
  - intros o b.
    destruct (findTimeZoneByOffset_agrees db host o b s Hs) as (-> & _).
    destruct (findTimeZoneByOffset_agrees db host o b blank Hb) as (-> & _). reflexivity.
Qed.

(** The theorem at work on the state a first DST query leaves behind. *)
Lemma keyed_caches_transparent_witness :
  let s1 := final (isDstPeriod Sample.host_utc Sample.july_2024 "B13" blank) in
  value (isDstPeriod Sample.host_utc Sample.july_2024 "B13" s1)
  = value (isDstPeriod Sample.host_utc Sample.july_2024 "B13" blank).
Proof.
  intros s1.
  apply (keyed_caches_transparent [] Sample.host_utc s1).
  apply (isDstPeriod_agrees [] Sample.host_utc Sample.july_2024 "B13" blank).
  apply caches_ok_blank.
Defined.

(** X3.  No two different argument lists of a memoised method share a cache
    key: the keys [year_month_weekday_n], [time_rule] and [offset_flag]
    determine their components. *)
Theorem cache_keys_injective :
  (forall y m w n y' m' w' n',
     nth_week_key y m w n = nth_week_key y' m' w' n' ->
     y = y' /\ m = m' /\ w = w' /\ n = n') /\
  (forall t r t' r', dst_key t r = dst_key t' r' -> t = t' /\ r = r') /\
  (forall o b o' b', tz_info_key o b = tz_info_key o' b' -> o = o' /\ b = b').
Proof.
  split; [|split].
  - apply nth_week_key_inj.
  - apply dst_key_inj.
  - apply tz_info_key_inj.
Qed.

(** The theorem at work on the key of the first Sunday of March 2024. *)
Lemma cache_keys_injective_witness :
  2024 = 2024 /\ 3 = 3 /\ 0 = 0 /\ 1 = 1.
Proof.
  destruct cache_keys_injective as (H & _).
  apply (H 2024 3 0 1 2024 3 0 1). reflexivity.
Defined.

End CacheTheorems.

(* ===================================================================== *)
(** ** The n-th weekday, for n from 1 to 5 *)
(* ===================================================================== *)

Module NthTheorems.
Import JsString Tz DateFacts CacheFacts NthFacts.
Local Open Scope Z_scope.

(** The calendar fields of any time value on a given day of a month. *)
Lemma fields_of_day y m d t :
  0 <= m <= 11 ->
  1 <= d <= month_start (InLeapYear y) (m + 1) - month_start (InLeapYear y) m ->
  Day t = DayFromYear y + month_start (InLeapYear y) m + d - 1 ->
  YearFromTime t = y /\ MonthFromTime t = m /\ DateFromTime t = d.
Proof.
  intros Hm Hd HD.
  pose proof (month_start_mono (InLeapYear y) 0 m ltac:(lia) ltac:(lia) ltac:(lia)) as H1.
  pose proof (month_start_mono (InLeapYear y) (m + 1) 12 ltac:(lia) ltac:(lia) ltac:(lia)) as H2.
  assert (HY : YearFromTime t = y).
  { unfold YearFromTime. rewrite HD. apply YearFromDay_unique.
    rewrite DayFromYear_succ. unfold DaysInYear.
    destruct (InLeapYear y); calc_months; lia. }
  assert (HW : DayWithinYear t = month_start (InLeapYear y) m + d - 1).
  { unfold DayWithinYear. rewrite HY, HD. lia. }
  assert (HM : MonthFromTime t = m).
  { unfold MonthFromTime. rewrite HY, HW. apply month_of_yday_unique; lia. }
  repeat split; try assumption.
  unfold DateFromTime. rewrite HM, HY, HW. lia.
Qed.

Lemma MakeDay_number y m d :
  0 <= m <= 11 ->
  MakeDay y m d = DayFromYear y + month_start (InLeapYear y) m + d - 1.
Proof.
  intros Hm. unfold MakeDay. replace (m / 12) with 0 by zdiv.
  replace (m mod 12) with m by zdiv. rewrite Z.add_0_r. reflexivity.
Qed.

Lemma Day_MakeDate n : Day (MakeDate n 0) = n.
Proof. unfold Day, MakeDate, msPerDay. zdiv. Qed.

Lemma TimeWithinDay_MakeDate n : TimeWithinDay (MakeDate n 0) = 0.
Proof. unfold TimeWithinDay, MakeDate, msPerDay. zdiv. Qed.

(** Day numbers of the years covered are valid time values. *)
Lemma day_number_valid y k :
  -271000 <= y <= 275000 -> -400 <= k <= 800 ->
  TimeClip (MakeDate (DayFromYear y + k) 0) = Num (MakeDate (DayFromYear y + k) 0).
Proof.
  intros Hy Hk. unfold TimeClip.
  destruct (Z.ltb_spec maxTime (Z.abs (MakeDate (DayFromYear y + k) 0))) as [H|H];
    [|reflexivity].
  exfalso. revert H. unfold MakeDate, maxTime, msPerDay, DayFromYear. zdiv.
Qed.

(** The first day of the month after month [m] of year [y]. *)
Lemma next_month_start y m :
  0 <= m <= 11 ->
  let y' := if m =? 11 then y + 1 else y in
  let m' := if m =? 11 then 0 else m + 1 in
  0 <= m' <= 11 /\
  DayFromYear y' + month_start (InLeapYear y') m'
  = DayFromYear y + month_start (InLeapYear y) (m + 1).
Proof.
  intros Hm. destruct (Z.eqb_spec m 11) as [->|Hne]; cbn zeta.
  - split; [lia|]. rewrite DayFromYear_succ. unfold DaysInYear.
    destruct (InLeapYear y), (InLeapYear (y + 1)); calc_months; lia.
  - split; [lia|reflexivity].
Qed.

(** What [#nthWeekdayOfMonth] computes for [n = 5]: the fifth occurrence
    when the month has one, else the fourth. *)
Lemma nth_pure_five year month weekday :
  -271000 <= year <= 275000 -> ~ (0 <= year <= 99) ->
  1 <= month <= 12 -> 0 <= weekday <= 6 ->
  let first := MakeDate (MakeDay year (month - 1) 1) 0 in
  let dt := 29 + (weekday - WeekDay first) mod 7 in
  nth_pure year month weekday 5
  = Some (if dt <=? DaysInMonth year month then dt else dt - 7).
Proof.
  intros Hy H99 Hm Hw first dt.
  pose proof (month_length (InLeapYear year) (month - 1) ltac:(lia)) as Hlen.
  replace (month - 1 + 1) with month in Hlen by lia.
  pose proof (month_start_mono (InLeapYear year) 0 (month - 1) ltac:(lia) ltac:(lia) ltac:(lia)) as Hms0.
  pose proof (month_start_mono (InLeapYear year) month 12 ltac:(lia) ltac:(lia) ltac:(lia)) as Hms1.
  assert (Hms12 : month_start (InLeapYear year) 12 <= 366)
    by (destruct (InLeapYear year); calc_months; lia).
  assert (Hms00 : month_start (InLeapYear year) 0 = 0) by reflexivity.
  unfold nth_pure, nthWeekdayOfMonth_compute, DateUTC.
  replace ((0 <=? year) && (year <=? 99)) with false
    by (symmetry; apply andb_false_iff; lia).
  change (MakeTime 0 0 0 0) with 0.
  rewrite (MakeDay_valid year (month - 1) 1 Hy ltac:(lia) ltac:(lia)).
  fold first. run.
  destruct (fields_of_MakeDay year (month - 1) 1 0 ltac:(lia) ltac:(unfold msPerDay; lia)
              ltac:(replace (month - 1 + 1) with month by lia; lia))
    as (HY & HM & _ & HT & _).
  fold first in HY, HM, HT.
  pose proof (WeekDay_range first) as Hd.
  unfold getUTCDay. change (5 =? 0) with false. cbv iota.
  assert (Hdt : 1 + (weekday - WeekDay first)
                + (if weekday - WeekDay first <? 0 then 7 else 0) + (5 - 1) * 7 = dt).
  { unfold dt. destruct (Z.ltb_spec (weekday - WeekDay first) 0); zdiv. }
  rewrite Hdt.
  assert (Hr : 29 <= dt <= 35) by (unfold dt; zdiv).
  unfold setUTCDate at 1. rewrite HY, HM, HT.
  rewrite (MakeDay_number year (month - 1) dt ltac:(lia)).
  replace (DayFromYear year + month_start (InLeapYear year) (month - 1) + dt - 1)
    with (DayFromYear year + (month_start (InLeapYear year) (month - 1) + dt - 1)) by lia.
  rewrite (day_number_valid year (month_start (InLeapYear year) (month - 1) + dt - 1)
             Hy ltac:(lia)).
  set (t1 := MakeDate (DayFromYear year + (month_start (InLeapYear year) (month - 1) + dt - 1)) 0).
  assert (HD1 : Day t1 = DayFromYear year + month_start (InLeapYear year) (month - 1) + dt - 1)
    by (unfold t1; rewrite Day_MakeDate; lia).
  assert (HT1 : TimeWithinDay t1 = 0) by apply TimeWithinDay_MakeDate.
  destruct (Z.leb_spec dt (DaysInMonth year month)) as [Hin|Hout];
    unfold DaysInMonth in *.
  - (* the fifth occurrence is in the month *)
    destruct (fields_of_day year (month - 1) dt t1 ltac:(lia)
                ltac:(replace (month - 1 + 1) with month by lia; lia) HD1)
      as (_ & HM1 & HDt1).
    unfold getUTCMonth, getUTCDate. rewrite HM1, Z.eqb_refl. cbn [negb]. run.
    rewrite HDt1. reflexivity.
  - (* it falls into the next month, and the date goes back a week *)
    destruct (next_month_start year (month - 1) ltac:(lia)) as (Hm' & Hnext).
    cbn zeta in Hm', Hnext.
    set (y' := if month - 1 =? 11 then year + 1 else year) in *.
    set (m' := if month - 1 =? 11 then 0 else month - 1 + 1) in *.
    replace (month - 1 + 1) with month in Hnext by lia.
    pose proof (month_length (InLeapYear y') m' Hm') as Hlen'.
    assert (Hy' : -271000 <= y' <= 275001)
      by (unfold y'; destruct (month - 1 =? 11); lia).
    destruct (fields_of_day y' m'
                (dt - (month_start (InLeapYear year) month
                       - month_start (InLeapYear year) (month - 1))) t1 Hm' ltac:(lia)
                ltac:(rewrite HD1; lia))
      as (HY1 & HM1 & HDt1).
    unfold getUTCMonth, getUTCDate. rewrite HM1.
    assert (Hneq : (m' =? month - 1) = false).
    { apply Z.eqb_neq. unfold m'. destruct (Z.eqb_spec (month - 1) 11); lia. }
    rewrite Hneq. cbn [negb].
    unfold setUTCDate. rewrite HY1, HM1, HDt1, HT1.
    rewrite (MakeDay_number y' m' _ Hm').
    replace (DayFromYear y' + month_start (InLeapYear y') m'
             + (dt - (month_start (InLeapYear year) month
                      - month_start (InLeapYear year) (month - 1)) - 7) - 1)
      with (DayFromYear year + (month_start (InLeapYear year) (month - 1) + (dt - 7) - 1))
      by lia.
    rewrite (day_number_valid year (month_start (InLeapYear year) (month - 1) + (dt - 7) - 1)
               Hy ltac:(lia)).
    set (t2 := MakeDate (DayFromYear year + (month_start (InLeapYear year) (month - 1) + (dt - 7) - 1)) 0).
    assert (HD2 : Day t2 = DayFromYear year + month_start (InLeapYear year) (month - 1) + (dt - 7) - 1)
      by (unfold t2; rewrite Day_MakeDate; lia).
    destruct (fields_of_day year (month - 1) (dt - 7) t2 ltac:(lia)
                ltac:(replace (month - 1 + 1) with month by lia; lia) HD2)
      as (_ & _ & HDt2).
    run. rewrite HDt2. reflexivity.
Qed.

(** X4.  For [n] from 1 to 4, every month 1..12, every weekday 0..6 and
    every year the method covers without remapping, [#nthWeekdayOfMonth]
    returns the [n]-th occurrence of the weekday in the month: the day of
    the [n]-th block of seven days that falls on that weekday. *)
Theorem nthWeekdayOfMonth_nth_occurrence db host year month weekday n s :
  caches_ok db host s ->
  -271000 <= year <= 275000 -> ~ (0 <= year <= 99) ->
  1 <= month <= 12 -> 0 <= weekday <= 6 -> 1 <= n <= 4 ->
  exists day s',
    nthWeekdayOfMonth year month weekday n s = Ok day s' /\
    7 * (n - 1) < day <= 7 * n /\
    WeekDay (MakeDate (MakeDay year (month - 1) day) 0) = weekday.
Proof.
  intros Hs Hy H99 Hm Hw Hn.
  destruct (nthWeekdayOfMonth_agrees db host year month weekday n s Hs) as (Hv & _ & _).
  rewrite (nth_pure_small year month weekday n Hy H99 Hm Hw ltac:(lia)) in Hv.
  replace (n =? 0) with false in Hv by (symmetry; apply Z.eqb_neq; lia).
  destruct (nthWeekdayOfMonth year month weekday n s) as [day s'|e s']; [|discriminate].
  injection Hv as ->. eexists _, s'. split; [reflexivity|].
  pose proof (WeekDay_range (MakeDate (MakeDay year (month - 1) 1) 0)) as Hd.
  split; [zdiv|].
  rewrite (WeekDay_shift year (month - 1) _ 1). zdiv.
Qed.

(** The theorem at work: the second Sunday of March 2024 is the 10th. *)
Lemma nthWeekdayOfMonth_nth_occurrence_witness :
  exists day s',
    nthWeekdayOfMonth 2024 3 0 2 blank = Ok day s' /\
    7 * (2 - 1) < day <= 7 * 2 /\
    WeekDay (MakeDate (MakeDay 2024 (3 - 1) day) 0) = 0.
Proof.
  apply (nthWeekdayOfMonth_nth_occurrence [] Sample.host_utc 2024 3 0 2 blank).
  - apply caches_ok_blank.
  - lia.
  - lia.
  - lia.
  - lia.
  - lia.
Defined.

(** X5.  For [n = 5] the method returns the LAST occurrence of the weekday
    in the month: the fifth when the month has five, else the fourth,
    reached by the step back of one week when the date has left the
    month. *)
Theorem nthWeekdayOfMonth_five_is_last db host year month weekday s :
  caches_ok db host s ->
  -271000 <= year <= 275000 -> ~ (0 <= year <= 99) ->
  1 <= month <= 12 -> 0 <= weekday <= 6 ->
  exists day s',
    nthWeekdayOfMonth year month weekday 5 s = Ok day s' /\
    22 <= day <= DaysInMonth year month /\
    DaysInMonth year month < day + 7 /\
    WeekDay (MakeDate (MakeDay year (month - 1) day) 0) = weekday.
Proof.
  intros Hs Hy H99 Hm Hw.
  destruct (nthWeekdayOfMonth_agrees db host year month weekday 5 s Hs) as (Hv & _ & _).
  rewrite (nth_pure_five year month weekday Hy H99 Hm Hw) in Hv.
  destruct (nthWeekdayOfMonth year month weekday 5 s) as [day s'|e s']; [|discriminate].
  injection Hv as ->. eexists _, s'. split; [reflexivity|].
  pose proof (WeekDay_range (MakeDate (MakeDay year (month - 1) 1) 0)) as Hd.
  pose proof (month_length (InLeapYear year) (month - 1) ltac:(lia)) as Hlen.
  replace (month - 1 + 1) with month in Hlen by lia.
  fold (DaysInMonth year month) in Hlen.
  set (first := MakeDate (MakeDay year (month - 1) 1) 0) in *.
  destruct (Z.leb_spec (29 + (weekday - WeekDay first) mod 7) (DaysInMonth year month)).
  - repeat split; try zdiv.
    rewrite (WeekDay_shift year (month - 1) _ 1). fold first. zdiv.
  - repeat split; try zdiv.
    rewrite (WeekDay_shift year (month - 1) _ 1). fold first. zdiv.
Qed.

(** The theorem at work: February 2024 has four Sundays, the last on the
    25th. *)
Lemma nthWeekdayOfMonth_five_is_last_witness :
  exists day s',
    nthWeekdayOfMonth 2024 2 0 5 blank = Ok day s' /\
    22 <= day <= DaysInMonth 2024 2 /\
    DaysInMonth 2024 2 < day + 7 /\
    WeekDay (MakeDate (MakeDay 2024 (2 - 1) day) 0) = 0.
Proof.
  apply (nthWeekdayOfMonth_five_is_last [] Sample.host_utc 2024 2 0 blank).
  - apply caches_ok_blank.
  - lia.
  - lia.
  - lia.
  - lia.
Defined.

End NthTheorems.

(* ===================================================================== *)
(** ** Transition instants and the wall clock *)
(* ===================================================================== *)

Module TransitionTheorems.
Import JsString Tz DateFacts CacheFacts NthFacts NthTheorems DstFacts.
Local Open Scope Z_scope.

Lemma date_valid y k tod :
  -271000 <= y <= 275000 -> -400 <= k <= 800 -> 0 <= tod < msPerDay ->
  TimeClip (MakeDate (DayFromYear y + k) tod) = Num (MakeDate (DayFromYear y + k) tod).
Proof.
  intros Hy Hk Ht. unfold TimeClip.
  destruct (Z.ltb_spec maxTime (Z.abs (MakeDate (DayFromYear y + k) tod))) as [H|H];
    [|reflexivity].
  exfalso. revert H Ht. unfold MakeDate, maxTime, msPerDay, DayFromYear. zdiv.
Qed.

(** The day [#nthWeekdayOfMonth] returns for a week number from 0 to 5 is a
    day of the month that falls on the weekday asked for. *)
Lemma nth_pure_in_month year month weekday n :
  -271000 <= year <= 275000 -> ~ (0 <= year <= 99) ->
  1 <= month <= 12 -> 0 <= weekday <= 6 -> 0 <= n <= 5 ->
  exists day,
    nth_pure year month weekday n = Some day /\
    1 <= day <= DaysInMonth year month /\
    WeekDay (MakeDate (MakeDay year (month - 1) day) 0) = weekday.
Proof.
  intros Hy H99 Hm Hw Hn.
  pose proof (WeekDay_range (MakeDate (MakeDay year (month - 1) 1) 0)) as Hd.
  pose proof (month_length (InLeapYear year) (month - 1) ltac:(lia)) as Hlen.
  replace (month - 1 + 1) with month in Hlen by lia.
  fold (DaysInMonth year month) in Hlen.
  destruct (Z.eq_dec n 5) as [->|Hn5].
  - rewrite (nth_pure_five year month weekday Hy H99 Hm Hw).
    set (first := MakeDate (MakeDay year (month - 1) 1) 0) in *.
    eexists. split; [reflexivity|].
    destruct (Z.leb_spec (29 + (weekday - WeekDay first) mod 7) (DaysInMonth year month)).
    + split; [zdiv|]. rewrite (WeekDay_shift year (month - 1) _ 1). fold first. zdiv.
    + split; [zdiv|]. rewrite (WeekDay_shift year (month - 1) _ 1). fold first. zdiv.
  - rewrite (nth_pure_small year month weekday n Hy H99 Hm Hw ltac:(lia)).
    eexists. split; [reflexivity|].
    split; [destruct (Z.eqb_spec n 0); zdiv|].
    rewrite (WeekDay_shift year (month - 1) _ 1). destruct (Z.eqb_spec n 0); zdiv.
Qed.

Lemma dst_boundary_spec year month week :
  -271000 <= year <= 275000 -> ~ (0 <= year <= 99) ->
  1 <= month <= 12 -> 0 <= week <= 5 ->
  exists t,
    dst_boundary year month week = Some t /\
    YearFromTime t = year /\ MonthFromTime t = month - 1 /\
    WeekDay t = 0 /\ TimeWithinDay t = 2 * msPerHour.
Proof.
  intros Hy H99 Hm Hw.
  destruct (nth_pure_in_month year month 0 week Hy H99 Hm ltac:(lia) Hw)
    as (day & Hday & Hr & Hwd).
  unfold dst_boundary. rewrite Hday. unfold DateUTC.
  replace ((0 <=? year) && (year <=? 99)) with false
    by (symmetry; apply andb_false_iff; lia).
  pose proof (month_length (InLeapYear year) (month - 1) ltac:(lia)) as Hlen.
  replace (month - 1 + 1) with month in Hlen by lia.
  unfold DaysInMonth in Hr.
  pose proof (month_start_mono (InLeapYear year) 0 (month - 1) ltac:(lia) ltac:(lia) ltac:(lia)) as H1.
  pose proof (month_start_mono (InLeapYear year) month 12 ltac:(lia) ltac:(lia) ltac:(lia)) as H2.
  assert (H3 : month_start (InLeapYear year) 12 <= 366)
    by (destruct (InLeapYear year); calc_months; lia).
  assert (H0 : month_start (InLeapYear year) 0 = 0) by reflexivity.
  destruct (fields_of_MakeDay year (month - 1) day (MakeTime 2 0 0 0) ltac:(lia)
              ltac:(vm_compute; split; [discriminate|reflexivity])
              ltac:(replace (month - 1 + 1) with month by lia; lia))
    as (HY & HM & _ & HT & HD).
  rewrite (MakeDay_number year (month - 1) day ltac:(lia)) in *.
  replace (DayFromYear year + month_start (InLeapYear year) (month - 1) + day - 1)
    with (DayFromYear year + (month_start (InLeapYear year) (month - 1) + day - 1)) in * by lia.
  rewrite (date_valid year (month_start (InLeapYear year) (month - 1) + day - 1)
             (MakeTime 2 0 0 0) Hy ltac:(lia) ltac:(vm_compute; split; [discriminate|reflexivity])).
  eexists. split; [reflexivity|]. repeat split; try assumption.
  unfold WeekDay in *. rewrite HD. rewrite Day_MakeDate in Hwd. exact Hwd.
Qed.

(** X6.  For every month 1..12, week number 0..5 and year covered, the
    instant [#isDstPeriod] and [getTimeUntilNextDstChange] build for a
    transition exists and is 02:00:00.000 UTC on a Sunday of that month of
    that year. *)
Theorem dst_boundary_is_sunday_2am year month week :
  -271000 <= year <= 275000 -> ~ (0 <= year <= 99) ->
  1 <= month <= 12 -> 0 <= week <= 5 ->
  exists t,
    dst_boundary year month week = Some t /\
    YearFromTime t = year /\ MonthFromTime t = month - 1 /\
    WeekDay t = 0 /\ TimeWithinDay t = 2 * msPerHour.
Proof. exact (dst_boundary_spec year month week). Qed.

(** The theorem at work: rule "B13" starts DST on 3 March 2024. *)
Lemma dst_boundary_is_sunday_2am_witness :
  exists t,
    dst_boundary 2024 3 1 = Some t /\
    YearFromTime t = 2024 /\ MonthFromTime t = 3 - 1 /\
    WeekDay t = 0 /\ TimeWithinDay t = 2 * msPerHour.
Proof.
  apply (dst_boundary_is_sunday_2am 2024 3 1); lia.
Defined.

Lemma year_range_valid w :
  -271000 <= YearFromTime w <= 275000 -> Z.abs w <= maxTime.
Proof.
  intros Hy. pose proof (YearFromDay_spec (Day w)) as Hs.
  fold (YearFromTime w) in Hs. set (y := YearFromTime w) in *. clearbody y.
  pose proof (DayFromYear_mono (-271000) y ltac:(lia)) as H1.
  pose proof (DayFromYear_mono (y + 1) 275001 ltac:(lia)) as H2.
  assert (E1 : -100000000 < DayFromYear (-271000)) by reflexivity.
  assert (E2 : DayFromYear 275001 < 100000000) by reflexivity.
  unfold Day, maxTime, msPerDay in *. zdiv.
Qed.

(** X7.  From a state with sound keyed caches, [#isDstPeriod] returns (it
    does not throw) for every date of the years covered and every rule
    whose two months are in 1..12 and whose two week numbers are at most
    5. *)
Theorem isDstPeriod_returns db host t rule s :
  caches_ok db host s ->
  -271000 <= getFullYear host t <= 275000 -> ~ (0 <= getFullYear host t <= 99) ->
  1 <= start_month_of (parseInt16 rule) <= 12 ->
  1 <= end_month_of (parseInt16 rule) <= 12 ->
  start_week_of (parseInt16 rule) <= 5 -> end_week_of (parseInt16 rule) <= 5 ->
  exists b s', isDstPeriod host t rule s = Ok b s'.
Proof.
  intros Hs Hy H99 Hsm Hem Hsw Hew.
  destruct (isDstPeriod_agrees db host t rule s Hs) as (Hv & _ & _).
  assert (Hp : isDst_pure host t rule <> None).
  { unfold isDst_pure. destruct (String.eqb rule "00"); [discriminate|].
    unfold dst_start, dst_end.
    assert (Hsw0 : 0 <= start_week_of (parseInt16 rule))
      by (unfold start_week_of; apply Z.land_nonneg; right; lia).
    assert (Hew0 : 0 <= end_week_of (parseInt16 rule))
      by (unfold end_week_of; apply Z.land_nonneg; right; lia).
    destruct (dst_boundary_spec _ _ _ Hy H99 Hsm (conj Hsw0 Hsw)) as (st & -> & _).
    destruct (dst_boundary_spec _ _ _ Hy H99 Hem (conj Hew0 Hew)) as (en & -> & _).
    rewrite (utc_date_of_local host t H99 (year_range_valid _ Hy)). discriminate. }
  destruct (isDstPeriod host t rule s) as [b s'|e s']; [eauto|].
  cbn [value] in Hv. congruence.
Qed.

(** The theorem at work on the rule of the README. *)
Lemma isDstPeriod_returns_witness :
  exists b s', isDstPeriod Sample.host_plus_one Sample.july_2024 "B13" blank = Ok b s'.
Proof.
  apply (isDstPeriod_returns [] Sample.host_plus_one Sample.july_2024 "B13" blank).
  - apply caches_ok_blank.
  - vm_compute. split; discriminate.
  - vm_compute. intros [_ H]. apply H. reflexivity.
  - vm_compute. split; discriminate.
  - vm_compute. split; discriminate.
  - vm_compute. discriminate.
  - vm_compute. discriminate.
Defined.

(** X8.  The "convert input date to UTC" step of [#isDstPeriod] yields the
    host-local time value of the date without its milliseconds, that is the
    date shifted by the zone of the host; on a host whose zone is UTC it is
    the date itself, to the second. *)
Theorem utc_date_is_wall_clock host t :
  -271000 <= getFullYear host t <= 275000 -> ~ (0 <= getFullYear host t <= 99) ->
  utc_date_of host t
  = Num (t + host t * msPerMinute - (t + host t * msPerMinute) mod 1000).
Proof.
  intros Hy H99.
  exact (utc_date_of_local host t H99 (year_range_valid _ Hy)).
Qed.

(** The theorem at work one hour east of UTC. *)
Lemma utc_date_is_wall_clock_witness :
  utc_date_of Sample.host_plus_one Sample.march_3_0130
  = Num (Sample.march_3_0130 + Sample.host_plus_one Sample.march_3_0130 * msPerMinute
         - (Sample.march_3_0130 + Sample.host_plus_one Sample.march_3_0130 * msPerMinute)
           mod 1000).
Proof.
  apply (utc_date_is_wall_clock Sample.host_plus_one Sample.march_3_0130).
  - vm_compute. split; discriminate.
  - vm_compute. intros [_ H]. apply H. reflexivity.
Defined.

End TransitionTheorems.

(* ===================================================================== *)
(** ** What the methods leave alone *)
(* ===================================================================== *)

Module StableFacts.
Import JsString Tz CacheFacts InvariantFacts.
Local Open Scope Z_scope.

(** As [pres], for a property that the field updates met on the way keep. *)
Ltac stable :=
  repeat first
    [ apply preserves_ret | apply preserves_throw | apply preserves_get
    | apply preserves_toISOString
    | solve [auto with pres]
    | apply preserves_modify; solve [auto]
    | apply preserves_bind; [|intros ?]
    | match goal with
      | |- preserves _ (match ?x with _ => _ end) => destruct x
      | |- preserves _ (let '(_, _) := ?x in _) => destruct x
      end ].

Section Stable.
Variable P : Timezones -> Prop.
Variable db : list ZoneRecord.
Variable host : Z -> Z.
Variable now : Z.

Hypothesis H_offset : forall v s, P s -> P (set_offset_cache v s).
Hypothesis H_nth : forall v s, P s -> P (set_nth_week_cache v s).
Hypothesis H_dst : forall v s, P s -> P (set_dst_cache v s).
Hypothesis H_tz_info : forall v s, P s -> P (set_tz_info_cache v s).
Hypothesis H_mins : forall v s, P s -> P (set_default_offset_mins v s).
Hypothesis H_location : forall v s, P s -> P (set_location_cache v s).
Hypothesis H_status : forall v s, P s -> P (set_dst_status_cache v s).

Lemma stable_str2offset k : preserves P (str2offset k).
Proof. unfold str2offset. stable. Qed.

Lemma stable_nthWeekdayOfMonth y m w n : preserves P (nthWeekdayOfMonth y m w n).
Proof. unfold nthWeekdayOfMonth, nthWeekdayOfMonth_compute. stable. Qed.
Hint Resolve stable_str2offset stable_nthWeekdayOfMonth : pres.

Lemma stable_isDstPeriod t r : preserves P (isDstPeriod host t r).
Proof. unfold isDstPeriod. stable. Qed.

Lemma stable_filterM off b l : preserves P (filterM (offset_matches off b) l).
Proof.
  induction l as [|tz l IH]; cbn [filterM]; [apply preserves_ret|].
  unfold offset_matches, normalizeOffset_str. stable; apply IH.
Qed.
Hint Resolve stable_isDstPeriod stable_filterM : pres.

Lemma stable_findTimeZoneByOffset o b : preserves P (findTimeZoneByOffset db o b).
Proof. unfold findTimeZoneByOffset. stable. Qed.

Lemma stable_findBestMatch_loop city tzs best :
  preserves P (findBestMatch_loop city tzs best).
Proof.
  revert best. induction tzs as [|tz l IH]; intros best; cbn [findBestMatch_loop].
  - apply preserves_ret.
  - unfold calculateStringSimilarity. stable; apply IH.
Qed.
Hint Resolve stable_findTimeZoneByOffset stable_findBestMatch_loop : pres.

Lemma stable_selectBestMatchingTimeZone l : preserves P (selectBestMatchingTimeZone l).
Proof. unfold selectBestMatchingTimeZone, findBestMatch. stable. Qed.
Hint Resolve stable_selectBestMatchingTimeZone : pres.

Lemma stable_determineOffset tz : preserves P (determineOffset db tz).
Proof. unfold determineOffset, guessTimeZoneFromPartialId. stable. Qed.
Hint Resolve stable_determineOffset : pres.

Lemma stable_getLocation : preserves P (getLocation db host now).
Proof. unfold getLocation, getLocation_compute, calculateTZ, isDstNow. stable. Qed.

Lemma stable_getDaylightStatus loc : preserves P (getDaylightStatus db host now loc).
Proof. unfold getDaylightStatus. stable. Qed.
Hint Resolve stable_getLocation stable_getDaylightStatus : pres.

Lemma stable_getLocationAndDaylightStatus :
  preserves P (getLocationAndDaylightStatus db host now).
Proof. unfold getLocationAndDaylightStatus. stable. Qed.
Hint Resolve stable_getLocationAndDaylightStatus : pres.

Lemma stable_getTimezoneInfo i : preserves P (getTimezoneInfo db i).
Proof. unfold getTimezoneInfo. stable. Qed.

Lemma stable_getDate : preserves P (getDate db host now).
Proof. unfold getDate. stable. Qed.
Hint Resolve stable_getTimezoneInfo stable_getDate : pres.

Lemma stable_getTimeUntilNextDstChange :
  preserves P (getTimeUntilNextDstChange db host now).
Proof. unfold getTimeUntilNextDstChange. stable. Qed.
Hint Resolve stable_getTimeUntilNextDstChange : pres.

Lemma stable_formatTimeUntilNextDstChange :
  preserves P (formatTimeUntilNextDstChange db host now).
Proof. unfold formatTimeUntilNextDstChange. stable. Qed.

Lemma stable_getField f : preserves P (getField db host now f).
Proof. unfold getField, getCurrentTimeWithOffset, own_offset. stable. Qed.

Lemma stable_getTime : preserves P (getTime db host now).
Proof. unfold getTime, formatDateWithOffset, own_offset. stable. Qed.

Lemma stable_convertToTimeZone date target :
  preserves P (convertToTimeZone db host date target).
Proof. unfold convertToTimeZone. stable. Qed.

End Stable.
End StableFacts.

(* ===================================================================== *)
(** ** The resolver, end to end *)
(* ===================================================================== *)

Module ResolverTheorems.
Import JsNum JsString JsDate Tz CacheFacts ResolverFacts StableFacts.
Local Open Scope string_scope.
Local Open Scope Z_scope.

Section WithEnv.
Variable db : list ZoneRecord.
Variable host : Z -> Z.
Variable now : Z.

Lemma find_id_of_row tz :
  In tz db ->
  exists tz', List.find (fun r => String.eqb (tz1_tz_id r) (tz1_tz_id tz)) db = Some tz'
              /\ tz1_tz_id tz' = tz1_tz_id tz.
Proof.
  intros Hin.
  destruct (List.find _ db) as [tz'|] eqn:E.
  - exists tz'. split; [reflexivity|].
    apply find_some in E. destruct E as [_ E]. now apply String.eqb_eq in E.
  - eapply find_none in E; [|exact Hin]. cbn in E.
    now rewrite String.eqb_refl in E.
Qed.

(** X10.  An instance made from the identifier of a row reports that
    identifier as its location. *)
Theorem getLocation_exact_id (tz : ZoneRecord) :
  In tz db ->
  getLocation db host now (constructor db (HStr (tz1_tz_id tz)))
  = Ok (tz1_tz_id tz) (constructor db (HStr (tz1_tz_id tz))).
Proof.
  intros Hin. destruct (find_id_of_row tz Hin) as (tz' & E & Hid).
  unfold getLocation. run. unfold constructor at 1. cbn [tz_data].
  unfold initializeTimezoneData. rewrite E. now rewrite Hid.
Qed.

(** X11.  An identifier that is no zone id but the country code or one of
    the two abbreviations of some row resolves to the first such row. *)
Theorem getLocation_by_code_or_abbreviation
    (i : string) (before after : list ZoneRecord) (tz : ZoneRecord) :
  db = (before ++ tz :: after)%list ->
  (forall r, In r db -> tz1_tz_id r <> i) ->
  (forall r, In r before ->
     tz0_code r <> i /\ tz4_tz_sdt r <> i /\ tz5_tz_dst r <> i) ->
  tz0_code tz = i \/ tz4_tz_sdt tz = i \/ tz5_tz_dst tz = i ->
  getLocation db host now (constructor db (HStr i))
  = Ok (tz1_tz_id tz) (constructor db (HStr i)).
Proof.
  intros Hdb Hid Hbefore Hrow.
  assert (E1 : List.find (fun r => String.eqb (tz1_tz_id r) i) db = None).
  { destruct (List.find _ db) as [r|] eqn:E; [|reflexivity].
    apply find_some in E. destruct E as [Hin E]. apply String.eqb_eq in E.
    now destruct (Hid r Hin). }
  assert (E2 : findTZbyAbbreviation db (Some i) = Some tz).
  { unfold findTZbyAbbreviation. rewrite Hdb. clear Hdb Hid E1.
    induction before as [|r l IH]; cbn [app List.find].
    - replace (_ || _ || _) with true; [reflexivity|].
      symmetry. rewrite !orb_true_iff, !String.eqb_eq. tauto.
    - destruct (Hbefore r (or_introl eq_refl)) as (H0 & H4 & H5).
      apply String.eqb_neq in H0, H4, H5. rewrite H0, H4, H5. cbn [orb].
      apply IH. intros r' Hr'. apply Hbefore. now right. }
  unfold getLocation. run. unfold constructor at 1. cbn [tz_data].
  unfold initializeTimezoneData. now rewrite E1, E2.
Qed.

End WithEnv.

Lemma getLocation_exact_id_witness :
  In Sample.Warsaw Sample.table /\
  getLocation Sample.table Sample.host_utc Sample.july_2024
    (constructor Sample.table (HStr "Europe/Warsaw"))
  = Ok "Europe/Warsaw" (constructor Sample.table (HStr "Europe/Warsaw")).
Proof.
  assert (H : In Sample.Warsaw Sample.table) by (cbn; tauto).
  split; [exact H|].
  exact (getLocation_exact_id Sample.table Sample.host_utc Sample.july_2024 Sample.Warsaw H).
Defined.

Lemma getLocation_by_code_or_abbreviation_witness :
  getLocation Sample.table Sample.host_utc Sample.july_2024
    (constructor Sample.table (HStr "CEST"))
  = Ok "Europe/Warsaw" (constructor Sample.table (HStr "CEST")).
Proof.
  apply (getLocation_by_code_or_abbreviation Sample.table Sample.host_utc
           Sample.july_2024 "CEST"
           [Sample.New_York; Sample.Halifax; Sample.London]
           [Sample.Tokyo; Sample.Etc_GMT_plus_5; Sample.Sydney] Sample.Warsaw).
  - reflexivity.
  - intros r Hr. cbn in Hr.
    repeat (destruct Hr as [<-|Hr]; [discriminate|]). destruct Hr.
  - intros r Hr. cbn in Hr.
    repeat (destruct Hr as [<-|Hr]; [repeat split; discriminate|]). destruct Hr.
  - right. right. reflexivity.
Defined.

End ResolverTheorems.

(* ===================================================================== *)
(** ** Instances that hold no row *)
(* ===================================================================== *)

Module LocationTheorems.
Import JsNum JsString JsDate Tz CacheFacts ResolverFacts StableFacts.
Local Open Scope string_scope.
Local Open Scope Z_scope.

Section WithEnv.
Variable db : list ZoneRecord.
Variable host : Z -> Z.
Variable now : Z.

Lemma getLocation_keeps_row s :
  tz_data (final (getLocation db host now s)) = tz_data s.
Proof.
  apply (stable_getLocation (fun s' => tz_data s' = tz_data s) db host now);
    intros; cbn; auto.
Qed.

Lemma getLocation_keeps_status s :
  dst_status_cache (final (getLocation db host now s)) = dst_status_cache s.
Proof.
  apply (stable_getLocation (fun s' => dst_status_cache s' = dst_status_cache s)
           db host now); intros; cbn; auto.
Qed.

Lemma getDate_keeps_row s :
  tz_data (final (getDate db host now s)) = tz_data s.
Proof.
  apply (stable_getDate (fun s' => tz_data s' = tz_data s) db host now);
    intros; cbn; auto.
Qed.

(** X12.  A hint that is no offset and whose part before the slash starts no
    identifier of the table makes the location "Unknown", on every host
    and at every time. *)
Theorem getLocation_unknown_continent (s : Timezones) (d : string) :
  tz_data s = None ->
  location_cache s = None ->
  default_offset s = HStr d ->
  d <> "" ->
  HH_MM_OFFSET_REGEX d = false ->
  (forall tz, In tz db ->
     startsWith (tz1_tz_id tz) (nth 0 (split "/" d) "" ++ "/") = false) ->
  getLocation db host now s = Ok "Unknown" (set_location_cache (Some "Unknown") s).
Proof.
  intros Hrow Hloc Hd Hne Hre Hnone.
  assert (Hf : List.filter
                 (fun tz => startsWith (tz1_tz_id tz) (nth 0 (split "/" d) "" ++ "/")) db
               = []).
  { clear -Hnone. induction db as [|r l IH]; [reflexivity|].
    cbn [List.filter]. rewrite (Hnone r (or_introl eq_refl)).
    apply IH. intros tz Htz. apply Hnone. now right. }
  assert (Ht : truthy (HStr d) = true).
  { cbn. destruct d; [congruence|reflexivity]. }
  unfold getLocation. run. rewrite Hrow, Hloc.
  unfold getLocation_compute. run.
  rewrite calculateTZ_value. rewrite isDstNow_false.
  rewrite Hd, Ht, Hre, Hf. cbn.
  destruct (default_offset_mins s); reflexivity.
Qed.

(** X13.  A location that [getLocation] returned is returned again by the
    next call, which changes nothing. *)
Theorem getLocation_cached (s s' : Timezones) (l : string) :
  getLocation db host now s = Ok l s' ->
  getLocation db host now s' = Ok l s'.
Proof.
  intros E.
  pose proof (getLocation_keeps_row s) as Hrow. rewrite E in Hrow. cbn in Hrow.
  revert E. unfold getLocation. run. rewrite Hrow.
  destruct (tz_data s) as [d|];
    [intros E; injection E as E1 E2; subst; reflexivity|].
  destruct (location_cache s) as [l0|] eqn:Hl.
  - intros E. injection E as E1 E2. subst. now rewrite Hl.
  - destruct (getLocation_compute db host now s) as [l1 s1|e s1]; [|discriminate].
    intros E. injection E as <- <-. reflexivity.
Qed.

(** X14.  An instance that holds no row and has no cached status reports
    [is_dst = false], whatever the date and the located zone. *)
Theorem getLocationAndDaylightStatus_no_row (s s' : Timezones) (l : string) (b : bool) :
  tz_data s = None ->
  dst_status_cache s = None ->
  getLocationAndDaylightStatus db host now s = Ok (l, b) s' ->
  b = false /\ getLocation db host now s = Ok l s'.
Proof.
  intros Hrow Hst.
  pose proof (getLocation_keeps_row s) as Hrow'.
  pose proof (getLocation_keeps_status s) as Hst'.
  unfold getLocationAndDaylightStatus. run. rewrite Hrow.
  destruct (getLocation db host now s) as [l1 s1|e s1]; [|discriminate].
  cbn in Hrow', Hst'. rewrite Hrow in Hrow'. rewrite Hst in Hst'.
  unfold getDaylightStatus. run. rewrite Hrow', Hst'.
  match goal with
  | |- context [List.find ?f db] =>
      replace (List.find f db) with (@None ZoneRecord)
        by (symmetry; clear; induction db; auto)
  end.
  intros H. injection H as <- <- <-. split; reflexivity.
Qed.

Lemma getTimezoneInfo_undefined s :
  tz_data s = None -> getTimezoneInfo db None s = Ok None s.
Proof.
  intros Hrow. unfold getTimezoneInfo. run. rewrite Hrow.
  match goal with
  | |- context [List.find ?f db] =>
      replace (List.find f db) with (@None ZoneRecord);
      [reflexivity | symmetry; clear; induction db; auto]
  end.
Qed.

(** X15.  On an instance that holds no row, [getTimeUntilNextDstChange]
    returns [null] whenever [getDate] returns, and the formatted answer is
    the no-DST sentence. *)
Theorem getTimeUntilNextDstChange_no_row (s : Timezones) :
  tz_data s = None ->
  match getDate db host now s with
  | Ok _ s' =>
      getTimeUntilNextDstChange db host now s = Ok None s' /\
      formatTimeUntilNextDstChange db host now s
      = Ok "No DST changes for this timezone." s'
  | Throw e s' =>
      getTimeUntilNextDstChange db host now s = Throw e s' /\
      formatTimeUntilNextDstChange db host now s = Throw e s'
  end.
Proof.
  intros Hrow.
  pose proof (getDate_keeps_row s) as Hrow'. rewrite Hrow in Hrow'.
  unfold formatTimeUntilNextDstChange, getTimeUntilNextDstChange. run.
  destruct (getDate db host now s) as [d s1|e s1]; cbn in Hrow'.
  - rewrite Hrow'. cbn [fmap option_fmap option_map].
    rewrite (getTimezoneInfo_undefined s1 Hrow'). cbn. split; reflexivity.
  - split; reflexivity.
Qed.

End WithEnv.

Lemma getLocation_unknown_continent_witness :
  getLocation Sample.table Sample.host_utc Sample.july_2024
    (constructor Sample.table (HStr "Mars/Olympus"))
  = Ok "Unknown"
       (set_location_cache (Some "Unknown")
          (constructor Sample.table (HStr "Mars/Olympus"))).
Proof.
  apply (getLocation_unknown_continent Sample.table Sample.host_utc Sample.july_2024
           (constructor Sample.table (HStr "Mars/Olympus")) "Mars/Olympus").
  - reflexivity.
  - reflexivity.
  - reflexivity.
  - discriminate.
  - reflexivity.
  - intros tz Htz. cbn in Htz.
    repeat (destruct Htz as [<-|Htz]; [reflexivity|]). destruct Htz.
Defined.

Lemma getLocation_cached_witness :
  exists l s',
    getLocation Sample.table Sample.host_utc Sample.july_2024
      (constructor Sample.table (HNum (-5))) = Ok l s' /\
    getLocation Sample.table Sample.host_utc Sample.july_2024 s' = Ok l s'.
Proof.
  destruct (getLocation Sample.table Sample.host_utc Sample.july_2024
              (constructor Sample.table (HNum (-5)))) as [l s'|e s'] eqn:E.
  - exists l, s'. split; [reflexivity|].
    exact (getLocation_cached Sample.table Sample.host_utc Sample.july_2024 _ s' l E).
  - vm_compute in E. discriminate.
Defined.

Lemma getLocationAndDaylightStatus_no_row_witness :
  exists l s',
    getLocationAndDaylightStatus Sample.table Sample.host_utc Sample.july_2024
      (constructor Sample.table (HNum (-5))) = Ok (l, false) s'.
Proof.
  destruct (getLocationAndDaylightStatus Sample.table Sample.host_utc Sample.july_2024
              (constructor Sample.table (HNum (-5)))) as [[l b] s'|e s'] eqn:E.
  - exists l, s'.
    destruct (getLocationAndDaylightStatus_no_row Sample.table Sample.host_utc
                Sample.july_2024 (constructor Sample.table (HNum (-5))) s' l b
                eq_refl eq_refl E) as [-> _].
    reflexivity.
  - vm_compute in E. discriminate.
Defined.

Lemma getTimeUntilNextDstChange_no_row_witness :
  exists s',
    getTimeUntilNextDstChange Sample.table Sample.host_utc Sample.july_2024
      (constructor Sample.table (HNum (-5))) = Ok None s'.
Proof.
  pose proof (getTimeUntilNextDstChange_no_row Sample.table Sample.host_utc
                Sample.july_2024 (constructor Sample.table (HNum (-5))) eq_refl) as H.
  destruct (getDate Sample.table Sample.host_utc Sample.july_2024
              (constructor Sample.table (HNum (-5)))) as [d s'|e s'] eqn:E.
  - exists s'. exact (proj1 H).
  - vm_compute in E. discriminate.
Defined.

End LocationTheorems.

(* ===================================================================== *)
(** ** Look-ups and conversions *)
(* ===================================================================== *)

Module LookupTheorems.
Import JsNum JsString JsDate Tz CacheFacts.
Local Open Scope string_scope.
Local Open Scope Z_scope.

Section WithEnv.
Variable db : list ZoneRecord.
Variable host : Z -> Z.

Lemma find_by_id_or_code i :
  match List.find (fun tz => String.eqb (tz1_tz_id tz) i || String.eqb (tz0_code tz) i) db with
  | Some tz => In tz db /\ (tz1_tz_id tz = i \/ tz0_code tz = i)
  | None => forall tz, In tz db -> tz1_tz_id tz <> i /\ tz0_code tz <> i
  end.
Proof.
  destruct (List.find _ db) as [tz|] eqn:E.
  - apply find_some in E. destruct E as [Hin E]. split; [exact Hin|].
    now rewrite orb_true_iff, !String.eqb_eq in E.
  - intros tz Hin. eapply find_none in E; [|exact Hin]. cbn in E.
    apply orb_false_elim in E. destruct E as [E1 E0].
    apply String.eqb_neq in E1, E0. tauto.
Qed.

Lemma find_by_abbreviation i :
  match findTZbyAbbreviation db (Some i) with
  | Some tz => In tz db /\ (tz0_code tz = i \/ tz4_tz_sdt tz = i \/ tz5_tz_dst tz = i)
  | None => forall tz, In tz db ->
              tz0_code tz <> i /\ tz4_tz_sdt tz <> i /\ tz5_tz_dst tz <> i
  end.
Proof.
  unfold findTZbyAbbreviation.
  destruct (List.find _ db) as [tz|] eqn:E.
  - apply find_some in E. destruct E as [Hin E]. split; [exact Hin|].
    rewrite !orb_true_iff, !String.eqb_eq in E. tauto.
  - intros tz Hin. eapply find_none in E; [|exact Hin]. cbn in E.
    apply orb_false_elim in E. destruct E as [E E5].
    apply orb_false_elim in E. destruct E as [E0 E4].
    apply String.eqb_neq in E0, E4, E5. tauto.
Qed.

Lemma getTimezoneInfo_spec (i : string) (s : Timezones) :
  exists r,
    getTimezoneInfo db (Some i) s = Ok r s /\
    match r with
    | Some tz => (tz_data s = Some tz \/ In tz db) /\ row_carries i tz
    | None => forall tz, In tz db -> ~ row_carries i tz
    end.
Proof.
  unfold row_carries.
  pose proof (find_by_id_or_code i) as H1.
  pose proof (find_by_abbreviation i) as H2.
  assert (Hdb : exists r,
    match List.find (fun tz => String.eqb (tz1_tz_id tz) i || String.eqb (tz0_code tz) i) db with
    | Some tz_entry => ret (Some tz_entry)
    | None => ret (findTZbyAbbreviation db (Some i))
    end s = Ok r s /\
    match r with
    | Some tz => In tz db /\
                 (tz1_tz_id tz = i \/ tz0_code tz = i \/ tz4_tz_sdt tz = i \/ tz5_tz_dst tz = i)
    | None => forall tz, In tz db ->
                ~ (tz1_tz_id tz = i \/ tz0_code tz = i \/ tz4_tz_sdt tz = i \/ tz5_tz_dst tz = i)
    end).
  { destruct (List.find _ db) as [tz|].
    - exists (Some tz). split; [reflexivity|]. tauto.
    - destruct (findTZbyAbbreviation db (Some i)) as [tz|].
      + exists (Some tz). split; [reflexivity|]. tauto.
      + exists None. split; [reflexivity|]. intros tz Hin.
        specialize (H1 tz Hin). specialize (H2 tz Hin). tauto. }
  assert (Hdb' : exists r,
    match List.find (fun tz => String.eqb (tz1_tz_id tz) i || String.eqb (tz0_code tz) i) db with
    | Some tz_entry => ret (Some tz_entry)
    | None => ret (findTZbyAbbreviation db (Some i))
    end s = Ok r s /\
    match r with
    | Some tz => (tz_data s = Some tz \/ In tz db) /\
                 (tz1_tz_id tz = i \/ tz0_code tz = i \/ tz4_tz_sdt tz = i \/ tz5_tz_dst tz = i)
    | None => forall tz, In tz db ->
                ~ (tz1_tz_id tz = i \/ tz0_code tz = i \/ tz4_tz_sdt tz = i \/ tz5_tz_dst tz = i)
    end).
  { destruct Hdb as (r & E & Hr). exists r. split; [exact E|].
    destruct r; tauto. }
  clear Hdb H1 H2.
  unfold getTimezoneInfo. change (bind get ?k s) with (k s s). cbv beta.
  destruct (tz_data s) as [d|]; [|exact Hdb'].
  destruct (String.eqb (tz1_tz_id d) i || String.eqb (tz0_code d) i) eqn:E; [|exact Hdb'].
  exists (Some d). split; [reflexivity|].
  rewrite orb_true_iff, !String.eqb_eq in E. tauto.
Qed.

(** X16.  [getTimezoneInfo] changes nothing; the row it returns is the
    instance's own or one of the table and carries the identifier as zone
    id, country code or abbreviation; it returns [null] only when no row of
    the table carries it. *)
Theorem getTimezoneInfo_sound (i : string) (s : Timezones) :
  exists r,
    getTimezoneInfo db (Some i) s = Ok r s /\
    match r with
    | Some tz => (tz_data s = Some tz \/ In tz db) /\ row_carries i tz
    | None => forall tz, In tz db -> ~ row_carries i tz
    end.
Proof. exact (getTimezoneInfo_spec i s). Qed.

(** X17.  [convertToTimeZone] throws its [Error] for a target that is no
    signed hour count and that neither the instance's row nor a row of the
    table carries, and leaves the caches alone. *)
Theorem convertToTimeZone_unknown_throws (date : Z) (target : string) (s : Timezones) :
  signed_digits target = false ->
  (forall tz, tz_data s = Some tz \/ In tz db -> ~ row_carries target tz) ->
  convertToTimeZone db host date target s
  = Throw (Error "Invalid timezone format. Expected format: '±HH' or a valid IANA timezone identifier.") s.
Proof.
  intros Hsd Hnone. unfold convertToTimeZone. rewrite Hsd.
  destruct (getTimezoneInfo_spec target s) as (r & E & Hr).
  run. rewrite E.
  destruct r as [tz|]; [|reflexivity].
  destruct Hr as [Hin Hn]. destruct (Hnone tz Hin Hn).
Qed.

Lemma TimeClip_in_range t : Z.abs t <= maxTime -> TimeClip t = Num t.
Proof.
  intros H. unfold TimeClip.
  destruct (Z.ltb_spec maxTime (Z.abs t)); [lia|reflexivity].
Qed.

(** X18.  Converting by a signed hour count and back by the opposite count
    moves a date by twice the host's own offset: [#applyOffsetToDate] adds
    [getTimezoneOffset()] at every call, so the round trip is the identity
    on a host in UTC only. *)
Theorem convertToTimeZone_there_and_back
    (k date v : Z) (there back : string) (s : Timezones) :
  signed_digits there = true ->
  signed_digits back = true ->
  parseInt10 there = Num v ->
  parseInt10 back = Num (- v) ->
  Z.abs (date - k * 60000 + v * 3600000) <= maxTime ->
  Z.abs (date - 2 * k * 60000) <= maxTime ->
  exists d1,
    convertToTimeZone db (fun _ => k) date there s = Ok (Num d1) s /\
    convertToTimeZone db (fun _ => k) d1 back s = Ok (Num (date - 2 * k * 60000)) s.
Proof.
  intros Ht Hb Hv Hv' H1 H2.
  exists (date - k * 60000 + v * 3600000).
  unfold convertToTimeZone, applyOffsetToDate, getTimezoneOffset, shift_by.
  rewrite Ht, Hb, Hv, Hv'. run.
  split.
  - rewrite <- (TimeClip_in_range _ H1). do 2 f_equal. lia.
  - rewrite <- (TimeClip_in_range _ H2). do 2 f_equal. lia.
Qed.

Lemma calculateStringSimilarity_state a b s :
  final (calculateStringSimilarity a b s) = s.
Proof. destruct a, b; reflexivity. Qed.

Lemma findBestMatch_loop_member city tzs b q s b' q' s' :
  findBestMatch_loop city tzs (b, q) s = Ok (b', q') s' ->
  s' = s /\ (b' = b \/ exists tz, In tz tzs /\ b' = Some tz).
Proof.
  revert b q. induction tzs as [|tz l IH]; intros b q; cbn [findBestMatch_loop].
  - intros E. injection E as <- <- <-. auto.
  - unfold bind at 1.
    pose proof (calculateStringSimilarity_state city (split "/" (tz1_tz_id tz) !! 1%nat) s) as Hs.
    destruct (calculateStringSimilarity city _ s) as [sim s1|e s1]; [|discriminate].
    cbn in Hs. subst s1. cbn [snd].
    destruct (JsDouble.gt sim q); intros E; apply IH in E; destruct E as [-> E]; (split; [reflexivity|]).
    + right. destruct E as [->|(tz' & Hin & ->)]; [exists tz|exists tz']; cbn; auto.
    + destruct E as [->|(tz' & Hin & ->)]; [left; reflexivity|right; exists tz'; cbn; auto].
Qed.

(** X19.  What [#selectBestMatchingTimeZone] returns is [null] for the empty
    list only, and else the identifier of a candidate; it is an ["Etc/"]
    identifier only when every candidate is one; the call changes
    nothing. *)
Theorem selectBestMatchingTimeZone_sound
    (l : list ZoneRecord) (s s' : Timezones) (r : option string) :
  selectBestMatchingTimeZone l s = Ok r s' ->
  s' = s /\
  match r with
  | None => l = []
  | Some id =>
      exists tz, In tz l /\ tz1_tz_id tz = id /\
        (includes id "Etc/" = true ->
         forall tz', In tz' l -> includes (tz1_tz_id tz') "Etc/" = true)
  end.
Proof.
  unfold selectBestMatchingTimeZone.
  destruct l as [|x [|y l]].
  - intros E. injection E as <- <-. auto.
  - intros E. injection E as <- <-. split; [reflexivity|].
    exists x. split; [now left|]. split; [reflexivity|].
    intros Hx tz' [<-|[]]. exact Hx.
  - set (m := x :: y :: l).
    set (nd := List.filter (fun tz => negb (includes (tz1_tz_id tz) "Etc/")) m).
    set (f := match nd with [] => m | _ => nd end).
    assert (Hf : forall tz, In tz f ->
              In tz m /\
              (includes (tz1_tz_id tz) "Etc/" = true ->
               forall tz', In tz' m -> includes (tz1_tz_id tz') "Etc/" = true)).
    { intros tz Hin. unfold f in Hin. destruct nd as [|n0 nd'] eqn:End.
      - split; [exact Hin|]. intros _ tz' Hin'.
        destruct (includes (tz1_tz_id tz') "Etc/") eqn:E'; [reflexivity|].
        assert (Hnd : In tz' nd) by (apply filter_In; rewrite E'; auto).
        rewrite End in Hnd. destruct Hnd.
      - rewrite <- End in Hin. apply filter_In in Hin. destruct Hin as [Hin Hne].
        split; [exact Hin|]. intros He. rewrite He in Hne. discriminate. }
    assert (Hne : f <> []).
    { unfold f. destruct nd; [unfold m|]; discriminate. }
    assert (Hfirst : forall s0 r0 s0',
              Ok (tz1_tz_id <$> head f) s0 = Ok r0 s0' ->
              s0' = s0 /\
              match r0 with
              | None => m = []
              | Some id => exists tz, In tz m /\ tz1_tz_id tz = id /\
                  (includes id "Etc/" = true ->
                   forall tz', In tz' m -> includes (tz1_tz_id tz') "Etc/" = true)
              end).
    { intros s0 r0 s0' E. injection E as <- <-. split; [reflexivity|].
      destruct f as [|f0 f']; [congruence|]. cbn.
      destruct (Hf f0 (or_introl eq_refl)) as [Hin He].
      exists f0. auto. }
    assert (Hof : forall tz s0 r0 s0', In tz f ->
              Ok (Some (tz1_tz_id tz)) s0 = Ok r0 s0' ->
              s0' = s0 /\
              match r0 with
              | None => m = []
              | Some id => exists tz, In tz m /\ tz1_tz_id tz = id /\
                  (includes id "Etc/" = true ->
                   forall tz', In tz' m -> includes (tz1_tz_id tz') "Etc/" = true)
              end).
    { intros tz s0 r0 s0' Hin E. injection E as <- <-. split; [reflexivity|].
      destruct (Hf tz Hin) as [Hin' He]. exists tz. auto. }
    change (bind get ?k s) with (k s s). cbv beta.
    destruct (default_offset s) as [|z|d]; try (apply Hfirst).
    destruct (String.eqb d ""); [apply Hfirst|].
    set (cm := List.filter _ f).
    assert (Hcm : forall tz, In tz cm -> In tz f).
    { intros tz Hin. unfold cm in Hin. apply filter_In in Hin. tauto. }
    destruct cm as [|cm0 cm'] eqn:Ecm; [apply Hfirst|]. rewrite <- Ecm.
    destruct (List.find _ cm) as [ex|] eqn:Eex.
    + apply find_some in Eex. destruct Eex as [Hex _]. rewrite Ecm in Hex.
      apply Hof, Hcm, Hex.
    + unfold findBestMatch, bind.
      destruct (findBestMatch_loop _ cm (None, JsDouble.of_Z 0) s) as [[b q] s1|e s1] eqn:El;
        [|discriminate].
      apply findBestMatch_loop_member in El. destruct El as [-> Hb].
      assert (Hcm0 : In cm0 f) by (apply Hcm; now left).
      cbn [fst snd]. destruct b as [tz|].
      * destruct Hb as [Hb|(tz' & Hin & [= ->])]; [discriminate|].
        destruct (JsDouble.gt q similarity_threshold); unfold ret.
        -- rewrite Ecm in Hin. apply Hof, Hcm, Hin.
        -- apply Hof, Hcm0.
      * unfold ret. apply Hof, Hcm0.
Qed.

End WithEnv.

Lemma convertToTimeZone_unknown_throws_witness :
  convertToTimeZone Sample.table Sample.host_utc Sample.july_2024 "Mars/Olympus" blank
  = Throw (Error "Invalid timezone format. Expected format: '±HH' or a valid IANA timezone identifier.") blank.
Proof.
  apply (convertToTimeZone_unknown_throws Sample.table Sample.host_utc
           Sample.july_2024 "Mars/Olympus" blank).
  - reflexivity.
  - intros tz [Hd|Hin]; [discriminate|].
    unfold row_carries. cbn in Hin.
    repeat (destruct Hin as [<-|Hin];
            [intros [H|[H|[H|H]]]; discriminate|]).
    destruct Hin.
Defined.

Lemma convertToTimeZone_there_and_back_witness :
  exists d1,
    convertToTimeZone Sample.table Sample.host_plus_one Sample.july_2024 "+05" blank
    = Ok (Num d1) blank /\
    convertToTimeZone Sample.table Sample.host_plus_one d1 "-05" blank
    = Ok (Num (Sample.july_2024 - 7200000)) blank.
Proof.
  apply (convertToTimeZone_there_and_back Sample.table 60 Sample.july_2024 5
           "+05" "-05" blank); try reflexivity; vm_compute; discriminate.
Defined.

Lemma selectBestMatchingTimeZone_sound_witness :
  exists tz, In tz [Sample.Etc_GMT_plus_5; Sample.New_York] /\
             tz1_tz_id tz = "America/New_York".
Proof.
  destruct (selectBestMatchingTimeZone_sound
              [Sample.Etc_GMT_plus_5; Sample.New_York] blank blank
              (Some "America/New_York") eq_refl) as (_ & tz & Hin & Hid & _).
  exists tz. split; assumption.
Defined.

End LookupTheorems.

(* ===================================================================== *)
(** ** The geo approximator *)
(* ===================================================================== *)

Module GeoTheorems.
Import JsNum JsString Tz DoubleFacts.

Lemma nearest_loop_cons lat lon e rest acc :
  nearest_loop lat lon (e :: rest) acc
  = nearest_loop lat lon rest
      (if JsDouble.lt (entry_distance lat lon e) (snd acc)
       then (ie_index e, entry_distance lat lon e) else acc).
Proof. reflexivity. Qed.

(** The scan ends on its start value when no entry is below it, and else on
    the first of the entries that no entry is below.  An entry whose
    distance is [NaN] is below nothing and is never taken. *)
Lemma nearest_loop_spec lat lon entries acc :
  (nearest_loop lat lon entries acc = acc /\
   forall q e', entries !! q = Some e' ->
     JsDouble.lt (entry_distance lat lon e') (snd acc) = false)
  \/
  (exists p e,
     entries !! p = Some e /\
     fst (nearest_loop lat lon entries acc) = ie_index e /\
     JsDouble.lt (entry_distance lat lon e) (snd acc) = true /\
     forall q e', entries !! q = Some e' ->
       JsDouble.lt (entry_distance lat lon e') (entry_distance lat lon e) = false /\
       ((q < p)%nat ->
        JsDouble.lt (entry_distance lat lon e') (snd acc) = true ->
        JsDouble.lt (entry_distance lat lon e) (entry_distance lat lon e') = true)).
Proof.
  revert acc. induction entries as [|e0 rest IH]; intros acc.
  - left. split; [reflexivity|]. intros q e' H. discriminate.
  - rewrite nearest_loop_cons.
    set (d0 := entry_distance lat lon e0).
    destruct (JsDouble.lt d0 (snd acc)) eqn:E.
    + destruct (IH (ie_index e0, d0)) as [[Hr Hall]|(p & e & Hp & Hr & Hlt & Hall)];
        cbn [snd] in *.
      * right. exists O, e0. split; [reflexivity|]. rewrite Hr.
        split; [reflexivity|]. split; [exact E|].
        intros [|q] e' Hq.
        -- injection Hq as <-. split; [apply lt_irrefl|lia].
        -- split; [exact (Hall q e' Hq)|lia].
      * right. exists (S p), e. split; [exact Hp|]. split; [exact Hr|].
        split; [eapply lt_trans; eassumption|].
        intros [|q] e' Hq.
        -- injection Hq as <-. split; [apply lt_asym, Hlt|intros _ _; exact Hlt].
        -- destruct (Hall q e' Hq) as [H1 H2]. split; [exact H1|].
           intros Hqp Hbelow.
           destruct (JsDouble.lt (entry_distance lat lon e') d0) eqn:E'.
           ++ apply H2; [lia|reflexivity].
           ++ destruct (lt_not_nan _ _ Hbelow) as [Hnan _].
              exact (lt_nlt_trans _ _ _ Hlt E' Hnan).
    + destruct (IH acc) as [[Hr Hall]|(p & e & Hp & Hr & Hlt & Hall)].
      * left. split; [exact Hr|].
        intros [|q] e' Hq.
        -- injection Hq as <-. exact E.
        -- exact (Hall q e' Hq).
      * right. exists (S p), e. split; [exact Hp|]. split; [exact Hr|].
        split; [exact Hlt|].
        intros [|q] e' Hq.
        -- injection Hq as <-. fold d0. split.
           ++ destruct (JsDouble.lt d0 (entry_distance lat lon e)) eqn:E'; [|reflexivity].
              rewrite (lt_trans _ _ _ E' Hlt) in E. discriminate.
           ++ intros _ Hbelow. congruence.
        -- destruct (Hall q e' Hq) as [H1 H2]. split; [exact H1|].
           intros Hqp Hbelow. apply H2; [lia|exact Hbelow].
Qed.

Section WithEnv.
Variable db : list ZoneRecord.

Lemma build_spatial_index_lookup j :
  build_spatial_index db !! j
  = (fun tz =>
       mkEntry j
         (JsDouble.add (JsDouble.mul (JsDouble.of_Q (tz7_lat tz)) (JsDouble.of_Z 10000))
                       (JsDouble.dec 5 10))
         (JsDouble.add (JsDouble.mul (JsDouble.of_Q (tz8_lon tz)) (JsDouble.of_Z 10000))
                       (JsDouble.dec 5 10)))
      <$> db !! j.
Proof. unfold build_spatial_index. apply list_lookup_imap. Qed.

(** The distance the scan finds for the entry of row [j]. *)
Lemma entry_of_row j tz latitude longitude :
  db !! j = Some tz ->
  exists e,
    build_spatial_index db !! j = Some e /\ ie_index e = j /\
    entry_distance (JsDouble.mul latitude (JsDouble.of_Z 10000))
                   (JsDouble.mul longitude (JsDouble.of_Z 10000)) e
    = scan_distance tz latitude longitude.
Proof.
  intros Hj. rewrite build_spatial_index_lookup, Hj. eexists.
  split; [reflexivity|]. split; reflexivity.
Qed.

(** X20.  All numbers are doubles, computed as the source computes them.
    Over a non-empty table, [getApproxLocation] returns the identifier of a
    row such that, among the rows whose scan distance is below
    [Number.MAX_SAFE_INTEGER], none has a smaller scan distance and every
    earlier one has a larger: the first row of least scan distance.  The
    scan distance of a row is the sum of the two inline absolute
    differences between the point times 10000 and the coordinates of the
    row times 10000 plus 0.5.  The call builds the index when it is absent,
    and answers the same with the index already built.  The statement
    holds for every pair of doubles, [NaN] and the infinities included. *)
Theorem getApproxLocation_nearest (latitude longitude : JsDouble.double) (s : Timezones) :
  db <> [] ->
  spatial_index s = None \/ spatial_index s = Some (build_spatial_index db) ->
  exists i tz,
    db !! i = Some tz /\
    getApproxLocation_at db latitude longitude s
    = Ok (tz1_tz_id tz) (set_spatial_index (Some (build_spatial_index db)) s) /\
    forall j tz',
      db !! j = Some tz' ->
      JsDouble.lt (scan_distance tz' latitude longitude) MAX_SAFE_INTEGER = true ->
      JsDouble.lt (scan_distance tz latitude longitude) MAX_SAFE_INTEGER = true /\
      JsDouble.lt (scan_distance tz' latitude longitude)
                  (scan_distance tz latitude longitude) = false /\
      ((j < i)%nat ->
       JsDouble.lt (scan_distance tz latitude longitude)
                   (scan_distance tz' latitude longitude) = true).
Proof.
  intros Hne Hix.
  set (lat := JsDouble.mul latitude (JsDouble.of_Z 10000)).
  set (lon := JsDouble.mul longitude (JsDouble.of_Z 10000)).
  assert (Hrun : getApproxLocation_at db latitude longitude s
    = match db !! fst (nearest_loop lat lon (build_spatial_index db)
                         (O, MAX_SAFE_INTEGER)) with
      | Some tz => Ok (tz1_tz_id tz) (set_spatial_index (Some (build_spatial_index db)) s)
      | None => Throw TypeError (set_spatial_index (Some (build_spatial_index db)) s)
      end).
  { unfold getApproxLocation_at.
    cbv beta iota delta [bind get ret throw modify]. fold lat lon.
    destruct Hix as [E|E]; rewrite E.
    - destruct (nearest_loop _ _ _ _) as [ni md]. cbn [fst].
      destruct (db !! ni); reflexivity.
    - assert (Hs : set_spatial_index (Some (build_spatial_index db)) s = s).
      { destruct s. cbn in E. subst. reflexivity. }
      rewrite Hs.
      destruct (nearest_loop _ _ _ _) as [ni md]. cbn [fst].
      destruct (db !! ni); reflexivity. }
  rewrite Hrun. clear Hrun.
  destruct (nearest_loop_spec lat lon (build_spatial_index db) (O, MAX_SAFE_INTEGER))
    as [[Hr Hall]|(p & e & Hp & Hr & Hlt & Hall)]; cbn [snd] in *.
  - rewrite Hr. cbn [fst].
    destruct db as [|tz0 rest] eqn:Edb; [congruence|]. rewrite <- Edb in *.
    exists O, tz0. split; [rewrite Edb; reflexivity|].
    split; [rewrite Edb at 1; reflexivity|].
    intros j tz' Hj Hbelow. exfalso.
    destruct (entry_of_row j tz' latitude longitude Hj) as (e' & He' & _ & Hd).
    fold lat lon in Hd. specialize (Hall j e' He'). congruence.
  - rewrite Hr.
    pose proof Hp as Hp'. rewrite build_spatial_index_lookup in Hp'.
    destruct (db !! p) as [tz|] eqn:Etz; [|discriminate].
    destruct (entry_of_row p tz latitude longitude Etz) as (e0 & He0 & Hi0 & Hd0).
    rewrite Hp in He0. injection He0 as <-. fold lat lon in Hd0.
    rewrite Hi0, Etz.
    exists p, tz. split; [exact Etz|]. split; [reflexivity|].
    intros j tz' Hj Hbelow.
    destruct (entry_of_row j tz' latitude longitude Hj) as (e' & He' & _ & Hd).
    fold lat lon in Hd.
    destruct (Hall j e' He') as [H1 H2]. rewrite Hd0, Hd in *.
    split; [exact Hlt|]. split; [exact H1|].
    intros Hji. apply H2; [exact Hji|exact Hbelow].
Qed.

(** X21.  Over an empty table [getApproxLocation] throws a [TypeError],
    whatever the coordinates. *)
Theorem getApproxLocation_empty_table (latitude longitude : Q) (s : Timezones) :
  db = [] ->
  spatial_index s = None ->
  getApproxLocation db latitude longitude s
  = Throw TypeError (set_spatial_index (Some []) s).
Proof.
  intros -> E. unfold getApproxLocation, getApproxLocation_at.
  cbv beta iota delta [bind get ret throw modify]. rewrite E. reflexivity.
Qed.

End WithEnv.

(** The theorem at work on the point 52 N, 21 E. *)
Lemma getApproxLocation_nearest_witness :
  let latitude := JsDouble.of_Z 52 in
  let longitude := JsDouble.of_Z 21 in
  exists i tz,
    Sample.table !! i = Some tz /\
    getApproxLocation_at Sample.table latitude longitude blank
    = Ok (tz1_tz_id tz) (set_spatial_index (Some (build_spatial_index Sample.table)) blank) /\
    forall j tz',
      Sample.table !! j = Some tz' ->
      JsDouble.lt (scan_distance tz' latitude longitude) MAX_SAFE_INTEGER = true ->
      JsDouble.lt (scan_distance tz latitude longitude) MAX_SAFE_INTEGER = true /\
      JsDouble.lt (scan_distance tz' latitude longitude)
                  (scan_distance tz latitude longitude) = false /\
      ((j < i)%nat ->
       JsDouble.lt (scan_distance tz latitude longitude)
                   (scan_distance tz' latitude longitude) = true).
Proof.
  intros latitude longitude.
  apply (getApproxLocation_nearest Sample.table latitude longitude blank).
  - discriminate.
  - left. reflexivity.
Defined.

Lemma getApproxLocation_empty_table_witness :
  getApproxLocation [] (52 # 1) (21 # 1) blank
  = Throw TypeError (set_spatial_index (Some []) blank).
Proof.
  apply (getApproxLocation_empty_table [] (52 # 1) (21 # 1) blank); reflexivity.
Defined.

End GeoTheorems.

(* ===================================================================== *)
(** ** What is fixed at construction *)
(* ===================================================================== *)

Module FrameTheorems.
Import JsString Tz CacheFacts InvariantFacts StableFacts.
Local Open Scope Z_scope.

(** X22.  The hint and the row that the constructor stored are never
    changed by a public method of an instance, and the spatial index is
    absent or the one built from the table, whether the method returns or
    throws: [getDate], [getTime], [getHours], [getMinutes] and [getSeconds]
    (the three are [getField] with their getter), [convertToTimeZone],
    [getLocation], [clearCache], [getDaylightStatus],
    [getLocationAndDaylightStatus], [getTimezoneInfo], [getApproxLocation],
    [getTimeUntilNextDstChange] and [formatTimeUntilNextDstChange].  The two
    static methods only set and read the clock, which is the parameter
    [now]. *)
Theorem instance_fields_fixed db host now (h : hint) (d : option ZoneRecord) :
  (forall h0, fixed_fields db (default_offset (constructor db h0))
                (tz_data (constructor db h0)) (constructor db h0)) /\
  preserves (fixed_fields db h d) clearCache /\
  preserves (fixed_fields db h d) (getLocation db host now) /\
  (forall loc, preserves (fixed_fields db h d) (getDaylightStatus db host now loc)) /\
  preserves (fixed_fields db h d) (getLocationAndDaylightStatus db host now) /\
  (forall i, preserves (fixed_fields db h d) (getTimezoneInfo db i)) /\
  preserves (fixed_fields db h d) (getDate db host now) /\
  preserves (fixed_fields db h d) (getTime db host now) /\
  preserves (fixed_fields db h d) (getHours db host now) /\
  preserves (fixed_fields db h d) (getMinutes db host now) /\
  preserves (fixed_fields db h d) (getSeconds db host now) /\
  (forall f, preserves (fixed_fields db h d) (getField db host now f)) /\
  (forall date target,
     preserves (fixed_fields db h d) (convertToTimeZone db host date target)) /\
  preserves (fixed_fields db h d) (getTimeUntilNextDstChange db host now) /\
  preserves (fixed_fields db h d) (formatTimeUntilNextDstChange db host now) /\
  (forall lat lon, preserves (fixed_fields db h d) (getApproxLocation db lat lon)).
Proof.
  repeat lazymatch goal with |- _ /\ _ => split end.
  - intros h0. unfold fixed_fields. cbn. auto.
  - intros s Hs. exact Hs.
  - apply stable_getLocation; intros; assumption.
  - intros loc. apply stable_getDaylightStatus; intros; assumption.
  - apply stable_getLocationAndDaylightStatus; intros; assumption.
  - intros i. apply stable_getTimezoneInfo; intros; assumption.
  - apply stable_getDate; intros; assumption.
  - apply stable_getTime; intros; assumption.
  - apply stable_getField; intros; assumption.
  - apply stable_getField; intros; assumption.
  - apply stable_getField; intros; assumption.
  - intros f. apply stable_getField; intros; assumption.
  - intros date target. apply stable_convertToTimeZone; intros; assumption.
  - apply stable_getTimeUntilNextDstChange; intros; assumption.
  - apply stable_formatTimeUntilNextDstChange; intros; assumption.
  - intros lat lon s (Hh & Hd & Hix). unfold getApproxLocation, getApproxLocation_at.
    cbv beta iota delta [bind get ret throw modify].
    destruct (spatial_index s) as [ix|] eqn:E.
    + destruct (nearest_loop _ _ _ _) as [ni md].
      destruct (db !! ni); cbn [final]; unfold fixed_fields; rewrite E; auto.
    + destruct (nearest_loop _ _ _ _) as [ni md].
      destruct (db !! ni); cbn; unfold fixed_fields; cbn; auto.
Qed.

End FrameTheorems.

(* ===================================================================== *)
(** ** Printed offsets, clock fields and countdowns *)
(* ===================================================================== *)

Module FormatTheorems.
Import JsNum JsString JsDate Tz CacheFacts CodecFacts.
Local Open Scope string_scope.
Local Open Scope Z_scope.

Lemma is_digit_In c : is_digit c = true -> In c digits.
Proof.
  destruct c as [[] [] [] [] [] [] [] []]; cbn; intros H;
    try discriminate; tauto.
Qed.

Lemma sign_HH_MM_listed str : sign_HH_MM str = true -> In str offset_strings.
Proof.
  destruct str as [|sg [|h1 [|h2 [|c [|m1 [|m2 [|? ?]]]]]]]; try discriminate;
    try (unfold sign_HH_MM; destruct c as [[] [] [] [] [] [] [] []]; discriminate).
  destruct (Ascii.eqb_spec c ":"); [subst c|].
  2:{ unfold sign_HH_MM.
      destruct c as [[] [] [] [] [] [] [] []]; try discriminate; congruence. }
  unfold sign_HH_MM.
  rewrite !andb_true_iff, orb_true_iff, !Ascii.eqb_eq.
  intros ((((Hsg & H1) & H2) & H3) & H4).
  apply is_digit_In in H1, H2, H3, H4.
  unfold offset_strings.
  apply in_flat_map. exists sg. split; [destruct Hsg as [->| ->]; cbn; auto|].
  apply in_flat_map. exists h1. split; [exact H1|].
  apply in_flat_map. exists h2. split; [exact H2|].
  apply in_flat_map. exists m1. split; [exact H3|].
  apply in_map_iff. exists m2. split; [reflexivity|exact H4].
Qed.

Lemma reparse_all :
  forallb (fun str => negb (canonical_offset str) || reparse_ok str) offset_strings = true.
Proof. vm_compute. reflexivity. Qed.

(** X23.  Parsing a canonical offset string and formatting the result gives
    the string back. *)
Theorem offset_string_roundtrip (str : string) (s : Timezones) :
  canonical_offset str = true ->
  offset_cache_ok s ->
  exists v, value (str2offset str s) = Some v /\ offset2str v = str.
Proof.
  intros Hc Hs.
  destruct (str2offset_value str s Hs) as (s' & E & _).
  exists (str2offset_compute str). rewrite E. split; [reflexivity|].
  assert (Hin : In str offset_strings).
  { apply sign_HH_MM_listed. unfold canonical_offset in Hc.
    apply andb_true_iff in Hc as [Hc _]. apply andb_true_iff in Hc as [Hc _].
    exact Hc. }
  pose proof reparse_all as Hall. rewrite forallb_forall in Hall.
  specialize (Hall str Hin). rewrite Hc in Hall. cbn in Hall.
  now apply String.eqb_eq in Hall.
Qed.

Lemma offset_string_roundtrip_witness :
  exists v, value (str2offset "-03:30" blank) = Some v /\ offset2str v = "-03:30".
Proof.
  apply (offset_string_roundtrip "-03:30" blank).
  - reflexivity.
  - intros k v. cbn. rewrite lookup_empty. discriminate.
Defined.

Section WithEnv.
Variable db : list ZoneRecord.
Variable host : Z -> Z.
Variable now : Z.

(** X24.  For a countdown that is not negative, the sentence of
    [formatTimeUntilNextDstChange] carries days, hours below 24, minutes
    below 60 and seconds below 60 that add up to the countdown without its
    milliseconds, and says "starts" exactly for a change to DST. *)
Theorem formatTimeUntilNextDstChange_parts
    (s s' : Timezones) (info : dst_change) (t : Z) :
  getTimeUntilNextDstChange db host now s = Ok (Some info) s' ->
  time_until_change info = Num t ->
  0 <= t ->
  exists d h m sec,
    formatTimeUntilNextDstChange db host now s
    = Ok ("Time until DST " ++ (if change_to_dst info then "starts" else "ends") ++ ": "
          ++ Z_to_string d ++ " days, " ++ Z_to_string h ++ " hours, "
          ++ Z_to_string m ++ " minutes, and " ++ Z_to_string sec ++ " seconds") s' /\
    t - t mod 1000 = (((d * 24 + h) * 60 + m) * 60 + sec) * 1000 /\
    0 <= d /\ 0 <= h < 24 /\ 0 <= m < 60 /\ 0 <= sec < 60.
Proof.
  intros E Ht Hpos.
  exists (t / 86400000), (t mod 86400000 / 3600000),
         (t mod 3600000 / 60000), (t mod 60000 / 1000).
  split.
  - unfold formatTimeUntilNextDstChange. unfold bind at 1. rewrite E.
    rewrite Ht. unfold dhms. rewrite !Z.rem_mod_nonneg by lia.
    reflexivity.
  - zdiv.
Qed.

(** X25.  [getHours], [getMinutes] and [getSeconds] return the field that
    the date of [getDate] reports, and leave the same state, as soon as the
    instance's row is the first row of the table with its identifier. *)
Theorem getField_matches_getDate (f : Z -> Z) (s : Timezones) :
  (forall d, tz_data s = Some d ->
     List.find (fun tz => String.eqb (tz1_tz_id tz) (tz1_tz_id d)) db = Some d) ->
  getField db host now f s
  = (do zd <- getDate db host now; ret (date_field f (local_time zd))) s.
Proof.
  intros Hrow.
  unfold getField, getCurrentTimeWithOffset, own_offset, getDate,
    getLocationAndDaylightStatus.
  cbv beta iota delta [bind get ret].
  destruct (tz_data s) as [d|] eqn:Ed; cbv beta iota;
    repeat (rewrite Ed; cbv beta iota).
  - destruct (getDaylightStatus db host now None s) as [b s1|e s1]; [|reflexivity].
    cbv beta iota. rewrite (Hrow d eq_refl).
    destruct (str2offset _ s1) as [m s2|e s2]; reflexivity.
  - destruct (getLocation db host now s) as [l s1|e s1]; [|reflexivity].
    destruct (getDaylightStatus db host now None s1) as [b s2|e s2]; [|reflexivity].
    cbv beta iota.
    destruct (List.find _ db) as [tz|].
    + destruct (str2offset _ s2) as [m s3|e s3]; reflexivity.
    + reflexivity.
Qed.

End WithEnv.

Lemma formatTimeUntilNextDstChange_parts_witness :
  exists str s',
    formatTimeUntilNextDstChange Sample.table Sample.host_utc Sample.july_2024
      (constructor Sample.table (HStr "America/New_York")) = Ok str s'.
Proof.
  destruct (getTimeUntilNextDstChange Sample.table Sample.host_utc Sample.july_2024
              (constructor Sample.table (HStr "America/New_York")))
    as [[[nc [|t] ctd]|] s'|e s'] eqn:E;
    try (vm_compute in E; discriminate).
  assert (Ht : 0 <= t).
  { pose proof E as E'. vm_compute in E'. injection E' as _ <- _ _. discriminate. }
  destruct (formatTimeUntilNextDstChange_parts Sample.table Sample.host_utc
              Sample.july_2024 _ s' _ t E eq_refl Ht) as (d & h & m & sec & Hrun & _).
  eexists _, s'. exact Hrun.
Defined.

Lemma getField_matches_getDate_witness :
  getHours Sample.table Sample.host_utc Sample.july_2024
    (constructor Sample.table (HStr "Europe/Warsaw"))
  = (do zd <- getDate Sample.table Sample.host_utc Sample.july_2024;
     ret (date_field HourFromTime (local_time zd)))
      (constructor Sample.table (HStr "Europe/Warsaw")).
Proof.
  apply (getField_matches_getDate Sample.table Sample.host_utc Sample.july_2024
           HourFromTime (constructor Sample.table (HStr "Europe/Warsaw"))).
  intros d Hd. vm_compute in Hd. injection Hd as <-. reflexivity.
Defined.

End FormatTheorems.

(* ===================================================================== *)
(** ** Instances that hold a row *)
(* ===================================================================== *)

Module ZoneClockTheorems.
Import JsNum JsString JsDate Tz CacheFacts CodecFacts.
Local Open Scope string_scope.
Local Open Scope Z_scope.

Section WithEnv.
Variable db : list ZoneRecord.
Variable host : Z -> Z.
Variable now : Z.

Lemma getDaylightStatus_of_row loc s d :
  tz_data s = Some d ->
  caches_ok db host s ->
  agrees db host (getDaylightStatus db host now loc s)
         (isDst_pure host now (tz9_dst_rule d)) s.
Proof.
  intros Hd Hs. unfold getDaylightStatus.
  change (bind get ?k s) with (k s s). cbv beta. rewrite Hd.
  apply isDstPeriod_agrees, Hs.
Qed.

(** X26.  An instance that holds a row answers [getDaylightStatus] from the
    rule of that row at the current date: neither the argument nor the
    status cache is read, and the status cache is not written. *)
Theorem getDaylightStatus_own_rule (loc : option string) (s : Timezones) (d : ZoneRecord) :
  tz_data s = Some d ->
  caches_ok db host s ->
  value (getDaylightStatus db host now loc s) = isDst_pure host now (tz9_dst_rule d) /\
  dst_status_cache (final (getDaylightStatus db host now loc s)) = dst_status_cache s.
Proof.
  intros Hd Hs.
  destruct (getDaylightStatus_of_row loc s d Hd Hs) as (Hv & _ & Hc).
  split; [exact Hv|]. symmetry. apply Hc.
Qed.

(** X27.  For an instance that holds a row, [getDate] shifts the current
    instant by the parsed DST offset of the row when the rule puts the
    current date in the DST period, and by its parsed standard offset when
    not. *)
Theorem getDate_of_row (s : Timezones) (d : ZoneRecord) (b : bool) :
  tz_data s = Some d ->
  List.find (fun tz => String.eqb (tz1_tz_id tz) (tz1_tz_id d)) db = Some d ->
  caches_ok db host s ->
  isDst_pure host now (tz9_dst_rule d) = Some b ->
  let m := str2offset_compute (if b then tz3_utc_dst d else tz2_utc_sdt d) in
  value (getDate db host now s) = Some (mkZoned (shift_by now (Some m)) (Some m)).
Proof.
  intros Hd Hfind Hs Hb m.
  destruct (getDaylightStatus_of_row None s d Hd Hs) as (Hv & Hok & _).
  unfold getDate, getLocationAndDaylightStatus.
  cbv beta iota delta [bind get ret]. rewrite Hd. cbv beta iota.
  destruct (getDaylightStatus db host now None s) as [b' s1|e s1];
    cbn [value final] in Hv, Hok; [|congruence].
  assert (b' = b) by congruence. subst b'.
  cbv beta iota. rewrite Hfind.
  destruct (str2offset_value (if b then tz3_utc_dst d else tz2_utc_sdt d) s1
              (offset_ok _ _ _ Hok)) as (s2 & E & _).
  rewrite E. reflexivity.
Qed.

End WithEnv.

Lemma getDaylightStatus_own_rule_witness :
  value (getDaylightStatus Sample.table Sample.host_utc Sample.july_2024
           (Some "Asia/Tokyo") (constructor Sample.table (HStr "Europe/Warsaw")))
  = Some true.
Proof.
  destruct (getDaylightStatus_own_rule Sample.table Sample.host_utc Sample.july_2024
              (Some "Asia/Tokyo") (constructor Sample.table (HStr "Europe/Warsaw"))
              Sample.Warsaw eq_refl (caches_ok_constructor _ _ _)) as [Hv _].
  rewrite Hv. vm_compute. reflexivity.
Defined.

Lemma getDate_of_row_witness :
  value (getDate Sample.table Sample.host_utc Sample.july_2024
           (constructor Sample.table (HStr "Europe/Warsaw")))
  = Some (mkZoned (Num (Sample.july_2024 + 7200000)) (Some (Num 120))).
Proof.
  exact (getDate_of_row Sample.table Sample.host_utc Sample.july_2024
           (constructor Sample.table (HStr "Europe/Warsaw")) Sample.Warsaw true
           eq_refl eq_refl (caches_ok_constructor _ _ _) eq_refl).
Defined.

End ZoneClockTheorems.

(* ===================================================================== *)
(** ** The next transition *)
(* ===================================================================== *)

Module CountdownTheorems.
Import JsNum JsString JsDate Tz DateFacts CacheFacts InvariantFacts
       TransitionTheorems LocationTheorems.
Local Open Scope string_scope.
Local Open Scope Z_scope.

Lemma later_year_later_time a b : YearFromTime a < YearFromTime b -> a < b.
Proof.
  unfold YearFromTime. intros H.
  pose proof (YearFromDay_spec (Day a)) as Ha.
  pose proof (YearFromDay_spec (Day b)) as Hb.
  pose proof (DayFromYear_mono (YearFromDay (Day a) + 1) (YearFromDay (Day b)) ltac:(lia)).
  assert (Hd : Day a < Day b) by lia.
  revert Hd. unfold Day, msPerDay. zdiv.
Qed.

Section WithEnv.
Variable db : list ZoneRecord.
Variable host : Z -> Z.
Variable now : Z.

(** The closure [calculateDstDate] of [getTimeUntilNextDstChange]. *)
Lemma calculateDstDate_run year month week s :
  caches_ok db host s ->
  -271000 <= year <= 275000 -> ~ (0 <= year <= 99) ->
  1 <= month <= 12 -> 0 <= week <= 5 ->
  exists day t s',
    nthWeekdayOfMonth year month 0 week s = Ok day s' /\
    DateUTC year (month - 1) day 2 0 0 = Num t /\
    YearFromTime t = year /\
    caches_ok db host s' /\ tz_data s' = tz_data s.
Proof.
  intros Hs Hy H99 Hm Hw.
  destruct (dst_boundary_spec year month week Hy H99 Hm Hw) as (t & Hb & HY & _).
  destruct (nthWeekdayOfMonth_agrees db host year month 0 week s Hs) as (Hv & Hok & Hc).
  unfold dst_boundary in Hb.
  destruct (nth_pure year month 0 week) as [day|]; [|discriminate].
  destruct (nthWeekdayOfMonth year month 0 week s) as [day' s'|e s'];
    cbn [value final] in *; [|discriminate].
  injection Hv as ->.
  destruct (DateUTC year (month - 1) day 2 0 0) as [|t'] eqn:Et; [discriminate|].
  injection Hb as ->.
  destruct Hc as (_ & _ & _ & _ & Hc & _).
  exists day, t, s'. split; [reflexivity|]. split; [exact Et|].
  split; [exact HY|]. split; [exact Hok|]. symmetry. exact Hc.
Qed.

(** X28.  For an instance that holds a row whose rule is not ["00"],
    [getTimeUntilNextDstChange] returns a transition that lies strictly
    after the zoned current time, to the second: the countdown is
    positive. *)
Theorem getTimeUntilNextDstChange_is_ahead
    (s s1 : Timezones) (d : ZoneRecord) (zd : zoned_date) (lt_ : Z) :
  caches_ok db host s ->
  tz_data s = Some d ->
  tz9_dst_rule d <> "00" ->
  getDate db host now s = Ok zd s1 ->
  local_time zd = Num lt_ ->
  -271000 <= YearFromTime lt_ < 275000 ->
  ~ (-1 <= YearFromTime lt_ <= 99) ->
  1 <= start_month_of (parseInt16 (tz9_dst_rule d)) <= 12 ->
  1 <= end_month_of (parseInt16 (tz9_dst_rule d)) <= 12 ->
  start_week_of (parseInt16 (tz9_dst_rule d)) <= 5 ->
  end_week_of (parseInt16 (tz9_dst_rule d)) <= 5 ->
  exists info s' next,
    getTimeUntilNextDstChange db host now s = Ok (Some info) s' /\
    next_change info = Num next /\
    time_until_change info = Num (next - (lt_ - lt_ mod 1000)) /\
    lt_ - lt_ mod 1000 < next.
Proof.
  intros Hs Hd H00 Hdate Hlt Hy H99 Hsm Hem Hsw Hew.
  set (rule := parseInt16 (tz9_dst_rule d)) in *.
  assert (Hsw0 : 0 <= start_week_of rule)
    by (unfold start_week_of; apply Z.land_nonneg; right; lia).
  assert (Hew0 : 0 <= end_week_of rule)
    by (unfold end_week_of; apply Z.land_nonneg; right; lia).
  pose proof (ok_getDate db host now s Hs) as Hs1.
  pose proof (getDate_keeps_row db host now s) as Hd1.
  rewrite Hdate in Hs1, Hd1. cbn [final] in Hs1, Hd1. rewrite Hd in Hd1.
  set (Y := YearFromTime lt_) in *.
  destruct (calculateDstDate_run Y (start_month_of rule) (start_week_of rule) s1
              Hs1 ltac:(lia) ltac:(lia) Hsm (conj Hsw0 Hsw))
    as (day1 & t1 & s2 & E1 & D1 & Y1 & Hs2 & Hd2).
  destruct (calculateDstDate_run Y (end_month_of rule) (end_week_of rule) s2
              Hs2 ltac:(lia) ltac:(lia) Hem (conj Hew0 Hew))
    as (day2 & t2 & s3 & E2 & D2 & Y2 & Hs3 & Hd3).
  destruct (calculateDstDate_run (Y + 1) (start_month_of rule) (start_week_of rule) s3
              Hs3 ltac:(lia) ltac:(lia) Hsm (conj Hsw0 Hsw))
    as (day3 & t3 & s4 & E3 & D3 & Y3 & Hs4 & Hd4).
  assert (Hnow : DateUTC (YearFromTime lt_) (MonthFromTime lt_) (DateFromTime lt_)
                   (HourFromTime lt_) (MinFromTime lt_) (SecFromTime lt_)
                 = Num (lt_ - lt_ mod 1000)).
  { rewrite DateUTC_fields by (fold Y; lia).
    pose proof (year_range_valid lt_ ltac:(fold Y; lia)) as Hv.
    unfold TimeClip.
    destruct (Z.ltb_spec maxTime (Z.abs (lt_ - lt_ mod 1000))) as [H|H]; [|reflexivity].
    exfalso. unfold maxTime in *. zdiv. }
  assert (Hrun : getTimeUntilNextDstChange db host now s
    = Ok (Some (let '(next_change, change_to_dst) :=
                  if JsNum.lt (Num (lt_ - lt_ mod 1000)) (Num t1) then (Num t1, true)
                  else if JsNum.lt (Num (lt_ - lt_ mod 1000)) (Num t2) then (Num t2, false)
                  else (Num t3, true) in
                mkChange next_change (num_sub next_change (Num (lt_ - lt_ mod 1000)))
                         change_to_dst)) s4).
  { unfold getTimeUntilNextDstChange. unfold bind at 1. rewrite Hdate.
    change (bind get ?k s1) with (k s1 s1). cbv beta. rewrite Hd1.
    cbn [fmap option_fmap option_map].
    assert (Hinfo : getTimezoneInfo db (Some (tz1_tz_id d)) s1 = Ok (Some d) s1).
    { unfold getTimezoneInfo. change (bind get ?k s1) with (k s1 s1). cbv beta.
      rewrite Hd1, String.eqb_refl. reflexivity. }
    unfold bind at 1. rewrite Hinfo. cbn [fmap option_fmap option_map].
    replace (String.eqb (tz9_dst_rule d) "00") with false
      by (symmetry; now apply String.eqb_neq).
    rewrite Hlt. unfold toISOString. unfold bind at 1. unfold ret at 1.
    fold rule. fold Y.
    unfold bind at 1. unfold bind at 1. rewrite E1. unfold ret at 1. rewrite D1.
    unfold bind at 1. unfold bind at 1. rewrite E2. unfold ret at 1. rewrite D2.
    unfold bind at 1. unfold bind at 1. rewrite E3. unfold ret at 1. rewrite D3.
    unfold Y. rewrite Hnow.
    destruct (JsNum.lt (Num (lt_ - lt_ mod 1000)) (Num t1));
      [|destruct (JsNum.lt (Num (lt_ - lt_ mod 1000)) (Num t2))]; reflexivity. }
  rewrite Hrun. clear Hrun.
  assert (H3 : lt_ - lt_ mod 1000 < t3).
  { assert (lt_ < t3) by (apply later_year_later_time; fold Y; lia). zdiv. }
  unfold JsNum.lt.
  destruct (Z.ltb_spec (lt_ - lt_ mod 1000) t1) as [H1|H1].
  - eexists _, s4, t1. repeat split. exact H1.
  - destruct (Z.ltb_spec (lt_ - lt_ mod 1000) t2) as [H2|H2].
    + eexists _, s4, t2. repeat split. exact H2.
    + eexists _, s4, t3. repeat split. exact H3.
Qed.

End WithEnv.

(** The theorem at work on a southern rule in February 2024, where the
    zone is eleven hours ahead of UTC. *)
Lemma getTimeUntilNextDstChange_is_ahead_witness :
  let lt_ := Sample.february_2024 + 39600000 in
  exists info s' next,
    getTimeUntilNextDstChange Sample.table Sample.host_utc Sample.february_2024
      (constructor Sample.table (HStr "Australia/Sydney")) = Ok (Some info) s' /\
    next_change info = Num next /\
    time_until_change info = Num (next - (lt_ - lt_ mod 1000)) /\
    lt_ - lt_ mod 1000 < next.
Proof.
  intros lt_.
  destruct (getDate Sample.table Sample.host_utc Sample.february_2024
              (constructor Sample.table (HStr "Australia/Sydney")))
    as [zd s1|e s1] eqn:E; [|vm_compute in E; discriminate].
  assert (Hlt : local_time zd = Num lt_).
  { pose proof E as E'. vm_compute in E'. injection E' as <- _. reflexivity. }
  apply (getTimeUntilNextDstChange_is_ahead Sample.table Sample.host_utc
           Sample.february_2024 (constructor Sample.table (HStr "Australia/Sydney"))
           s1 Sample.Sydney zd lt_).
  - apply caches_ok_constructor.
  - reflexivity.
  - discriminate.
  - exact E.
  - exact Hlt.
  - vm_compute. split; [discriminate|reflexivity].
  - vm_compute. intros [_ H]. apply H. reflexivity.
  - vm_compute. split; discriminate.
  - vm_compute. split; discriminate.
  - vm_compute. discriminate.
  - vm_compute. discriminate.
Defined.

End CountdownTheorems.
